(** * terraform-provider-fastly: API client and service attribute handlers

    A shallow embedding of the vendored go-fastly client operations
    (s3.go, header.go, gzip.go, server.go) and of the provider's logging
    attribute handlers (S3, Datadog) and WAF deployment checker, followed
    by the properties established about them.

    Conventions.
    - A Go [string] is a [string] (a sequence of bytes); Go's [<] on
      strings is the bytewise lexicographic order, [String.ltb].
    - A Go [int] / [uint] / [uint8] is a [Z]; conversions write out the
      wrap-around.
    - A Go [error] result is [option error] ([None] is [nil]); a pair
      [(T, error)] is [result T].
    - A [map[string]any] is a [gmap string any], where [any] keeps the
      dynamic type of the boxed value.
    - A run-time panic (failed type assertion, nil dereference) is the
      [Panics] outcome. *)

From Stdlib Require Import ZArith String Ascii List Sorted Permutation DecimalString.
From stdpp Require Import base gmap strings list sorting.

Local Open Scope Z_scope.

(* ================================================================== *)
(** * Go run-time values *)
(* ================================================================== *)

(** Errors of the go-fastly client.  The sentinel errors are the package
    variables of errors.go; [HTTPError] is [*fastly.HTTPError]; every
    other error (transport failure, undecodable body) is [OtherError]. *)
Inductive error : Type :=
| ErrMissingServiceID
| ErrMissingServiceVersion
| ErrMissingName
| ErrMissingPoolID
| ErrMissingServer
| ErrMissingAddress
| ErrMissingServerSideEncryptionKMSKeyID
| ErrNotOK
| HTTPError (StatusCode : Z) (detail : string)
| OtherError (msg : string).

Inductive result (T : Type) : Type :=
| Ok (v : T)
| Err (e : error).
Arguments Ok {T} v.
Arguments Err {T} e.

(** Outcome of code that may panic. *)
Inductive outcome (T : Type) : Type :=
| Returns (v : T)
| Panics (msg : string).
Arguments Returns {T} v.
Arguments Panics {T} msg.

Definition obind {A B} (m : outcome A) (k : A -> outcome B) : outcome B :=
  match m with
  | Returns a => k a
  | Panics msg => Panics msg
  end.

Declare Scope outcome_scope.
Delimit Scope outcome_scope with outcome.
Notation "x <~ m ; k" := (obind m (fun x => k))
  (at level 100, m at next level, right associativity) : outcome_scope.

(** The dynamic values stored in a [map[string]any].  The constructor is
    the dynamic type: a value of a named string type is not a [string]. *)
Inductive any : Type :=
| AString (s : string)
| AInt (n : Z)
| AUint (n : Z)
| AUint8 (n : Z)
| ABool (b : bool)
| AS3Redundancy (s : string)
| AS3ServerSideEncryption (s : string)
| AS3AccessControlList (s : string).

Global Instance any_eq_dec : EqDecision any.
Proof. solve_decision. Defined.

(** [uint(n)] and [uint8(n)] on a 64-bit platform. *)
Definition uint_of_int (n : Z) : Z := n mod 2 ^ 64.
Definition uint8_of_int (n : Z) : Z := n mod 2 ^ 8.

(** [fmt.Sprintf("%d", n)]. *)
Definition itoa (n : Z) : string := NilZero.string_of_int (Z.to_int n).

(* ================================================================== *)
(** * sort.Stable *)
(* ================================================================== *)

(** [sort.Stable(data)] sorts by [data.Less], keeping the original order
    of equal elements.  It is modelled by the insertion pass the Go
    library runs on each block: every element in turn is swapped
    leftwards while [Less(j, j-1)].  The prefix already sorted is kept
    reversed, so its head is the element at [j-1]. *)
Section sort_Stable.
Context {A : Type} (Less : A -> A -> bool).

Fixpoint insert_back (x : A) (racc : list A) : list A :=
  match racc with
  | [] => [x]
  | y :: r => if Less x y then y :: insert_back x r else x :: y :: r
  end.

Definition sort_Stable (data : list A) : list A :=
  reverse (fold_left (fun racc x => insert_back x racc) data []).
End sort_Stable.

(* ================================================================== *)
(** * Response records of the API (go-fastly) *)
(* ================================================================== *)

(** A [*time.Time] is an optional instant. *)
Definition Time := Z.

(** s3.go: [type S3 struct]. *)
Record S3 : Type := {
  S3_ServiceID : string;
  S3_ServiceVersion : Z;
  S3_Name : string;
  S3_BucketName : string;
  S3_Domain : string;
  S3_AccessKey : string;
  S3_SecretKey : string;
  S3_IAMRole : string;
  S3_Path : string;
  S3_Period : Z;
  S3_CompressionCodec : string;
  S3_GzipLevel : Z;
  S3_Format : string;
  S3_FormatVersion : Z;
  S3_ResponseCondition : string;
  S3_MessageType : string;
  S3_TimestampFormat : string;
  S3_Placement : string;
  S3_PublicKey : string;
  S3_Redundancy : string;
  S3_ServerSideEncryptionKMSKeyID : string;
  S3_ServerSideEncryption : string;
  S3_CreatedAt : option Time;
  S3_UpdatedAt : option Time;
  S3_DeletedAt : option Time;
  S3_ACL : string
}.

(** header.go: [type Header struct]. *)
Record Header : Type := {
  Header_ServiceID : string;
  Header_ServiceVersion : Z;
  Header_Name : string;
  Header_Action : string;
  Header_IgnoreIfSet : bool;
  Header_Type : string;
  Header_Destination : string;
  Header_Source : string;
  Header_Regex : string;
  Header_Substitution : string;
  Header_Priority : Z;
  Header_RequestCondition : string;
  Header_CacheCondition : string;
  Header_ResponseCondition : string;
  Header_CreatedAt : option Time;
  Header_UpdatedAt : option Time;
  Header_DeletedAt : option Time
}.

(** gzip.go: [type Gzip struct]. *)
Record Gzip : Type := {
  Gzip_ServiceID : string;
  Gzip_ServiceVersion : Z;
  Gzip_Name : string;
  Gzip_ContentTypes : string;
  Gzip_Extensions : string;
  Gzip_CacheCondition : string;
  Gzip_CreatedAt : option Time;
  Gzip_UpdatedAt : option Time;
  Gzip_DeletedAt : option Time
}.

(** server.go: [type Server struct].  A server has no name: it is
    identified by [ID] within a pool. *)
Record Server : Type := {
  Server_ServiceID : string;
  Server_PoolID : string;
  Server_ID : string;
  Server_Address : string;
  Server_Comment : string;
  Server_Weight : Z;
  Server_MaxConn : Z;
  Server_Port : Z;
  Server_Disabled : bool;
  Server_OverrideHost : string;
  Server_CreatedAt : option Time;
  Server_DeletedAt : option Time;
  Server_UpdatedAt : option Time
}.

(** Modelled from the spec: the [statusResp] type and its [Ok] method are
    declared in a go-fastly file that is not part of the sources at hand.
    The spec describes the delete response as "a status object with an
    [ok] boolean field, non-true treated as failure". *)
Record statusResp : Type := { statusResp_ok : bool }.

Definition statusResp_Ok (r : statusResp) : bool := statusResp_ok r.

(* ================================================================== *)
(** * The HTTP client *)
(* ================================================================== *)

Inductive Method : Type := GET | POST | PUT | DELETE.

(** A form body is the list of its key/value pairs. *)
Definition Form := list (string * string).

Record Request : Type := {
  req_method : Method;
  req_path : string;
  req_form : Form
}.

(** A response body is represented by the value its JSON decodes to. *)
Inductive Body : Type :=
| BodyS3s (l : list S3)
| BodyS3 (s : S3)
| BodyHeaders (l : list Header)
| BodyHeader (h : Header)
| BodyGzips (l : list Gzip)
| BodyGzip (g : Gzip)
| BodyServers (l : list Server)
| BodyServer (s : Server)
| BodyStatus (r : statusResp)
| BodyUndecodable (msg : string).

(** The client talks to a remote control plane whose answer may depend on
    everything it was sent before. *)
Record Client : Type := {
  remote : list Request -> Request -> result Body
}.

(** Client operations thread the log of requests put on the wire. *)
Definition net (T : Type) : Type := list Request -> T * list Request.

Definition net_ret {T} (v : T) : net T := fun log => (v, log).

Definition net_bind {A B} (m : net A) (k : A -> net B) : net B :=
  fun log => let '(a, log') := m log in k a log'.

Declare Scope net_scope.
Delimit Scope net_scope with net.
Notation "x <- m ;; k" := (net_bind m (fun x => k))
  (at level 100, m at next level, right associativity) : net_scope.

(** [c.Request]: one round trip, logged. *)
Definition roundtrip (c : Client) (r : Request) : net (result Body) :=
  fun log => (remote c log r, log ++ [r]).

Definition Client_Get (c : Client) (path : string) : net (result Body) :=
  roundtrip c {| req_method := GET; req_path := path; req_form := [] |}.
Definition Client_PostForm (c : Client) (path : string) (f : Form) : net (result Body) :=
  roundtrip c {| req_method := POST; req_path := path; req_form := f |}.
Definition Client_PutForm (c : Client) (path : string) (f : Form) : net (result Body) :=
  roundtrip c {| req_method := PUT; req_path := path; req_form := f |}.
Definition Client_Delete (c : Client) (path : string) : net (result Body) :=
  roundtrip c {| req_method := DELETE; req_path := path; req_form := [] |}.

(** [decodeBodyMap] at each target type. *)
Definition decode_error (b : Body) : error :=
  match b with
  | BodyUndecodable msg => OtherError msg
  | _ => OtherError "cannot decode body into the target type"
  end.

Definition decodeS3s (b : Body) : result (list S3) :=
  match b with BodyS3s l => Ok l | _ => Err (decode_error b) end.
Definition decodeS3 (b : Body) : result S3 :=
  match b with BodyS3 s => Ok s | _ => Err (decode_error b) end.
Definition decodeHeaders (b : Body) : result (list Header) :=
  match b with BodyHeaders l => Ok l | _ => Err (decode_error b) end.
Definition decodeHeader (b : Body) : result Header :=
  match b with BodyHeader h => Ok h | _ => Err (decode_error b) end.
Definition decodeGzips (b : Body) : result (list Gzip) :=
  match b with BodyGzips l => Ok l | _ => Err (decode_error b) end.
Definition decodeGzip (b : Body) : result Gzip :=
  match b with BodyGzip g => Ok g | _ => Err (decode_error b) end.
Definition decodeServers (b : Body) : result (list Server) :=
  match b with BodyServers l => Ok l | _ => Err (decode_error b) end.
Definition decodeServer (b : Body) : result Server :=
  match b with BodyServer s => Ok s | _ => Err (decode_error b) end.
Definition decodeStatus (b : Body) : result statusResp :=
  match b with BodyStatus r => Ok r | _ => Err (decode_error b) end.

(** [url.PathEscape]: every byte is percent-encoded except letters,
    digits and the marks a path segment may carry unescaped. *)
Definition hex_digit (n : N) : ascii :=
  match String.get (N.to_nat n) "0123456789ABCDEF" with
  | Some c => c
  | None => "0"%char
  end.

Definition is_alnum (c : ascii) : bool :=
  let n := N_of_ascii c in
  ((48 <=? n) && (n <=? 57) || (65 <=? n) && (n <=? 90) || (97 <=? n) && (n <=? 122))%N.

Definition path_segment_safe (c : ascii) : bool :=
  is_alnum c ||
  bool_decide (c ∈ ["-"; "_"; "."; "~"; "$"; "&"; "+"; ":"; "="; "@"]%char).

Fixpoint PathEscape (s : string) : string :=
  match s with
  | EmptyString => EmptyString
  | String c s' =>
      if path_segment_safe c then String c (PathEscape s')
      else String "%" (String (hex_digit (N_of_ascii c / 16))
                         (String (hex_digit (N_of_ascii c mod 16)) (PathEscape s')))
  end.

(** Form encoding of the tagged struct fields. [omitempty] drops a
    string that is empty, a number that is zero, a boolean that is false
    and a pointer that is nil; an untagged field is always written,
    under its Go name. *)
Definition field_string (k v : string) : Form :=
  if decide (v = EmptyString) then [] else [(k, v)].
Definition field_uint (k : string) (v : Z) : Form :=
  if decide (v = 0) then [] else [(k, itoa v)].
Definition field_bool (k : string) (v : bool) : Form :=
  if v then [(k, "true")] else [].
Definition field_ptr {T} (show : T -> string) (k : string) (v : option T) : Form :=
  match v with
  | Some x => [(k, show x)]
  | None => []
  end.
Definition show_bool (b : bool) : string := if b then "true" else "false".

(* ================================================================== *)
(** * s3.go *)
(* ================================================================== *)

Definition S3ServerSideEncryptionAES : string := "AES256".
Definition S3ServerSideEncryptionKMS : string := "aws:kms".

(** [s3sByName.Less]. *)
Definition s3sByName_Less (a b : S3) : bool := String.ltb (S3_Name a) (S3_Name b).

Record ListS3sInput : Type := {
  ListS3sInput_ServiceID : string;
  ListS3sInput_ServiceVersion : Z
}.

Definition ListS3s (c : Client) (i : ListS3sInput) : net (result (list S3)) :=
  if decide (ListS3sInput_ServiceID i = "") then net_ret (Err ErrMissingServiceID)
  else if decide (ListS3sInput_ServiceVersion i = 0) then net_ret (Err ErrMissingServiceVersion)
  else
    let path := "/service/" +:+ ListS3sInput_ServiceID i +:+ "/version/"
                +:+ itoa (ListS3sInput_ServiceVersion i) +:+ "/logging/s3" in
    (resp <- Client_Get c path ;;
     match resp with
     | Err err => net_ret (Err err)
     | Ok body =>
         match decodeS3s body with
         | Err err => net_ret (Err err)
         | Ok s3s => net_ret (Ok (sort_Stable s3sByName_Less s3s))
         end
     end)%net.

Record CreateS3Input : Type := {
  CreateS3Input_ServiceID : string;
  CreateS3Input_ServiceVersion : Z;
  CreateS3Input_Name : string;
  CreateS3Input_BucketName : string;
  CreateS3Input_Domain : string;
  CreateS3Input_AccessKey : string;
  CreateS3Input_SecretKey : string;
  CreateS3Input_IAMRole : string;
  CreateS3Input_Path : string;
  CreateS3Input_Period : Z;
  CreateS3Input_CompressionCodec : string;
  CreateS3Input_GzipLevel : Z;
  CreateS3Input_Format : string;
  CreateS3Input_MessageType : string;
  CreateS3Input_FormatVersion : Z;
  CreateS3Input_ResponseCondition : string;
  CreateS3Input_TimestampFormat : string;
  CreateS3Input_Redundancy : string;
  CreateS3Input_Placement : string;
  CreateS3Input_PublicKey : string;
  CreateS3Input_ServerSideEncryptionKMSKeyID : string;
  CreateS3Input_ServerSideEncryption : string;
  CreateS3Input_ACL : string
}.

Definition CreateS3Input_form (i : CreateS3Input) : Form :=
  [("ServiceID", CreateS3Input_ServiceID i);
   ("ServiceVersion", itoa (CreateS3Input_ServiceVersion i))]
  ++ field_string "name" (CreateS3Input_Name i)
  ++ field_string "bucket_name" (CreateS3Input_BucketName i)
  ++ field_string "domain" (CreateS3Input_Domain i)
  ++ field_string "access_key" (CreateS3Input_AccessKey i)
  ++ field_string "secret_key" (CreateS3Input_SecretKey i)
  ++ field_string "iam_role" (CreateS3Input_IAMRole i)
  ++ field_string "path" (CreateS3Input_Path i)
  ++ field_uint "period" (CreateS3Input_Period i)
  ++ field_string "compression_codec" (CreateS3Input_CompressionCodec i)
  ++ field_uint "gzip_level" (CreateS3Input_GzipLevel i)
  ++ field_string "format" (CreateS3Input_Format i)
  ++ field_string "message_type" (CreateS3Input_MessageType i)
  ++ field_uint "format_version" (CreateS3Input_FormatVersion i)
  ++ field_string "response_condition" (CreateS3Input_ResponseCondition i)
  ++ field_string "timestamp_format" (CreateS3Input_TimestampFormat i)
  ++ field_string "redundancy" (CreateS3Input_Redundancy i)
  ++ field_string "placement" (CreateS3Input_Placement i)
  ++ field_string "public_key" (CreateS3Input_PublicKey i)
  ++ field_string "server_side_encryption_kms_key_id" (CreateS3Input_ServerSideEncryptionKMSKeyID i)
  ++ field_string "server_side_encryption" (CreateS3Input_ServerSideEncryption i)
  ++ field_string "acl" (CreateS3Input_ACL i).

Definition CreateS3 (c : Client) (i : CreateS3Input) : net (result S3) :=
  if decide (CreateS3Input_ServiceID i = "") then net_ret (Err ErrMissingServiceID)
  else if decide (CreateS3Input_ServiceVersion i = 0) then net_ret (Err ErrMissingServiceVersion)
  else if decide (CreateS3Input_ServerSideEncryption i = S3ServerSideEncryptionKMS
                  ∧ CreateS3Input_ServerSideEncryptionKMSKeyID i = "")
  then net_ret (Err ErrMissingServerSideEncryptionKMSKeyID)
  else
    let path := "/service/" +:+ CreateS3Input_ServiceID i +:+ "/version/"
                +:+ itoa (CreateS3Input_ServiceVersion i) +:+ "/logging/s3" in
    (resp <- Client_PostForm c path (CreateS3Input_form i) ;;
     match resp with
     | Err err => net_ret (Err err)
     | Ok body =>
         match decodeS3 body with
         | Err err => net_ret (Err err)
         | Ok s3 => net_ret (Ok s3)
         end
     end)%net.

Record GetS3Input : Type := {
  GetS3Input_ServiceID : string;
  GetS3Input_ServiceVersion : Z;
  GetS3Input_Name : string
}.

Definition GetS3 (c : Client) (i : GetS3Input) : net (result S3) :=
  if decide (GetS3Input_ServiceID i = "") then net_ret (Err ErrMissingServiceID)
  else if decide (GetS3Input_ServiceVersion i = 0) then net_ret (Err ErrMissingServiceVersion)
  else if decide (GetS3Input_Name i = "") then net_ret (Err ErrMissingName)
  else
    let path := "/service/" +:+ GetS3Input_ServiceID i +:+ "/version/"
                +:+ itoa (GetS3Input_ServiceVersion i) +:+ "/logging/s3/"
                +:+ PathEscape (GetS3Input_Name i) in
    (resp <- Client_Get c path ;;
     match resp with
     | Err err => net_ret (Err err)
     | Ok body =>
         match decodeS3 body with
         | Err err => net_ret (Err err)
         | Ok s3 => net_ret (Ok s3)
         end
     end)%net.

(** The optional fields are pointers: [None] is the nil pointer. *)
Record UpdateS3Input : Type := {
  UpdateS3Input_ServiceID : string;
  UpdateS3Input_ServiceVersion : Z;
  UpdateS3Input_Name : string;
  UpdateS3Input_NewName : option string;
  UpdateS3Input_BucketName : option string;
  UpdateS3Input_Domain : option string;
  UpdateS3Input_AccessKey : option string;
  UpdateS3Input_SecretKey : option string;
  UpdateS3Input_IAMRole : option string;
  UpdateS3Input_Path : option string;
  UpdateS3Input_Period : option Z;
  UpdateS3Input_CompressionCodec : option string;
  UpdateS3Input_GzipLevel : option Z;
  UpdateS3Input_Format : option string;
  UpdateS3Input_FormatVersion : option Z;
  UpdateS3Input_ResponseCondition : option string;
  UpdateS3Input_MessageType : option string;
  UpdateS3Input_TimestampFormat : option string;
  UpdateS3Input_Redundancy : option string;
  UpdateS3Input_Placement : option string;
  UpdateS3Input_PublicKey : option string;
  UpdateS3Input_ServerSideEncryptionKMSKeyID : option string;
  UpdateS3Input_ServerSideEncryption : option string;
  UpdateS3Input_ACL : option string
}.

Definition UpdateS3Input_form (i : UpdateS3Input) : Form :=
  [("ServiceID", UpdateS3Input_ServiceID i);
   ("ServiceVersion", itoa (UpdateS3Input_ServiceVersion i));
   ("Name", UpdateS3Input_Name i)]
  ++ field_ptr id "name" (UpdateS3Input_NewName i)
  ++ field_ptr id "bucket_name" (UpdateS3Input_BucketName i)
  ++ field_ptr id "domain" (UpdateS3Input_Domain i)
  ++ field_ptr id "access_key" (UpdateS3Input_AccessKey i)
  ++ field_ptr id "secret_key" (UpdateS3Input_SecretKey i)
  ++ field_ptr id "iam_role" (UpdateS3Input_IAMRole i)
  ++ field_ptr id "path" (UpdateS3Input_Path i)
  ++ field_ptr itoa "period" (UpdateS3Input_Period i)
  ++ field_ptr id "compression_codec" (UpdateS3Input_CompressionCodec i)
  ++ field_ptr itoa "gzip_level" (UpdateS3Input_GzipLevel i)
  ++ field_ptr id "format" (UpdateS3Input_Format i)
  ++ field_ptr itoa "format_version" (UpdateS3Input_FormatVersion i)
  ++ field_ptr id "response_condition" (UpdateS3Input_ResponseCondition i)
  ++ field_ptr id "message_type" (UpdateS3Input_MessageType i)
  ++ field_ptr id "timestamp_format" (UpdateS3Input_TimestampFormat i)
  ++ field_ptr id "redundancy" (UpdateS3Input_Redundancy i)
  ++ field_ptr id "placement" (UpdateS3Input_Placement i)
  ++ field_ptr id "public_key" (UpdateS3Input_PublicKey i)
  ++ field_ptr id "server_side_encryption_kms_key_id" (UpdateS3Input_ServerSideEncryptionKMSKeyID i)
  ++ field_ptr id "server_side_encryption" (UpdateS3Input_ServerSideEncryption i)
  ++ field_ptr id "acl" (UpdateS3Input_ACL i).

(** [*p] for a pointer [p]: a nil pointer panics. *)
Definition deref {T} (p : option T) : outcome T :=
  match p with
  | Some v => Returns v
  | None => Panics "invalid memory address or nil pointer dereference"
  end.

(** The encryption check of [UpdateS3],
    [i.ServerSideEncryption != nil && *i.ServerSideEncryption == KMS
       && *i.ServerSideEncryptionKMSKeyID == ""],
    evaluated left to right with short-circuiting. *)
Definition UpdateS3_kms_check (i : UpdateS3Input) : outcome bool :=
  match UpdateS3Input_ServerSideEncryption i with
  | None => Returns false
  | Some sse =>
      if decide (sse = S3ServerSideEncryptionKMS) then
        (kid <~ deref (UpdateS3Input_ServerSideEncryptionKMSKeyID i) ;
         Returns (bool_decide (kid = "")))%outcome
      else Returns false
  end.

Definition UpdateS3 (c : Client) (i : UpdateS3Input) : net (outcome (result S3)) :=
  if decide (UpdateS3Input_ServiceID i = "") then net_ret (Returns (Err ErrMissingServiceID))
  else if decide (UpdateS3Input_ServiceVersion i = 0) then net_ret (Returns (Err ErrMissingServiceVersion))
  else if decide (UpdateS3Input_Name i = "") then net_ret (Returns (Err ErrMissingName))
  else
    match UpdateS3_kms_check i with
    | Panics msg => net_ret (Panics msg)
    | Returns true => net_ret (Returns (Err ErrMissingServerSideEncryptionKMSKeyID))
    | Returns false =>
        let path := "/service/" +:+ UpdateS3Input_ServiceID i +:+ "/version/"
                    +:+ itoa (UpdateS3Input_ServiceVersion i) +:+ "/logging/s3/"
                    +:+ PathEscape (UpdateS3Input_Name i) in
        (resp <- Client_PutForm c path (UpdateS3Input_form i) ;;
         match resp with
         | Err err => net_ret (Returns (Err err))
         | Ok body =>
             match decodeS3 body with
             | Err err => net_ret (Returns (Err err))
             | Ok s3 => net_ret (Returns (Ok s3))
             end
         end)%net
    end.

Record DeleteS3Input : Type := {
  DeleteS3Input_ServiceID : string;
  DeleteS3Input_ServiceVersion : Z;
  DeleteS3Input_Name : string
}.

Definition DeleteS3 (c : Client) (i : DeleteS3Input) : net (option error) :=
  if decide (DeleteS3Input_ServiceID i = "") then net_ret (Some ErrMissingServiceID)
  else if decide (DeleteS3Input_ServiceVersion i = 0) then net_ret (Some ErrMissingServiceVersion)
  else if decide (DeleteS3Input_Name i = "") then net_ret (Some ErrMissingName)
  else
    let path := "/service/" +:+ DeleteS3Input_ServiceID i +:+ "/version/"
                +:+ itoa (DeleteS3Input_ServiceVersion i) +:+ "/logging/s3/"
                +:+ PathEscape (DeleteS3Input_Name i) in
    (resp <- Client_Delete c path ;;
     match resp with
     | Err err => net_ret (Some err)
     | Ok body =>
         match decodeStatus body with
         | Err err => net_ret (Some err)
         | Ok r => if negb (statusResp_Ok r) then net_ret (Some ErrNotOK) else net_ret None
         end
     end)%net.

(* ================================================================== *)
(** * header.go *)
(* ================================================================== *)

(** [headersByName.Less]. *)
Definition headersByName_Less (a b : Header) : bool :=
  String.ltb (Header_Name a) (Header_Name b).

Record ListHeadersInput : Type := {
  ListHeadersInput_ServiceID : string;
  ListHeadersInput_ServiceVersion : Z
}.

Definition ListHeaders (c : Client) (i : ListHeadersInput) : net (result (list Header)) :=
  if decide (ListHeadersInput_ServiceID i = "") then net_ret (Err ErrMissingServiceID)
  else if decide (ListHeadersInput_ServiceVersion i = 0) then net_ret (Err ErrMissingServiceVersion)
  else
    let path := "/service/" +:+ ListHeadersInput_ServiceID i +:+ "/version/"
                +:+ itoa (ListHeadersInput_ServiceVersion i) +:+ "/header" in
    (resp <- Client_Get c path ;;
     match resp with
     | Err err => net_ret (Err err)
     | Ok body =>
         match decodeHeaders body with
         | Err err => net_ret (Err err)
         | Ok bs => net_ret (Ok (sort_Stable headersByName_Less bs))
         end
     end)%net.

(** [Compatibool] is written as 1 or 0. *)
Definition show_Compatibool (b : bool) : string := if b then "1" else "0".

Record CreateHeaderInput : Type := {
  CreateHeaderInput_ServiceID : string;
  CreateHeaderInput_ServiceVersion : Z;
  CreateHeaderInput_Name : string;
  CreateHeaderInput_Action : string;
  CreateHeaderInput_IgnoreIfSet : bool;
  CreateHeaderInput_Type : string;
  CreateHeaderInput_Destination : string;
  CreateHeaderInput_Source : string;
  CreateHeaderInput_Regex : string;
  CreateHeaderInput_Substitution : string;
  CreateHeaderInput_Priority : option Z;
  CreateHeaderInput_RequestCondition : string;
  CreateHeaderInput_CacheCondition : string;
  CreateHeaderInput_ResponseCondition : string
}.

Definition CreateHeaderInput_form (i : CreateHeaderInput) : Form :=
  [("ServiceID", CreateHeaderInput_ServiceID i);
   ("ServiceVersion", itoa (CreateHeaderInput_ServiceVersion i))]
  ++ field_string "name" (CreateHeaderInput_Name i)
  ++ field_string "action" (CreateHeaderInput_Action i)
  ++ (if CreateHeaderInput_IgnoreIfSet i then [("ignore_if_set", show_Compatibool true)] else [])
  ++ field_string "type" (CreateHeaderInput_Type i)
  ++ field_string "dst" (CreateHeaderInput_Destination i)
  ++ field_string "src" (CreateHeaderInput_Source i)
  ++ field_string "regex" (CreateHeaderInput_Regex i)
  ++ field_string "substitution" (CreateHeaderInput_Substitution i)
  ++ field_ptr itoa "priority" (CreateHeaderInput_Priority i)
  ++ field_string "request_condition" (CreateHeaderInput_RequestCondition i)
  ++ field_string "cache_condition" (CreateHeaderInput_CacheCondition i)
  ++ field_string "response_condition" (CreateHeaderInput_ResponseCondition i).

Definition CreateHeader (c : Client) (i : CreateHeaderInput) : net (result Header) :=
  if decide (CreateHeaderInput_ServiceID i = "") then net_ret (Err ErrMissingServiceID)
  else if decide (CreateHeaderInput_ServiceVersion i = 0) then net_ret (Err ErrMissingServiceVersion)
  else
    let path := "/service/" +:+ CreateHeaderInput_ServiceID i +:+ "/version/"
                +:+ itoa (CreateHeaderInput_ServiceVersion i) +:+ "/header" in
    (resp <- Client_PostForm c path (CreateHeaderInput_form i) ;;
     match resp with
     | Err err => net_ret (Err err)
     | Ok body =>
         match decodeHeader body with
         | Err err => net_ret (Err err)
         | Ok b => net_ret (Ok b)
         end
     end)%net.

Record GetHeaderInput : Type := {
  GetHeaderInput_ServiceID : string;
  GetHeaderInput_ServiceVersion : Z;
  GetHeaderInput_Name : string
}.

Definition GetHeader (c : Client) (i : GetHeaderInput) : net (result Header) :=
  if decide (GetHeaderInput_ServiceID i = "") then net_ret (Err ErrMissingServiceID)
  else if decide (GetHeaderInput_ServiceVersion i = 0) then net_ret (Err ErrMissingServiceVersion)
  else if decide (GetHeaderInput_Name i = "") then net_ret (Err ErrMissingName)
  else
    let path := "/service/" +:+ GetHeaderInput_ServiceID i +:+ "/version/"
                +:+ itoa (GetHeaderInput_ServiceVersion i) +:+ "/header/"
                +:+ PathEscape (GetHeaderInput_Name i) in
    (resp <- Client_Get c path ;;
     match resp with
     | Err err => net_ret (Err err)
     | Ok body =>
         match decodeHeader body with
         | Err err => net_ret (Err err)
         | Ok b => net_ret (Ok b)
         end
     end)%net.

Record UpdateHeaderInput : Type := {
  UpdateHeaderInput_ServiceID : string;
  UpdateHeaderInput_ServiceVersion : Z;
  UpdateHeaderInput_Name : string;
  UpdateHeaderInput_NewName : option string;
  UpdateHeaderInput_Action : option string;
  UpdateHeaderInput_IgnoreIfSet : option bool;
  UpdateHeaderInput_Type : option string;
  UpdateHeaderInput_Destination : option string;
  UpdateHeaderInput_Source : option string;
  UpdateHeaderInput_Regex : option string;
  UpdateHeaderInput_Substitution : option string;
  UpdateHeaderInput_Priority : option Z;
  UpdateHeaderInput_RequestCondition : option string;
  UpdateHeaderInput_CacheCondition : option string;
  UpdateHeaderInput_ResponseCondition : option string
}.

Definition UpdateHeaderInput_form (i : UpdateHeaderInput) : Form :=
  [("ServiceID", UpdateHeaderInput_ServiceID i);
   ("ServiceVersion", itoa (UpdateHeaderInput_ServiceVersion i));
   ("Name", UpdateHeaderInput_Name i)]
  ++ field_ptr id "name" (UpdateHeaderInput_NewName i)
  ++ field_ptr id "action" (UpdateHeaderInput_Action i)
  ++ field_ptr show_Compatibool "ignore_if_set" (UpdateHeaderInput_IgnoreIfSet i)
  ++ field_ptr id "type" (UpdateHeaderInput_Type i)
  ++ field_ptr id "dst" (UpdateHeaderInput_Destination i)
  ++ field_ptr id "src" (UpdateHeaderInput_Source i)
  ++ field_ptr id "regex" (UpdateHeaderInput_Regex i)
  ++ field_ptr id "substitution" (UpdateHeaderInput_Substitution i)
  ++ field_ptr itoa "priority" (UpdateHeaderInput_Priority i)
  ++ field_ptr id "request_condition" (UpdateHeaderInput_RequestCondition i)
  ++ field_ptr id "cache_condition" (UpdateHeaderInput_CacheCondition i)
  ++ field_ptr id "response_condition" (UpdateHeaderInput_ResponseCondition i).

Definition UpdateHeader (c : Client) (i : UpdateHeaderInput) : net (result Header) :=
  if decide (UpdateHeaderInput_ServiceID i = "") then net_ret (Err ErrMissingServiceID)
  else if decide (UpdateHeaderInput_ServiceVersion i = 0) then net_ret (Err ErrMissingServiceVersion)
  else if decide (UpdateHeaderInput_Name i = "") then net_ret (Err ErrMissingName)
  else
    let path := "/service/" +:+ UpdateHeaderInput_ServiceID i +:+ "/version/"
                +:+ itoa (UpdateHeaderInput_ServiceVersion i) +:+ "/header/"
                +:+ PathEscape (UpdateHeaderInput_Name i) in
    (resp <- Client_PutForm c path (UpdateHeaderInput_form i) ;;
     match resp with
     | Err err => net_ret (Err err)
     | Ok body =>
         match decodeHeader body with
         | Err err => net_ret (Err err)
         | Ok b => net_ret (Ok b)
         end
     end)%net.

Record DeleteHeaderInput : Type := {
  DeleteHeaderInput_ServiceID : string;
  DeleteHeaderInput_ServiceVersion : Z;
  DeleteHeaderInput_Name : string
}.

Definition DeleteHeader (c : Client) (i : DeleteHeaderInput) : net (option error) :=
  if decide (DeleteHeaderInput_ServiceID i = "") then net_ret (Some ErrMissingServiceID)
  else if decide (DeleteHeaderInput_ServiceVersion i = 0) then net_ret (Some ErrMissingServiceVersion)
  else if decide (DeleteHeaderInput_Name i = "") then net_ret (Some ErrMissingName)
  else
    let path := "/service/" +:+ DeleteHeaderInput_ServiceID i +:+ "/version/"
                +:+ itoa (DeleteHeaderInput_ServiceVersion i) +:+ "/header/"
                +:+ PathEscape (DeleteHeaderInput_Name i) in
    (resp <- Client_Delete c path ;;
     match resp with
     | Err err => net_ret (Some err)
     | Ok body =>
         match decodeStatus body with
         | Err err => net_ret (Some err)
         | Ok r => if negb (statusResp_Ok r) then net_ret (Some ErrNotOK) else net_ret None
         end
     end)%net.

(* ================================================================== *)
(** * gzip.go *)
(* ================================================================== *)

(** [gzipsByName.Less]. *)
Definition gzipsByName_Less (a b : Gzip) : bool := String.ltb (Gzip_Name a) (Gzip_Name b).

Record ListGzipsInput : Type := {
  ListGzipsInput_ServiceID : string;
  ListGzipsInput_ServiceVersion : Z
}.

Definition ListGzips (c : Client) (i : ListGzipsInput) : net (result (list Gzip)) :=
  if decide (ListGzipsInput_ServiceID i = "") then net_ret (Err ErrMissingServiceID)
  else if decide (ListGzipsInput_ServiceVersion i = 0) then net_ret (Err ErrMissingServiceVersion)
  else
    let path := "/service/" +:+ ListGzipsInput_ServiceID i +:+ "/version/"
                +:+ itoa (ListGzipsInput_ServiceVersion i) +:+ "/gzip" in
    (resp <- Client_Get c path ;;
     match resp with
     | Err err => net_ret (Err err)
     | Ok body =>
         match decodeGzips body with
         | Err err => net_ret (Err err)
         | Ok gzips => net_ret (Ok (sort_Stable gzipsByName_Less gzips))
         end
     end)%net.

Record CreateGzipInput : Type := {
  CreateGzipInput_ServiceID : string;
  CreateGzipInput_ServiceVersion : Z;
  CreateGzipInput_Name : string;
  CreateGzipInput_ContentTypes : string;
  CreateGzipInput_Extensions : string;
  CreateGzipInput_CacheCondition : string
}.

Definition CreateGzipInput_form (i : CreateGzipInput) : Form :=
  [("ServiceID", CreateGzipInput_ServiceID i);
   ("ServiceVersion", itoa (CreateGzipInput_ServiceVersion i))]
  ++ field_string "name" (CreateGzipInput_Name i)
  ++ field_string "content_types" (CreateGzipInput_ContentTypes i)
  ++ field_string "extensions" (CreateGzipInput_Extensions i)
  ++ field_string "cache_condition" (CreateGzipInput_CacheCondition i).

Definition CreateGzip (c : Client) (i : CreateGzipInput) : net (result Gzip) :=
  if decide (CreateGzipInput_ServiceID i = "") then net_ret (Err ErrMissingServiceID)
  else if decide (CreateGzipInput_ServiceVersion i = 0) then net_ret (Err ErrMissingServiceVersion)
  else
    let path := "/service/" +:+ CreateGzipInput_ServiceID i +:+ "/version/"
                +:+ itoa (CreateGzipInput_ServiceVersion i) +:+ "/gzip" in
    (resp <- Client_PostForm c path (CreateGzipInput_form i) ;;
     match resp with
     | Err err => net_ret (Err err)
     | Ok body =>
         match decodeGzip body with
         | Err err => net_ret (Err err)
         | Ok gzip => net_ret (Ok gzip)
         end
     end)%net.

Record GetGzipInput : Type := {
  GetGzipInput_ServiceID : string;
  GetGzipInput_ServiceVersion : Z;
  GetGzipInput_Name : string
}.

Definition GetGzip (c : Client) (i : GetGzipInput) : net (result Gzip) :=
  if decide (GetGzipInput_ServiceID i = "") then net_ret (Err ErrMissingServiceID)
  else if decide (GetGzipInput_ServiceVersion i = 0) then net_ret (Err ErrMissingServiceVersion)
  else if decide (GetGzipInput_Name i = "") then net_ret (Err ErrMissingName)
  else
    let path := "/service/" +:+ GetGzipInput_ServiceID i +:+ "/version/"
                +:+ itoa (GetGzipInput_ServiceVersion i) +:+ "/gzip/"
                +:+ PathEscape (GetGzipInput_Name i) in
    (resp <- Client_Get c path ;;
     match resp with
     | Err err => net_ret (Err err)
     | Ok body =>
         match decodeGzip body with
         | Err err => net_ret (Err err)
         | Ok b => net_ret (Ok b)
         end
     end)%net.

Record UpdateGzipInput : Type := {
  UpdateGzipInput_ServiceID : string;
  UpdateGzipInput_ServiceVersion : Z;
  UpdateGzipInput_Name : string;
  UpdateGzipInput_NewName : option string;
  UpdateGzipInput_ContentTypes : option string;
  UpdateGzipInput_Extensions : option string;
  UpdateGzipInput_CacheCondition : option string
}.

Definition UpdateGzipInput_form (i : UpdateGzipInput) : Form :=
  [("ServiceID", UpdateGzipInput_ServiceID i);
   ("ServiceVersion", itoa (UpdateGzipInput_ServiceVersion i));
   ("Name", UpdateGzipInput_Name i)]
  ++ field_ptr id "name" (UpdateGzipInput_NewName i)
  ++ field_ptr id "content_types" (UpdateGzipInput_ContentTypes i)
  ++ field_ptr id "extensions" (UpdateGzipInput_Extensions i)
  ++ field_ptr id "cache_condition" (UpdateGzipInput_CacheCondition i).

Definition UpdateGzip (c : Client) (i : UpdateGzipInput) : net (result Gzip) :=
  if decide (UpdateGzipInput_ServiceID i = "") then net_ret (Err ErrMissingServiceID)
  else if decide (UpdateGzipInput_ServiceVersion i = 0) then net_ret (Err ErrMissingServiceVersion)
  else if decide (UpdateGzipInput_Name i = "") then net_ret (Err ErrMissingName)
  else
    let path := "/service/" +:+ UpdateGzipInput_ServiceID i +:+ "/version/"
                +:+ itoa (UpdateGzipInput_ServiceVersion i) +:+ "/gzip/"
                +:+ PathEscape (UpdateGzipInput_Name i) in
    (resp <- Client_PutForm c path (UpdateGzipInput_form i) ;;
     match resp with
     | Err err => net_ret (Err err)
     | Ok body =>
         match decodeGzip body with
         | Err err => net_ret (Err err)
         | Ok b => net_ret (Ok b)
         end
     end)%net.

Record DeleteGzipInput : Type := {
  DeleteGzipInput_ServiceID : string;
  DeleteGzipInput_ServiceVersion : Z;
  DeleteGzipInput_Name : string
}.

Definition DeleteGzip (c : Client) (i : DeleteGzipInput) : net (option error) :=
  if decide (DeleteGzipInput_ServiceID i = "") then net_ret (Some ErrMissingServiceID)
  else if decide (DeleteGzipInput_ServiceVersion i = 0) then net_ret (Some ErrMissingServiceVersion)
  else if decide (DeleteGzipInput_Name i = "") then net_ret (Some ErrMissingName)
  else
    let path := "/service/" +:+ DeleteGzipInput_ServiceID i +:+ "/version/"
                +:+ itoa (DeleteGzipInput_ServiceVersion i) +:+ "/gzip/"
                +:+ PathEscape (DeleteGzipInput_Name i) in
    (resp <- Client_Delete c path ;;
     match resp with
     | Err err => net_ret (Some err)
     | Ok body =>
         match decodeStatus body with
         | Err err => net_ret (Some err)
         | Ok r => if negb (statusResp_Ok r) then net_ret (Some ErrNotOK) else net_ret None
         end
     end)%net.

(* ================================================================== *)
(** * server.go *)
(* ================================================================== *)

(** [serversByAddress.Less]: servers are ordered by address. *)
Definition serversByAddress_Less (a b : Server) : bool :=
  String.ltb (Server_Address a) (Server_Address b).

Record ListServersInput : Type := {
  ListServersInput_ServiceID : string;
  ListServersInput_PoolID : string
}.

Definition ListServers (c : Client) (i : ListServersInput) : net (result (list Server)) :=
  if decide (ListServersInput_ServiceID i = "") then net_ret (Err ErrMissingServiceID)
  else if decide (ListServersInput_PoolID i = "") then net_ret (Err ErrMissingPoolID)
  else
    let path := "/service/" +:+ ListServersInput_ServiceID i +:+ "/pool/"
                +:+ ListServersInput_PoolID i +:+ "/servers" in
    (resp <- Client_Get c path ;;
     match resp with
     | Err err => net_ret (Err err)
     | Ok body =>
         match decodeServers body with
         | Err err => net_ret (Err err)
         | Ok ss => net_ret (Ok (sort_Stable serversByAddress_Less ss))
         end
     end)%net.

Record CreateServerInput : Type := {
  CreateServerInput_ServiceID : string;
  CreateServerInput_PoolID : string;
  CreateServerInput_Address : string;
  CreateServerInput_Comment : string;
  CreateServerInput_Weight : Z;
  CreateServerInput_MaxConn : Z;
  CreateServerInput_Port : Z;
  CreateServerInput_Disabled : bool;
  CreateServerInput_OverrideHost : string
}.

Definition CreateServerInput_form (i : CreateServerInput) : Form :=
  [("ServiceID", CreateServerInput_ServiceID i);
   ("PoolID", CreateServerInput_PoolID i);
   ("address", CreateServerInput_Address i)]
  ++ field_string "comment" (CreateServerInput_Comment i)
  ++ field_uint "weight" (CreateServerInput_Weight i)
  ++ field_uint "max_conn" (CreateServerInput_MaxConn i)
  ++ field_uint "port" (CreateServerInput_Port i)
  ++ field_bool "disabled" (CreateServerInput_Disabled i)
  ++ field_string "override_host" (CreateServerInput_OverrideHost i).

Definition CreateServer (c : Client) (i : CreateServerInput) : net (result Server) :=
  if decide (CreateServerInput_ServiceID i = "") then net_ret (Err ErrMissingServiceID)
  else if decide (CreateServerInput_PoolID i = "") then net_ret (Err ErrMissingPoolID)
  else if decide (CreateServerInput_Address i = "") then net_ret (Err ErrMissingAddress)
  else
    let path := "/service/" +:+ CreateServerInput_ServiceID i +:+ "/pool/"
                +:+ CreateServerInput_PoolID i +:+ "/server" in
    (resp <- Client_PostForm c path (CreateServerInput_form i) ;;
     match resp with
     | Err err => net_ret (Err err)
     | Ok body =>
         match decodeServer body with
         | Err err => net_ret (Err err)
         | Ok s => net_ret (Ok s)
         end
     end)%net.

Record GetServerInput : Type := {
  GetServerInput_ServiceID : string;
  GetServerInput_PoolID : string;
  GetServerInput_Server : string
}.

Definition GetServer (c : Client) (i : GetServerInput) : net (result Server) :=
  if decide (GetServerInput_ServiceID i = "") then net_ret (Err ErrMissingServiceID)
  else if decide (GetServerInput_PoolID i = "") then net_ret (Err ErrMissingPoolID)
  else if decide (GetServerInput_Server i = "") then net_ret (Err ErrMissingServer)
  else
    let path := "/service/" +:+ GetServerInput_ServiceID i +:+ "/pool/"
                +:+ GetServerInput_PoolID i +:+ "/server/" +:+ GetServerInput_Server i in
    (resp <- Client_Get c path ;;
     match resp with
     | Err err => net_ret (Err err)
     | Ok body =>
         match decodeServer body with
         | Err err => net_ret (Err err)
         | Ok s => net_ret (Ok s)
         end
     end)%net.

Record UpdateServerInput : Type := {
  UpdateServerInput_ServiceID : string;
  UpdateServerInput_PoolID : string;
  UpdateServerInput_Server : string;
  UpdateServerInput_Address : option string;
  UpdateServerInput_Comment : option string;
  UpdateServerInput_Weight : option Z;
  UpdateServerInput_MaxConn : option Z;
  UpdateServerInput_Port : option Z;
  UpdateServerInput_Disabled : option bool;
  UpdateServerInput_OverrideHost : option string
}.

Definition UpdateServerInput_form (i : UpdateServerInput) : Form :=
  [("ServiceID", UpdateServerInput_ServiceID i);
   ("PoolID", UpdateServerInput_PoolID i);
   ("Server", UpdateServerInput_Server i)]
  ++ field_ptr id "address" (UpdateServerInput_Address i)
  ++ field_ptr id "comment" (UpdateServerInput_Comment i)
  ++ field_ptr itoa "weight" (UpdateServerInput_Weight i)
  ++ field_ptr itoa "max_conn" (UpdateServerInput_MaxConn i)
  ++ field_ptr itoa "port" (UpdateServerInput_Port i)
  ++ field_ptr show_bool "disabled" (UpdateServerInput_Disabled i)
  ++ field_ptr id "override_host" (UpdateServerInput_OverrideHost i).

Definition UpdateServer (c : Client) (i : UpdateServerInput) : net (result Server) :=
  if decide (UpdateServerInput_ServiceID i = "") then net_ret (Err ErrMissingServiceID)
  else if decide (UpdateServerInput_PoolID i = "") then net_ret (Err ErrMissingPoolID)
  else if decide (UpdateServerInput_Server i = "") then net_ret (Err ErrMissingServer)
  else
    let path := "/service/" +:+ UpdateServerInput_ServiceID i +:+ "/pool/"
                +:+ UpdateServerInput_PoolID i +:+ "/server/" +:+ UpdateServerInput_Server i in
    (resp <- Client_PutForm c path (UpdateServerInput_form i) ;;
     match resp with
     | Err err => net_ret (Err err)
     | Ok body =>
         match decodeServer body with
         | Err err => net_ret (Err err)
         | Ok s => net_ret (Ok s)
         end
     end)%net.

Record DeleteServerInput : Type := {
  DeleteServerInput_ServiceID : string;
  DeleteServerInput_PoolID : string;
  DeleteServerInput_Server : string
}.

Definition DeleteServer (c : Client) (i : DeleteServerInput) : net (option error) :=
  if decide (DeleteServerInput_ServiceID i = "") then net_ret (Some ErrMissingServiceID)
  else if decide (DeleteServerInput_PoolID i = "") then net_ret (Some ErrMissingPoolID)
  else if decide (DeleteServerInput_Server i = "") then net_ret (Some ErrMissingServer)
  else
    let path := "/service/" +:+ DeleteServerInput_ServiceID i +:+ "/pool/"
                +:+ DeleteServerInput_PoolID i +:+ "/server/" +:+ DeleteServerInput_Server i in
    (resp <- Client_Delete c path ;;
     match resp with
     | Err err => net_ret (Some err)
     | Ok body =>
         match decodeStatus body with
         | Err err => net_ret (Some err)
         | Ok r => if negb (statusResp_Ok r) then net_ret (Some ErrNotOK) else net_ret None
         end
     end)%net.

(* ================================================================== *)
(** * The provider: service metadata and block schemas *)
(* ================================================================== *)

(** Modelled from the spec: the service type constants are declared in a
    provider file that is not part of the sources at hand.  The spec
    names two variants, the request/response-oriented one (VCL) and the
    compute one. *)
Inductive ServiceType : Type := ServiceTypeVCL | ServiceTypeCompute.

Global Instance ServiceType_eq_dec : EqDecision ServiceType.
Proof. solve_decision. Defined.

Record ServiceMetadata : Type := { serviceType : ServiceType }.

(** [DefaultServiceAttributeHandler], embedded by every handler. *)
Record DefaultServiceAttributeHandler : Type := {
  key : string;
  serviceMetadata : ServiceMetadata
}.

Definition GetServiceMetadata (h : DefaultServiceAttributeHandler) : ServiceMetadata :=
  serviceMetadata h.

(** The part of [schema.Schema] the handlers fill in.  Description texts
    are documentation only and are not carried. *)
Inductive ValueType : Type := TypeString | TypeInt | TypeSet.

Inductive Validator : Type :=
| ValidatorFunc (name : string)
| StringInSlice (valid : list string) (ignoreCase : bool).

Record Schema : Type := {
  Schema_Type : ValueType;
  Schema_Required : bool;
  Schema_Optional : bool;
  Schema_Sensitive : bool;
  Schema_Default : option any;
  (** [schema.EnvDefaultFunc(variable, fallback)] *)
  Schema_DefaultFunc : option (string * any);
  Schema_ValidateDiagFunc : option Validator
}.

(** The [TypeSet] schema of a nested block; [Elem] is its
    [schema.Resource]. *)
Record BlockSchema : Type := {
  BlockSchema_Type : ValueType;
  BlockSchema_Optional : bool;
  BlockSchema_Elem : gmap string Schema
}.

Definition required_string : Schema :=
  {| Schema_Type := TypeString; Schema_Required := true; Schema_Optional := false;
     Schema_Sensitive := false; Schema_Default := None; Schema_DefaultFunc := None;
     Schema_ValidateDiagFunc := None |}.

Definition optional_string : Schema :=
  {| Schema_Type := TypeString; Schema_Required := false; Schema_Optional := true;
     Schema_Sensitive := false; Schema_Default := None; Schema_DefaultFunc := None;
     Schema_ValidateDiagFunc := None |}.

Definition optional_int : Schema :=
  {| Schema_Type := TypeInt; Schema_Required := false; Schema_Optional := true;
     Schema_Sensitive := false; Schema_Default := None; Schema_DefaultFunc := None;
     Schema_ValidateDiagFunc := None |}.

Definition with_default (d : any) (s : Schema) : Schema :=
  {| Schema_Type := Schema_Type s; Schema_Required := Schema_Required s;
     Schema_Optional := Schema_Optional s; Schema_Sensitive := Schema_Sensitive s;
     Schema_Default := Some d; Schema_DefaultFunc := Schema_DefaultFunc s;
     Schema_ValidateDiagFunc := Schema_ValidateDiagFunc s |}.

Definition with_env_default (var : string) (d : any) (s : Schema) : Schema :=
  {| Schema_Type := Schema_Type s; Schema_Required := Schema_Required s;
     Schema_Optional := Schema_Optional s; Schema_Sensitive := Schema_Sensitive s;
     Schema_Default := Schema_Default s; Schema_DefaultFunc := Some (var, d);
     Schema_ValidateDiagFunc := Schema_ValidateDiagFunc s |}.

Definition with_validator (v : Validator) (s : Schema) : Schema :=
  {| Schema_Type := Schema_Type s; Schema_Required := Schema_Required s;
     Schema_Optional := Schema_Optional s; Schema_Sensitive := Schema_Sensitive s;
     Schema_Default := Schema_Default s; Schema_DefaultFunc := Schema_DefaultFunc s;
     Schema_ValidateDiagFunc := Some v |}.

Definition sensitive (s : Schema) : Schema :=
  {| Schema_Type := Schema_Type s; Schema_Required := Schema_Required s;
     Schema_Optional := Schema_Optional s; Schema_Sensitive := true;
     Schema_Default := Schema_Default s; Schema_DefaultFunc := Schema_DefaultFunc s;
     Schema_ValidateDiagFunc := Schema_ValidateDiagFunc s |}.

(** ** Datadog logging handler: [GetSchema] *)

Definition Datadog_blockAttributes_base : gmap string Schema :=
  <["name" := required_string]>
  (<["region" := with_default (AString "US") optional_string]>
  (<["token" := sensitive required_string]> ∅)).

Definition DatadogServiceAttributeHandler_GetSchema
    (h : DefaultServiceAttributeHandler) : BlockSchema :=
  let blockAttributes := Datadog_blockAttributes_base in
  let blockAttributes :=
    if decide (serviceType (GetServiceMetadata h) = ServiceTypeVCL) then
      let m := <["format" := optional_string]> blockAttributes in
      let m := <["format_version" :=
                   with_validator (ValidatorFunc "validateLoggingFormatVersion")
                     (with_default (AInt 2) optional_int)]> m in
      let m := <["response_condition" := optional_string]> m in
      <["placement" :=
          with_validator (ValidatorFunc "validateLoggingPlacement") optional_string]> m
    else blockAttributes in
  {| BlockSchema_Type := TypeSet; BlockSchema_Optional := true;
     BlockSchema_Elem := blockAttributes |}.

(** ** S3 logging handler: [GetSchema] *)

Definition S3_acl_values : list string :=
  ["private"; "public-read"; "public-read-write"; "aws-exec-read";
   "authenticated-read"; "bucket-owner-read"; "bucket-owner-full-control"].

Definition S3_redundancy_values : list string :=
  ["standard"; "intelligent_tiering"; "standard_ia"; "onezone_ia";
   "glacier"; "glacier_ir"; "deep_archive"; "reduced_redundancy"].

(** The default log format, [%h %l %u %t "%r" %>s %b]. *)
Definition dquote : string := String (ascii_of_nat 34) EmptyString.
Definition S3_format_default : string :=
  "%h %l %u %t " +:+ dquote +:+ "%r" +:+ dquote +:+ " %>s %b".

Definition S3_blockAttributes_base : gmap string Schema :=
  <["acl" := with_validator (StringInSlice S3_acl_values false) optional_string]>
  (<["bucket_name" := required_string]>
  (<["compression_codec" :=
       with_validator (ValidatorFunc "validateLoggingCompressionCodec") optional_string]>
  (<["domain" := with_default (AString "s3.amazonaws.com") optional_string]>
  (<["gzip_level" := with_default (AInt 0) optional_int]>
  (<["message_type" :=
       with_validator (ValidatorFunc "validateLoggingMessageType")
         (with_default (AString "classic") optional_string)]>
  (<["name" := required_string]>
  (<["path" := optional_string]>
  (<["period" := with_default (AInt 3600) optional_int]>
  (<["public_key" :=
       with_validator (ValidatorFunc "validateStringTrimmed") optional_string]>
  (<["redundancy" :=
       with_validator (StringInSlice S3_redundancy_values false) optional_string]>
  (<["s3_access_key" :=
       sensitive (with_env_default "FASTLY_S3_ACCESS_KEY" (AString "") optional_string)]>
  (<["s3_iam_role" :=
       with_env_default "FASTLY_S3_IAM_ROLE" (AString "") optional_string]>
  (<["s3_secret_key" :=
       sensitive (with_env_default "FASTLY_S3_SECRET_KEY" (AString "") optional_string)]>
  (<["server_side_encryption" :=
       with_validator (ValidatorFunc "validateLoggingServerSideEncryption") optional_string]>
  (<["server_side_encryption_kms_key_id" := optional_string]>
  (<["timestamp_format" :=
       with_default (AString "%Y-%m-%dT%H:%M:%S.000") optional_string]> ∅)))))))))))))))).

Definition S3LoggingServiceAttributeHandler_GetSchema
    (h : DefaultServiceAttributeHandler) : BlockSchema :=
  let blockAttributes := S3_blockAttributes_base in
  let blockAttributes :=
    if decide (serviceType (GetServiceMetadata h) = ServiceTypeVCL) then
      let m := <["format" :=
                   with_default (AString S3_format_default) optional_string]>
                 blockAttributes in
      let m := <["format_version" :=
                   with_validator (ValidatorFunc "validateLoggingFormatVersion")
                     (with_default (AInt 2) optional_int)]> m in
      let m := <["response_condition" := with_default (AString "") optional_string]> m in
      <["placement" :=
          with_validator (ValidatorFunc "validateLoggingPlacement") optional_string]> m
    else blockAttributes in
  {| BlockSchema_Type := TypeSet; BlockSchema_Optional := true;
     BlockSchema_Elem := blockAttributes |}.

(* ================================================================== *)
(** * The provider: S3 logging handler *)
(* ================================================================== *)

(** Type assertions [v.(string)] and [v.(int)]; the operand is the result
    of a map index, so a missing key is the nil interface. *)
Definition assert_string (v : option any) : outcome string :=
  match v with
  | Some (AString s) => Returns s
  | _ => Panics "interface conversion: interface {} is not string"
  end.

Definition assert_int (v : option any) : outcome Z :=
  match v with
  | Some (AInt n) => Returns n
  | _ => Panics "interface conversion: interface {} is not int"
  end.

(** [if v, ok := modified[k]; ok { opts.F = gofastly.String(v.(string)) }]
    and its [Uint] / [Uint8] variants: the value of the pointer field. *)
Definition changed_string (modified : gmap string any) (k : string) : outcome (option string) :=
  match modified !! k with
  | Some v => (s <~ assert_string (Some v) ; Returns (Some s))%outcome
  | None => Returns None
  end.

Definition changed_uint (modified : gmap string any) (k : string) : outcome (option Z) :=
  match modified !! k with
  | Some v => (n <~ assert_int (Some v) ; Returns (Some (uint_of_int n)))%outcome
  | None => Returns None
  end.

Definition changed_uint8 (modified : gmap string any) (k : string) : outcome (option Z) :=
  match modified !! k with
  | Some v => (n <~ assert_int (Some v) ; Returns (Some (uint8_of_int n)))%outcome
  | None => Returns None
  end.

(** The [opts] that [S3LoggingServiceAttributeHandler.Update] passes to
    [UpdateS3]; [serviceID] is [d.Id()]. *)
Definition S3LoggingServiceAttributeHandler_Update_opts
    (serviceID : string) (resource modified : gmap string any) (serviceVersion : Z)
  : outcome UpdateS3Input :=
  (name <~ assert_string (resource !! "name") ;
   bucket_name <~ changed_string modified "bucket_name" ;
   domain <~ changed_string modified "domain" ;
   s3_access_key <~ changed_string modified "s3_access_key" ;
   s3_secret_key <~ changed_string modified "s3_secret_key" ;
   s3_iam_role <~ changed_string modified "s3_iam_role" ;
   path <~ changed_string modified "path" ;
   period <~ changed_uint modified "period" ;
   compression_codec <~ changed_string modified "compression_codec" ;
   gzip_level <~ changed_uint8 modified "gzip_level" ;
   format <~ changed_string modified "format" ;
   format_version <~ changed_uint modified "format_version" ;
   response_condition <~ changed_string modified "response_condition" ;
   message_type <~ changed_string modified "message_type" ;
   timestamp_format <~ changed_string modified "timestamp_format" ;
   redundancy <~ changed_string modified "redundancy" ;
   placement <~ changed_string modified "placement" ;
   public_key <~ changed_string modified "public_key" ;
   server_side_encryption_kms_key_id <~
     changed_string modified "server_side_encryption_kms_key_id" ;
   server_side_encryption <~ changed_string modified "server_side_encryption" ;
   acl <~ changed_string modified "acl" ;
   Returns
     {| UpdateS3Input_ServiceID := serviceID;
        UpdateS3Input_ServiceVersion := serviceVersion;
        UpdateS3Input_Name := name;
        UpdateS3Input_NewName := None;
        UpdateS3Input_BucketName := bucket_name;
        UpdateS3Input_Domain := domain;
        UpdateS3Input_AccessKey := s3_access_key;
        UpdateS3Input_SecretKey := s3_secret_key;
        UpdateS3Input_IAMRole := s3_iam_role;
        UpdateS3Input_Path := path;
        UpdateS3Input_Period := period;
        UpdateS3Input_CompressionCodec := compression_codec;
        UpdateS3Input_GzipLevel := gzip_level;
        UpdateS3Input_Format := format;
        UpdateS3Input_FormatVersion := format_version;
        UpdateS3Input_ResponseCondition := response_condition;
        UpdateS3Input_MessageType := message_type;
        UpdateS3Input_TimestampFormat := timestamp_format;
        UpdateS3Input_Redundancy := redundancy;
        UpdateS3Input_Placement := placement;
        UpdateS3Input_PublicKey := public_key;
        UpdateS3Input_ServerSideEncryptionKMSKeyID := server_side_encryption_kms_key_id;
        UpdateS3Input_ServerSideEncryption := server_side_encryption;
        UpdateS3Input_ACL := acl |})%outcome.

Definition S3LoggingServiceAttributeHandler_Update
    (conn : Client) (serviceID : string) (resource modified : gmap string any)
    (serviceVersion : Z) : net (outcome (option error)) :=
  match S3LoggingServiceAttributeHandler_Update_opts serviceID resource modified serviceVersion with
  | Panics msg => net_ret (Panics msg)
  | Returns opts =>
      (r <- UpdateS3 conn opts ;;
       match r with
       | Panics msg => net_ret (Panics msg)
       | Returns (Err err) => net_ret (Returns (Some err))
       | Returns (Ok _) => net_ret (Returns None)
       end)%net
  end.

(** Modelled from the spec: [HTTPError.IsNotFound] is declared in
    go-fastly's errors.go, which is not part of the sources at hand.  The
    spec: "Remote 404 on delete is swallowed". *)
Definition HTTPError_IsNotFound (StatusCode : Z) : bool := StatusCode =? 404.

(** [deleteS3]: the type assertion of [err] to a pointer to
    [gofastly.HTTPError] succeeds only on an [HTTPError]. *)
Definition deleteS3 (conn : Client) (i : DeleteS3Input) : net (option error) :=
  (err <- DeleteS3 conn i ;;
   match err with
   | Some (HTTPError StatusCode _) =>
       if negb (HTTPError_IsNotFound StatusCode) then net_ret err else net_ret None
   | _ => net_ret err
   end)%net.

Definition S3LoggingServiceAttributeHandler_buildDelete
    (s3Map : gmap string any) (serviceID : string) (serviceVersion : Z)
  : outcome DeleteS3Input :=
  (name <~ assert_string (s3Map !! "name") ;
   Returns {| DeleteS3Input_ServiceID := serviceID;
              DeleteS3Input_ServiceVersion := serviceVersion;
              DeleteS3Input_Name := name |})%outcome.

Definition S3LoggingServiceAttributeHandler_Delete
    (conn : Client) (serviceID : string) (resource : gmap string any) (serviceVersion : Z)
  : net (outcome (option error)) :=
  match S3LoggingServiceAttributeHandler_buildDelete resource serviceID serviceVersion with
  | Panics msg => net_ret (Panics msg)
  | Returns opts => (err <- deleteS3 conn opts ;; net_ret (Returns err))%net
  end.

(** The pruning loop of the flatten functions,
    [for k, v := range m { if v is the empty string { delete(m, k) } }].
    The comparison is between interface values: it holds only for a
    value whose dynamic type is [string]. *)
Definition prune_empty (m : gmap string any) : gmap string any :=
  filter (fun kv => kv.2 ≠ AString "") m.

(** The body of the loop of [flattenS3s]: the map of one record. *)
Definition flattenS3s_entry (s : S3) : gmap string any :=
  let ns : gmap string any :=
    <["name" := AString (S3_Name s)]>
    (<["bucket_name" := AString (S3_BucketName s)]>
    (<["s3_access_key" := AString (S3_AccessKey s)]>
    (<["s3_secret_key" := AString (S3_SecretKey s)]>
    (<["s3_iam_role" := AString (S3_IAMRole s)]>
    (<["path" := AString (S3_Path s)]>
    (<["period" := AUint (S3_Period s)]>
    (<["domain" := AString (S3_Domain s)]>
    (<["gzip_level" := AUint8 (S3_GzipLevel s)]>
    (<["format" := AString (S3_Format s)]>
    (<["format_version" := AUint (S3_FormatVersion s)]>
    (<["timestamp_format" := AString (S3_TimestampFormat s)]>
    (<["redundancy" := AS3Redundancy (S3_Redundancy s)]>
    (<["response_condition" := AString (S3_ResponseCondition s)]>
    (<["message_type" := AString (S3_MessageType s)]>
    (<["public_key" := AString (S3_PublicKey s)]>
    (<["placement" := AString (S3_Placement s)]>
    (<["server_side_encryption" := AS3ServerSideEncryption (S3_ServerSideEncryption s)]>
    (<["server_side_encryption_kms_key_id" :=
         AString (S3_ServerSideEncryptionKMSKeyID s)]>
    (<["compression_codec" := AString (S3_CompressionCodec s)]>
    (<["acl" := AS3AccessControlList (S3_ACL s)]> ∅)))))))))))))))))))) in
  prune_empty ns.

Definition flattenS3s (s3List : list S3) : list (gmap string any) :=
  flattenS3s_entry <$> s3List.

(** The VCL-only logging attributes read by [getVCLLoggingAttributes]. *)
Record VCLLoggingAttributes : Type := {
  vla_format : string;
  vla_formatVersion : option Z;
  vla_placement : string;
  vla_responseCondition : string
}.

Section build_create.
(** [getVCLLoggingAttributes] and [uintOrDefault] are helpers of the
    provider's base handler; they are parameters here. *)
Variable getVCLLoggingAttributes :
  DefaultServiceAttributeHandler -> gmap string any -> outcome VCLLoggingAttributes.
Variable uintOrDefault : option Z -> Z.

Definition S3LoggingServiceAttributeHandler_buildCreate
    (h : DefaultServiceAttributeHandler)
    (df : gmap string any) (serviceID : string) (serviceVersion : Z)
  : outcome (result CreateS3Input) :=
  (vla <~ getVCLLoggingAttributes h df ;
   name <~ assert_string (df !! "name") ;
   bucket_name <~ assert_string (df !! "bucket_name") ;
   s3_access_key <~ assert_string (df !! "s3_access_key") ;
   s3_secret_key <~ assert_string (df !! "s3_secret_key") ;
   s3_iam_role <~ assert_string (df !! "s3_iam_role") ;
   period <~ assert_int (df !! "period") ;
   gzip_level <~ assert_int (df !! "gzip_level") ;
   domain <~ assert_string (df !! "domain") ;
   path <~ assert_string (df !! "path") ;
   timestamp_format <~ assert_string (df !! "timestamp_format") ;
   message_type <~ assert_string (df !! "message_type") ;
   public_key <~ assert_string (df !! "public_key") ;
   server_side_encryption_kms_key_id <~
     assert_string (df !! "server_side_encryption_kms_key_id") ;
   compression_codec <~ assert_string (df !! "compression_codec") ;
   redundancy <~ assert_string (df !! "redundancy") ;
   acl <~ assert_string (df !! "acl") ;
   encryption <~ assert_string (df !! "server_side_encryption") ;
   Returns (Ok
     {| CreateS3Input_ServiceID := serviceID;
        CreateS3Input_ServiceVersion := serviceVersion;
        CreateS3Input_Name := name;
        CreateS3Input_BucketName := bucket_name;
        CreateS3Input_Domain := domain;
        CreateS3Input_AccessKey := s3_access_key;
        CreateS3Input_SecretKey := s3_secret_key;
        CreateS3Input_IAMRole := s3_iam_role;
        CreateS3Input_Path := path;
        CreateS3Input_Period := uint_of_int period;
        CreateS3Input_CompressionCodec := compression_codec;
        CreateS3Input_GzipLevel := uint8_of_int gzip_level;
        CreateS3Input_Format := vla_format vla;
        CreateS3Input_MessageType := message_type;
        CreateS3Input_FormatVersion := uintOrDefault (vla_formatVersion vla);
        CreateS3Input_ResponseCondition := vla_responseCondition vla;
        CreateS3Input_TimestampFormat := timestamp_format;
        CreateS3Input_Redundancy := redundancy;
        CreateS3Input_Placement := vla_placement vla;
        CreateS3Input_PublicKey := public_key;
        CreateS3Input_ServerSideEncryptionKMSKeyID := server_side_encryption_kms_key_id;
        CreateS3Input_ServerSideEncryption :=
          if decide (encryption = S3ServerSideEncryptionAES) then S3ServerSideEncryptionAES
          else if decide (encryption = S3ServerSideEncryptionKMS) then S3ServerSideEncryptionKMS
          else "";
        CreateS3Input_ACL := acl |}))%outcome.
End build_create.

(* ================================================================== *)
(** * The provider: Datadog logging handler *)
(* ================================================================== *)

(** go-fastly's datadog.go is not part of the sources at hand; the
    records below carry the fields the handler reads and writes, with
    the types the handler uses them at. *)
Record Datadog : Type := {
  Datadog_Name : string;
  Datadog_Token : string;
  Datadog_Region : string;
  Datadog_Format : string;
  Datadog_FormatVersion : Z;
  Datadog_Placement : string;
  Datadog_ResponseCondition : string
}.

Record UpdateDatadogInput : Type := {
  UpdateDatadogInput_ServiceID : string;
  UpdateDatadogInput_ServiceVersion : Z;
  UpdateDatadogInput_Name : string;
  UpdateDatadogInput_Token : option string;
  UpdateDatadogInput_Region : option string;
  UpdateDatadogInput_Format : option string;
  UpdateDatadogInput_FormatVersion : option Z;
  UpdateDatadogInput_ResponseCondition : option string;
  UpdateDatadogInput_Placement : option string
}.

Record DeleteDatadogInput : Type := {
  DeleteDatadogInput_ServiceID : string;
  DeleteDatadogInput_ServiceVersion : Z;
  DeleteDatadogInput_Name : string
}.

(** The [opts] that [DatadogServiceAttributeHandler.Update] passes to
    [UpdateDatadog]. *)
Definition DatadogServiceAttributeHandler_Update_opts
    (serviceID : string) (resource modified : gmap string any) (serviceVersion : Z)
  : outcome UpdateDatadogInput :=
  (name <~ assert_string (resource !! "name") ;
   token <~ changed_string modified "token" ;
   region <~ changed_string modified "region" ;
   format <~ changed_string modified "format" ;
   format_version <~ changed_uint modified "format_version" ;
   response_condition <~ changed_string modified "response_condition" ;
   placement <~ changed_string modified "placement" ;
   Returns
     {| UpdateDatadogInput_ServiceID := serviceID;
        UpdateDatadogInput_ServiceVersion := serviceVersion;
        UpdateDatadogInput_Name := name;
        UpdateDatadogInput_Token := token;
        UpdateDatadogInput_Region := region;
        UpdateDatadogInput_Format := format;
        UpdateDatadogInput_FormatVersion := format_version;
        UpdateDatadogInput_ResponseCondition := response_condition;
        UpdateDatadogInput_Placement := placement |})%outcome.

Definition DatadogServiceAttributeHandler_buildDelete
    (datadogMap : gmap string any) (serviceID : string) (serviceVersion : Z)
  : outcome DeleteDatadogInput :=
  (name <~ assert_string (datadogMap !! "name") ;
   Returns {| DeleteDatadogInput_ServiceID := serviceID;
              DeleteDatadogInput_ServiceVersion := serviceVersion;
              DeleteDatadogInput_Name := name |})%outcome.

Section datadog_client.
(** [conn.DeleteDatadog] belongs to the absent datadog.go. *)
Variable DeleteDatadog : Client -> DeleteDatadogInput -> net (option error).

Definition deleteDatadog (conn : Client) (i : DeleteDatadogInput) : net (option error) :=
  (err <- DeleteDatadog conn i ;;
   match err with
   | Some (HTTPError StatusCode _) =>
       if negb (HTTPError_IsNotFound StatusCode) then net_ret err else net_ret None
   | _ => net_ret err
   end)%net.

Definition DatadogServiceAttributeHandler_Delete
    (conn : Client) (serviceID : string) (resource : gmap string any) (serviceVersion : Z)
  : net (outcome (option error)) :=
  match DatadogServiceAttributeHandler_buildDelete resource serviceID serviceVersion with
  | Panics msg => net_ret (Panics msg)
  | Returns opts => (err <- deleteDatadog conn opts ;; net_ret (Returns err))%net
  end.
End datadog_client.

(** The body of the loop of [flattenDatadog]: the map of one record. *)
Definition flattenDatadog_entry (dl : Datadog) : gmap string any :=
  let ndl : gmap string any :=
    <["name" := AString (Datadog_Name dl)]>
    (<["token" := AString (Datadog_Token dl)]>
    (<["region" := AString (Datadog_Region dl)]>
    (<["format" := AString (Datadog_Format dl)]>
    (<["format_version" := AUint (Datadog_FormatVersion dl)]>
    (<["placement" := AString (Datadog_Placement dl)]>
    (<["response_condition" := AString (Datadog_ResponseCondition dl)]> ∅)))))) in
  prune_empty ndl.

Definition flattenDatadog (datadogList : list Datadog) : list (gmap string any) :=
  flattenDatadog_entry <$> datadogList.

(* ================================================================== *)
(** * The provider: WAF deployment checker *)
(* ================================================================== *)

(** [time.Duration], in nanoseconds. *)
Definition Duration := Z.
Definition Second : Duration := 1000000000.

Definition WAFStatusCheckDelay : Duration := 5 * Second.
Definition WAFStatusCheckMinTimeout : Duration := 5 * Second.

(** Modelled from the spec: the deployment status constants of go-fastly's
    waf_version.go, which is not part of the sources at hand.  The spec
    names the statuses pending, in_progress, completed and failed. *)
Definition WAFVersionDeploymentStatusPending : string := "pending".
Definition WAFVersionDeploymentStatusInProgress : string := "in_progress".
Definition WAFVersionDeploymentStatusCompleted : string := "completed".
Definition WAFVersionDeploymentStatusFailed : string := "failed".

(** The fields of [gofastly.WAFVersion] the checker reads. *)
Record WAFVersion : Type := {
  WAFVersion_Number : Z;
  WAFVersion_LastDeploymentStatus : string;
  WAFVersion_Error : string
}.

(** Errors on the waiting path: an error of the status check, an
    [fmt.Errorf] message, and the errors of the state-change helper. *)
Inductive wait_error : Type :=
| CheckError (e : error)
| Errorf (msg : string)
| TimeoutError (LastState : string) (Timeout : Duration) (ExpectedState : list string)
| UnexpectedStateError (State : string) (ExpectedState : list string).

(** [fmt.Errorf("error waiting for WAF Version (%s) to be updated: %v", wafID, err)]. *)
Inductive deployment_error : Type :=
| ErrorWaiting (wafID : string) (cause : wait_error).

(** [WAFDeploymentStatusCheck]: the answer of the status check depends on
    how many checks came before. *)
Definition WAFDeploymentStatusCheck := string -> Z -> nat -> result WAFVersion.

Record WAFDeploymentChecker : Type := {
  WAFDeploymentChecker_Timeout : Duration;
  WAFDeploymentChecker_Delay : Duration;
  WAFDeploymentChecker_MinTimeout : Duration;
  WAFDeploymentChecker_Check : WAFDeploymentStatusCheck
}.

(** [resource.StateChangeConf]. *)
Record StateChangeConf : Type := {
  Pending : list string;
  Target : list string;
  Refresh : nat -> option WAFVersion * string * option wait_error;
  Timeout : Duration;
  Delay : Duration;
  MinTimeout : Duration;
  ContinuousTargetOccurence : nat;
  NotFoundChecks : nat
}.

(** Modelled from the spec: [StateChangeConf.WaitForStateContext] belongs
    to the plugin SDK, which is not part of the sources at hand.  The
    spec: "A bounded polling loop: ... repeatedly fetches status until it
    reaches a terminal state or fails or times out ... requires several
    consecutive stable observations of the target state before declaring
    success".  Real time is abstracted by [budget], the number of
    refreshes that complete before the timeout expires; [n] counts the
    refreshes already made, [targetOccurence] the consecutive
    observations of a target state, [last] the last state observed. *)
Fixpoint WaitForState_loop (conf : StateChangeConf) (budget n targetOccurence : nat)
    (last : string) : option WAFVersion * option wait_error :=
  match budget with
  | O => (None, Some (TimeoutError last (Timeout conf) (Target conf)))
  | S budget' =>
      let '(res, currentState, err) := Refresh conf n in
      match err with
      | Some e => (res, Some e)
      | None =>
          if bool_decide (currentState ∈ Target conf) then
            if decide (S targetOccurence = ContinuousTargetOccurence conf)
            then (res, None)
            else WaitForState_loop conf budget' (S n) (S targetOccurence) currentState
          else if bool_decide (currentState ∈ Pending conf) then
            WaitForState_loop conf budget' (S n) 0%nat currentState
          else (res, Some (UnexpectedStateError currentState (Target conf)))
      end
  end.

Definition WaitForStateContext (conf : StateChangeConf) (budget : nat)
  : option WAFVersion * option wait_error :=
  WaitForState_loop conf budget 0%nat 0%nat "".

(** The [Refresh] closure of [waitForDeployment]. *)
Definition waitForDeployment_Refresh (c : WAFDeploymentChecker) (wafID : string)
    (latestVersion : WAFVersion) (n : nat) : option WAFVersion * string * option wait_error :=
  match WAFDeploymentChecker_Check c wafID (WAFVersion_Number latestVersion) n with
  | Err err => (None, "", Some (CheckError err))
  | Ok res =>
      if decide (WAFVersion_LastDeploymentStatus res = WAFVersionDeploymentStatusFailed) then
        (Some res, WAFVersion_LastDeploymentStatus res,
         Some (Errorf ("waf deployment failed. Error message: " +:+ WAFVersion_Error res)))
      else (Some res, WAFVersion_LastDeploymentStatus res, None)
  end.

(** The [createStateConf] of [waitForDeployment]. *)
Definition createStateConf (c : WAFDeploymentChecker) (wafID : string)
    (latestVersion : WAFVersion) : StateChangeConf :=
  {| Pending := [WAFVersionDeploymentStatusPending; WAFVersionDeploymentStatusInProgress];
     Target := [WAFVersionDeploymentStatusCompleted];
     Refresh := waitForDeployment_Refresh c wafID latestVersion;
     Timeout := WAFDeploymentChecker_Timeout c;
     Delay := WAFDeploymentChecker_Delay c;
     MinTimeout := WAFDeploymentChecker_MinTimeout c;
     ContinuousTargetOccurence := 5;
     NotFoundChecks := 1 |}.

Definition waitForDeployment (c : WAFDeploymentChecker) (budget : nat) (wafID : string)
    (latestVersion : WAFVersion) : option deployment_error :=
  match WaitForStateContext (createStateConf c wafID latestVersion) budget with
  | (_, Some err) => Some (ErrorWaiting wafID err)
  | (_, None) => None
  end.

(** The [n]-th status check of a deployment answers with version [res]. *)
Definition observes (c : WAFDeploymentChecker) (wafID : string) (latestVersion : WAFVersion)
    (n : nat) (res : WAFVersion) : Prop :=
  WAFDeploymentChecker_Check c wafID (WAFVersion_Number latestVersion) n = Ok res.

(** A deployment status that is not terminal. *)
Definition in_flight (status : string) : Prop :=
  status = WAFVersionDeploymentStatusPending ∨
  status = WAFVersionDeploymentStatusInProgress.

(* ================================================================== *)
(** * The client operations as one family *)
(* ================================================================== *)

(** Every operation of the four resource kinds, with its input. *)
Inductive Operation : Type :=
| OpListS3s (i : ListS3sInput)
| OpCreateS3 (i : CreateS3Input)
| OpGetS3 (i : GetS3Input)
| OpUpdateS3 (i : UpdateS3Input)
| OpDeleteS3 (i : DeleteS3Input)
| OpListHeaders (i : ListHeadersInput)
| OpCreateHeader (i : CreateHeaderInput)
| OpGetHeader (i : GetHeaderInput)
| OpUpdateHeader (i : UpdateHeaderInput)
| OpDeleteHeader (i : DeleteHeaderInput)
| OpListGzips (i : ListGzipsInput)
| OpCreateGzip (i : CreateGzipInput)
| OpGetGzip (i : GetGzipInput)
| OpUpdateGzip (i : UpdateGzipInput)
| OpDeleteGzip (i : DeleteGzipInput)
| OpListServers (i : ListServersInput)
| OpCreateServer (i : CreateServerInput)
| OpGetServer (i : GetServerInput)
| OpUpdateServer (i : UpdateServerInput)
| OpDeleteServer (i : DeleteServerInput).

Definition is_Delete (op : Operation) : bool :=
  match op with
  | OpDeleteS3 _ | OpDeleteHeader _ | OpDeleteGzip _ | OpDeleteServer _ => true
  | _ => false
  end.

(** The [error] an operation returns ([None] is [nil]). *)
Definition error_of {T} (r : result T) : option error :=
  match r with
  | Ok _ => None
  | Err e => Some e
  end.

Definition returned_error {T} (m : net (result T)) : net (outcome (option error)) :=
  (r <- m ;; net_ret (Returns (error_of r)))%net.

Definition Operation_error (c : Client) (op : Operation) : net (outcome (option error)) :=
  match op with
  | OpListS3s i => returned_error (ListS3s c i)
  | OpCreateS3 i => returned_error (CreateS3 c i)
  | OpGetS3 i => returned_error (GetS3 c i)
  | OpUpdateS3 i =>
      (r <- UpdateS3 c i ;;
       net_ret match r with
               | Returns r => Returns (error_of r)
               | Panics msg => Panics msg
               end)%net
  | OpDeleteS3 i => (e <- DeleteS3 c i ;; net_ret (Returns e))%net
  | OpListHeaders i => returned_error (ListHeaders c i)
  | OpCreateHeader i => returned_error (CreateHeader c i)
  | OpGetHeader i => returned_error (GetHeader c i)
  | OpUpdateHeader i => returned_error (UpdateHeader c i)
  | OpDeleteHeader i => (e <- DeleteHeader c i ;; net_ret (Returns e))%net
  | OpListGzips i => returned_error (ListGzips c i)
  | OpCreateGzip i => returned_error (CreateGzip c i)
  | OpGetGzip i => returned_error (GetGzip c i)
  | OpUpdateGzip i => returned_error (UpdateGzip c i)
  | OpDeleteGzip i => (e <- DeleteGzip c i ;; net_ret (Returns e))%net
  | OpListServers i => returned_error (ListServers c i)
  | OpCreateServer i => returned_error (CreateServer c i)
  | OpGetServer i => returned_error (GetServer c i)
  | OpUpdateServer i => returned_error (UpdateServer c i)
  | OpDeleteServer i => (e <- DeleteServer c i ;; net_ret (Returns e))%net
  end.

(** The identifying fields of an operation's input, the ones that make up
    the path of its request (and the address of a server to create, which
    identifies it in listings): each with whether it is missing and with
    the validation error that reports it. *)
Definition versioned (ServiceID : string) (ServiceVersion : Z) : list (bool * error) :=
  [(bool_decide (ServiceID = ""), ErrMissingServiceID);
   (bool_decide (ServiceVersion = 0), ErrMissingServiceVersion)].

Definition named (ServiceID : string) (ServiceVersion : Z) (Name : string)
  : list (bool * error) :=
  versioned ServiceID ServiceVersion ++ [(bool_decide (Name = ""), ErrMissingName)].

Definition pooled (ServiceID PoolID : string) : list (bool * error) :=
  [(bool_decide (ServiceID = ""), ErrMissingServiceID);
   (bool_decide (PoolID = ""), ErrMissingPoolID)].

Definition pooled_server (ServiceID PoolID Server : string) : list (bool * error) :=
  pooled ServiceID PoolID ++ [(bool_decide (Server = ""), ErrMissingServer)].

Definition identifying_fields (op : Operation) : list (bool * error) :=
  match op with
  | OpListS3s i => versioned (ListS3sInput_ServiceID i) (ListS3sInput_ServiceVersion i)
  | OpCreateS3 i => versioned (CreateS3Input_ServiceID i) (CreateS3Input_ServiceVersion i)
  | OpGetS3 i =>
      named (GetS3Input_ServiceID i) (GetS3Input_ServiceVersion i) (GetS3Input_Name i)
  | OpUpdateS3 i =>
      named (UpdateS3Input_ServiceID i) (UpdateS3Input_ServiceVersion i) (UpdateS3Input_Name i)
  | OpDeleteS3 i =>
      named (DeleteS3Input_ServiceID i) (DeleteS3Input_ServiceVersion i) (DeleteS3Input_Name i)
  | OpListHeaders i =>
      versioned (ListHeadersInput_ServiceID i) (ListHeadersInput_ServiceVersion i)
  | OpCreateHeader i =>
      versioned (CreateHeaderInput_ServiceID i) (CreateHeaderInput_ServiceVersion i)
  | OpGetHeader i =>
      named (GetHeaderInput_ServiceID i) (GetHeaderInput_ServiceVersion i)
        (GetHeaderInput_Name i)
  | OpUpdateHeader i =>
      named (UpdateHeaderInput_ServiceID i) (UpdateHeaderInput_ServiceVersion i)
        (UpdateHeaderInput_Name i)
  | OpDeleteHeader i =>
      named (DeleteHeaderInput_ServiceID i) (DeleteHeaderInput_ServiceVersion i)
        (DeleteHeaderInput_Name i)
  | OpListGzips i => versioned (ListGzipsInput_ServiceID i) (ListGzipsInput_ServiceVersion i)
  | OpCreateGzip i =>
      versioned (CreateGzipInput_ServiceID i) (CreateGzipInput_ServiceVersion i)
  | OpGetGzip i =>
      named (GetGzipInput_ServiceID i) (GetGzipInput_ServiceVersion i) (GetGzipInput_Name i)
  | OpUpdateGzip i =>
      named (UpdateGzipInput_ServiceID i) (UpdateGzipInput_ServiceVersion i)
        (UpdateGzipInput_Name i)
  | OpDeleteGzip i =>
      named (DeleteGzipInput_ServiceID i) (DeleteGzipInput_ServiceVersion i)
        (DeleteGzipInput_Name i)
  | OpListServers i => pooled (ListServersInput_ServiceID i) (ListServersInput_PoolID i)
  | OpCreateServer i =>
      pooled (CreateServerInput_ServiceID i) (CreateServerInput_PoolID i)
      ++ [(bool_decide (CreateServerInput_Address i = ""), ErrMissingAddress)]
  | OpGetServer i =>
      pooled_server (GetServerInput_ServiceID i) (GetServerInput_PoolID i)
        (GetServerInput_Server i)
  | OpUpdateServer i =>
      pooled_server (UpdateServerInput_ServiceID i) (UpdateServerInput_PoolID i)
        (UpdateServerInput_Server i)
  | OpDeleteServer i =>
      pooled_server (DeleteServerInput_ServiceID i) (DeleteServerInput_PoolID i)
        (DeleteServerInput_Server i)
  end.

(** The error of the first identifying field that is missing. *)
Fixpoint first_missing (fields : list (bool * error)) : option error :=
  match fields with
  | [] => None
  | (missing, e) :: rest => if missing then Some e else first_missing rest
  end.

(* ================================================================== *)
(** * Attribute names of the logging blocks *)
(* ================================================================== *)

(** The attributes that exist for VCL services only. *)
Definition vcl_only_attributes : list string :=
  ["placement"; "response_condition"; "format_version"; "format"].

(** The attributes of a Datadog logging block for every service type. *)
Definition Datadog_common_attributes : list string := ["name"; "region"; "token"].

(** The attributes of an S3 logging block for every service type. *)
Definition S3_common_attributes : list string :=
  ["acl"; "bucket_name"; "compression_codec"; "domain"; "gzip_level"; "message_type";
   "name"; "path"; "period"; "public_key"; "redundancy"; "s3_access_key";
   "s3_iam_role"; "s3_secret_key"; "server_side_encryption";
   "server_side_encryption_kms_key_id"; "timestamp_format"].

(** The attributes of an S3 logging block that [Update] can change, each
    with the form key of the [UpdateS3Input] field it is copied to. *)
Definition S3_update_fields : list (string * string) :=
  [("bucket_name", "bucket_name"); ("domain", "domain");
   ("s3_access_key", "access_key"); ("s3_secret_key", "secret_key");
   ("s3_iam_role", "iam_role"); ("path", "path"); ("period", "period");
   ("compression_codec", "compression_codec"); ("gzip_level", "gzip_level");
   ("format", "format"); ("format_version", "format_version");
   ("response_condition", "response_condition"); ("message_type", "message_type");
   ("timestamp_format", "timestamp_format"); ("redundancy", "redundancy");
   ("placement", "placement"); ("public_key", "public_key");
   ("server_side_encryption_kms_key_id", "server_side_encryption_kms_key_id");
   ("server_side_encryption", "server_side_encryption"); ("acl", "acl")].

(* ================================================================== *)
(** * Zero values and sample data *)
(* ================================================================== *)

(** The zero value of [S3], with a name. *)
Definition S3_named (name : string) : S3 :=
  {| S3_ServiceID := ""; S3_ServiceVersion := 0; S3_Name := name; S3_BucketName := "";
     S3_Domain := ""; S3_AccessKey := ""; S3_SecretKey := ""; S3_IAMRole := "";
     S3_Path := ""; S3_Period := 0; S3_CompressionCodec := ""; S3_GzipLevel := 0;
     S3_Format := ""; S3_FormatVersion := 0; S3_ResponseCondition := "";
     S3_MessageType := ""; S3_TimestampFormat := ""; S3_Placement := "";
     S3_PublicKey := ""; S3_Redundancy := ""; S3_ServerSideEncryptionKMSKeyID := "";
     S3_ServerSideEncryption := ""; S3_CreatedAt := None; S3_UpdatedAt := None;
     S3_DeletedAt := None; S3_ACL := "" |}.

(** A server of pool [p1] with the given identifier and address; the
    comment and override host repeat the identifier. *)
Definition Server_at (ident address : string) : Server :=
  {| Server_ServiceID := "svc"; Server_PoolID := "p1"; Server_ID := ident;
     Server_Address := address; Server_Comment := ident; Server_Weight := 100;
     Server_MaxConn := 0; Server_Port := 80; Server_Disabled := false;
     Server_OverrideHost := ident; Server_CreatedAt := None;
     Server_DeletedAt := None; Server_UpdatedAt := None |}.

(** A remote that answers every request with the same body. *)
Definition constant_remote (b : Body) : Client := {| remote := fun _ _ => Ok b |}.

(** A remote that fails every request with the same error. *)
Definition failing_remote (e : error) : Client := {| remote := fun _ _ => Err e |}.

(** The zero value of [UpdateS3Input], with its identifying fields. *)
Definition UpdateS3Input_for (serviceID : string) (serviceVersion : Z) (name : string)
  : UpdateS3Input :=
  {| UpdateS3Input_ServiceID := serviceID; UpdateS3Input_ServiceVersion := serviceVersion;
     UpdateS3Input_Name := name; UpdateS3Input_NewName := None;
     UpdateS3Input_BucketName := None; UpdateS3Input_Domain := None;
     UpdateS3Input_AccessKey := None; UpdateS3Input_SecretKey := None;
     UpdateS3Input_IAMRole := None; UpdateS3Input_Path := None;
     UpdateS3Input_Period := None; UpdateS3Input_CompressionCodec := None;
     UpdateS3Input_GzipLevel := None; UpdateS3Input_Format := None;
     UpdateS3Input_FormatVersion := None; UpdateS3Input_ResponseCondition := None;
     UpdateS3Input_MessageType := None; UpdateS3Input_TimestampFormat := None;
     UpdateS3Input_Redundancy := None; UpdateS3Input_Placement := None;
     UpdateS3Input_PublicKey := None;
     UpdateS3Input_ServerSideEncryptionKMSKeyID := None;
     UpdateS3Input_ServerSideEncryption := None; UpdateS3Input_ACL := None |}.

(** The same input with [ServerSideEncryption] pointing to [sse]. *)
Definition UpdateS3Input_encrypting (serviceID : string) (serviceVersion : Z)
    (name sse : string) : UpdateS3Input :=
  {| UpdateS3Input_ServiceID := serviceID; UpdateS3Input_ServiceVersion := serviceVersion;
     UpdateS3Input_Name := name; UpdateS3Input_NewName := None;
     UpdateS3Input_BucketName := None; UpdateS3Input_Domain := None;
     UpdateS3Input_AccessKey := None; UpdateS3Input_SecretKey := None;
     UpdateS3Input_IAMRole := None; UpdateS3Input_Path := None;
     UpdateS3Input_Period := None; UpdateS3Input_CompressionCodec := None;
     UpdateS3Input_GzipLevel := None; UpdateS3Input_Format := None;
     UpdateS3Input_FormatVersion := None; UpdateS3Input_ResponseCondition := None;
     UpdateS3Input_MessageType := None; UpdateS3Input_TimestampFormat := None;
     UpdateS3Input_Redundancy := None; UpdateS3Input_Placement := None;
     UpdateS3Input_PublicKey := None;
     UpdateS3Input_ServerSideEncryptionKMSKeyID := None;
     UpdateS3Input_ServerSideEncryption := Some sse; UpdateS3Input_ACL := None |}.

(** A status check that walks through a list of statuses, one per
    check, and stays on the last one. *)
Definition status_sequence (statuses : list string) (detail : string)
  : WAFDeploymentStatusCheck :=
  fun _ version n =>
    Ok {| WAFVersion_Number := version;
          WAFVersion_LastDeploymentStatus := nth n statuses (List.last statuses "");
          WAFVersion_Error := detail |}.

Definition sample_checker (statuses : list string) (detail : string) : WAFDeploymentChecker :=
  {| WAFDeploymentChecker_Timeout := 3600 * Second;
     WAFDeploymentChecker_Delay := WAFStatusCheckDelay;
     WAFDeploymentChecker_MinTimeout := WAFStatusCheckMinTimeout;
     WAFDeploymentChecker_Check := status_sequence statuses detail |}.

Definition sample_WAFVersion : WAFVersion :=
  {| WAFVersion_Number := 2; WAFVersion_LastDeploymentStatus := "";
     WAFVersion_Error := "" |}.

(** A create input that asks for KMS encryption without a key. *)
Definition CreateS3Input_encrypting (serviceID : string) (serviceVersion : Z)
    (name sse : string) : CreateS3Input :=
  {| CreateS3Input_ServiceID := serviceID; CreateS3Input_ServiceVersion := serviceVersion;
     CreateS3Input_Name := name; CreateS3Input_BucketName := "";
     CreateS3Input_Domain := ""; CreateS3Input_AccessKey := "";
     CreateS3Input_SecretKey := ""; CreateS3Input_IAMRole := ""; CreateS3Input_Path := "";
     CreateS3Input_Period := 0; CreateS3Input_CompressionCodec := "";
     CreateS3Input_GzipLevel := 0; CreateS3Input_Format := "";
     CreateS3Input_MessageType := ""; CreateS3Input_FormatVersion := 0;
     CreateS3Input_ResponseCondition := ""; CreateS3Input_TimestampFormat := "";
     CreateS3Input_Redundancy := ""; CreateS3Input_Placement := "";
     CreateS3Input_PublicKey := ""; CreateS3Input_ServerSideEncryptionKMSKeyID := "";
     CreateS3Input_ServerSideEncryption := sse; CreateS3Input_ACL := "" |}.

(** The underlying value of an [any], apart from its dynamic type. *)
Inductive content : Type :=
| CString (s : string)
| CNumber (n : Z)
| CBool (b : bool).

Definition content_of (v : any) : content :=
  match v with
  | AString s | AS3Redundancy s | AS3ServerSideEncryption s | AS3AccessControlList s =>
      CString s
  | AInt n | AUint n | AUint8 n => CNumber n
  | ABool b => CBool b
  end.

(* ================================================================== *)
(** * Create and read back *)
(* ================================================================== *)

(** The record whose fields equal the fields of a create input, with the
    timestamps the server assigns. *)
Definition S3_created (i : CreateS3Input) (createdAt updatedAt deletedAt : option Time) : S3 :=
  {| S3_ServiceID := CreateS3Input_ServiceID i;
     S3_ServiceVersion := CreateS3Input_ServiceVersion i;
     S3_Name := CreateS3Input_Name i;
     S3_BucketName := CreateS3Input_BucketName i;
     S3_Domain := CreateS3Input_Domain i;
     S3_AccessKey := CreateS3Input_AccessKey i;
     S3_SecretKey := CreateS3Input_SecretKey i;
     S3_IAMRole := CreateS3Input_IAMRole i;
     S3_Path := CreateS3Input_Path i;
     S3_Period := CreateS3Input_Period i;
     S3_CompressionCodec := CreateS3Input_CompressionCodec i;
     S3_GzipLevel := CreateS3Input_GzipLevel i;
     S3_Format := CreateS3Input_Format i;
     S3_FormatVersion := CreateS3Input_FormatVersion i;
     S3_ResponseCondition := CreateS3Input_ResponseCondition i;
     S3_MessageType := CreateS3Input_MessageType i;
     S3_TimestampFormat := CreateS3Input_TimestampFormat i;
     S3_Placement := CreateS3Input_Placement i;
     S3_PublicKey := CreateS3Input_PublicKey i;
     S3_Redundancy := CreateS3Input_Redundancy i;
     S3_ServerSideEncryptionKMSKeyID := CreateS3Input_ServerSideEncryptionKMSKeyID i;
     S3_ServerSideEncryption := CreateS3Input_ServerSideEncryption i;
     S3_CreatedAt := createdAt;
     S3_UpdatedAt := updatedAt;
     S3_DeletedAt := deletedAt;
     S3_ACL := CreateS3Input_ACL i |}.

(** A record read back matches a create input when its fields equal the
    input fields, the timestamps apart. *)
Definition S3_matches (i : CreateS3Input) (s : S3) : Prop :=
  ∃ createdAt updatedAt deletedAt, s = S3_created i createdAt updatedAt deletedAt.

(** A flattened attribute recovers a configured one when it holds the
    same underlying value; a configured empty string may come back as an
    absent key. *)
Definition recovers (configured flattened : option any) : Prop :=
  match configured, flattened with
  | None, _ => True
  | Some v, Some v' => content_of v' = content_of v
  | Some v, None => content_of v = CString ""
  end.

(** An S3 logging block as configured, with the given gzip level, and the
    helpers of a handler for which the VCL-only attributes are unset. *)
Definition sample_S3_block (gzip_level : Z) : gmap string any :=
  <["name" := AString "logs"]>
  (<["bucket_name" := AString "my-bucket"]>
  (<["s3_access_key" := AString "AKIA"]>
  (<["s3_secret_key" := AString "secret"]>
  (<["s3_iam_role" := AString ""]>
  (<["period" := AInt 3600]>
  (<["gzip_level" := AInt gzip_level]>
  (<["domain" := AString "s3.amazonaws.com"]>
  (<["path" := AString ""]>
  (<["timestamp_format" := AString "%Y-%m-%dT%H:%M:%S.000"]>
  (<["message_type" := AString "classic"]>
  (<["public_key" := AString ""]>
  (<["server_side_encryption_kms_key_id" := AString ""]>
  (<["compression_codec" := AString ""]>
  (<["redundancy" := AString "standard"]>
  (<["acl" := AString ""]>
  (<["server_side_encryption" := AString ""]> ∅)))))))))))))))).

Definition sample_getVCLLoggingAttributes
    (h : DefaultServiceAttributeHandler) (df : gmap string any)
  : outcome VCLLoggingAttributes :=
  Returns {| vla_format := ""; vla_formatVersion := None; vla_placement := "none";
             vla_responseCondition := "" |}.

Definition sample_uintOrDefault (v : option Z) : Z := default 0 v.

Definition sample_handler : DefaultServiceAttributeHandler :=
  {| key := "logging_s3"; serviceMetadata := {| serviceType := ServiceTypeCompute |} |}.

(* ================================================================== *)
(** * The provider: Create and Read of the S3 logging handler *)
(* ================================================================== *)

(** [createS3]. *)
Definition createS3 (conn : Client) (i : CreateS3Input) : net (option error) :=
  (r <- CreateS3 conn i ;; net_ret (error_of r))%net.

(** [S3LoggingServiceAttributeHandler.Create]; the two helpers of
    [buildCreate] are passed on. *)
Definition S3LoggingServiceAttributeHandler_Create
    (getVCLLoggingAttributes :
       DefaultServiceAttributeHandler -> gmap string any -> outcome VCLLoggingAttributes)
    (uintOrDefault : option Z -> Z)
    (h : DefaultServiceAttributeHandler) (conn : Client) (serviceID : string)
    (resource : gmap string any) (serviceVersion : Z) : net (outcome (option error)) :=
  match S3LoggingServiceAttributeHandler_buildCreate getVCLLoggingAttributes uintOrDefault
          h resource serviceID serviceVersion with
  | Panics msg => net_ret (Panics msg)
  | Returns (Err err) => net_ret (Returns (Some err))
  | Returns (Ok opts) => (err <- createS3 conn opts ;; net_ret (Returns err))%net
  end.

(** The part of [schema.ResourceData] the handlers read: the service ID,
    the nested blocks stored under each key, and the [imported] flag. *)
Record ResourceData : Type := {
  d_Id : string;
  d_blocks : gmap string (list (gmap string any));
  d_imported : bool
}.

(** [fmt.Errorf("error looking up S3 Logging for (%s), version (%v): %s",
    d.Id(), serviceVersion, err)]. *)
Inductive lookup_error : Type :=
| ErrorLookingUpS3Logging (serviceID : string) (serviceVersion : Z) (cause : error).

Section read.
(** [pruneVCLLoggingAttributes] is a helper of the provider's base
    handler and [d.Set] belongs to the plugin SDK; both are parameters.
    [d.Set] yields the updated resource data and its error. *)
Variable pruneVCLLoggingAttributes :
  DefaultServiceAttributeHandler -> gmap string any -> gmap string any.
Variable ResourceData_Set :
  ResourceData -> string -> list (gmap string any) -> ResourceData * option string.

(** [S3LoggingServiceAttributeHandler.Read]: the resource data after the
    call and the error returned.  An error of [d.Set] is only logged. *)
Definition S3LoggingServiceAttributeHandler_Read
    (h : DefaultServiceAttributeHandler) (d : ResourceData) (serviceVersion : Z)
    (conn : Client) : net (ResourceData * option lookup_error) :=
  let resources := default [] (d_blocks d !! key h) in
  if (0 <? length resources)%nat || d_imported d then
    (r <- ListS3s conn {| ListS3sInput_ServiceID := d_Id d;
                          ListS3sInput_ServiceVersion := serviceVersion |} ;;
     match r with
     | Err err =>
         net_ret (d, Some (ErrorLookingUpS3Logging (d_Id d) serviceVersion err))
     | Ok s3List =>
         let sl := flattenS3s s3List in
         let sl := pruneVCLLoggingAttributes h <$> sl in
         net_ret ((ResourceData_Set d (key h) sl).1, None)
     end)%net
  else net_ret (d, None).
End read.

(* ================================================================== *)
(** * Requests by operation *)
(* ================================================================== *)

(** The HTTP method each operation uses. *)
Definition Operation_method (op : Operation) : Method :=
  match op with
  | OpListS3s _ | OpGetS3 _ | OpListHeaders _ | OpGetHeader _
  | OpListGzips _ | OpGetGzip _ | OpListServers _ | OpGetServer _ => GET
  | OpCreateS3 _ | OpCreateHeader _ | OpCreateGzip _ | OpCreateServer _ => POST
  | OpUpdateS3 _ | OpUpdateHeader _ | OpUpdateGzip _ | OpUpdateServer _ => PUT
  | OpDeleteS3 _ | OpDeleteHeader _ | OpDeleteGzip _ | OpDeleteServer _ => DELETE
  end.

(** The checks of an operation beyond the identifying fields: the
    encryption check of [CreateS3] and of [UpdateS3]. *)
Definition encryption_check_passes (op : Operation) : Prop :=
  match op with
  | OpCreateS3 i =>
      ¬ (CreateS3Input_ServerSideEncryption i = S3ServerSideEncryptionKMS ∧
         CreateS3Input_ServerSideEncryptionKMSKeyID i = "")
  | OpUpdateS3 i => UpdateS3_kms_check i = Returns false
  | _ => True
  end.

(** The name a flattened block carries: an absent name is the empty one. *)
Definition flattened_name (m : gmap string any) : string :=
  match m !! "name" with
  | Some (AString s) => s
  | _ => ""
  end.

(** The attributes [Update] copies as strings, and as numbers. *)
Definition S3_update_string_attributes : list string :=
  ["bucket_name"; "domain"; "s3_access_key"; "s3_secret_key"; "s3_iam_role"; "path";
   "compression_codec"; "format"; "response_condition"; "message_type";
   "timestamp_format"; "redundancy"; "placement"; "public_key";
   "server_side_encryption_kms_key_id"; "server_side_encryption"; "acl"].

Definition S3_update_number_attributes : list string :=
  ["period"; "gzip_level"; "format_version"].

(** The keys of the map literal of [flattenS3s] and of [flattenDatadog]. *)
Definition flattenS3s_keys : list string :=
  ["name"; "bucket_name"; "s3_access_key"; "s3_secret_key"; "s3_iam_role"; "path";
   "period"; "domain"; "gzip_level"; "format"; "format_version"; "timestamp_format";
   "redundancy"; "response_condition"; "message_type"; "public_key"; "placement";
   "server_side_encryption"; "server_side_encryption_kms_key_id"; "compression_codec";
   "acl"].

Definition flattenDatadog_keys : list string :=
  ["name"; "token"; "region"; "format"; "format_version"; "placement";
   "response_condition"].

(** An S3 logger with a name and a bucket, the other fields zero. *)
Definition S3_in_bucket (name bucket : string) : S3 :=
  {| S3_ServiceID := ""; S3_ServiceVersion := 0; S3_Name := name; S3_BucketName := bucket;
     S3_Domain := ""; S3_AccessKey := ""; S3_SecretKey := ""; S3_IAMRole := "";
     S3_Path := ""; S3_Period := 0; S3_CompressionCodec := ""; S3_GzipLevel := 0;
     S3_Format := ""; S3_FormatVersion := 0; S3_ResponseCondition := "";
     S3_MessageType := ""; S3_TimestampFormat := ""; S3_Placement := "";
     S3_PublicKey := ""; S3_Redundancy := ""; S3_ServerSideEncryptionKMSKeyID := "";
     S3_ServerSideEncryption := ""; S3_CreatedAt := None; S3_UpdatedAt := None;
     S3_DeletedAt := None; S3_ACL := "" |}.

Definition sample_ListS3sInput : ListS3sInput :=
  {| ListS3sInput_ServiceID := "svc"; ListS3sInput_ServiceVersion := 3 |}.

(* ================================================================== *)
(** * The provider: Create of the Datadog logging handler *)
(* ================================================================== *)

(** [gofastly.CreateDatadogInput], with the fields [buildCreate] fills in. *)
Record CreateDatadogInput : Type := {
  CreateDatadogInput_ServiceID : string;
  CreateDatadogInput_ServiceVersion : Z;
  CreateDatadogInput_Name : string;
  CreateDatadogInput_Token : string;
  CreateDatadogInput_Region : string;
  CreateDatadogInput_Format : string;
  CreateDatadogInput_FormatVersion : Z;
  CreateDatadogInput_Placement : string;
  CreateDatadogInput_ResponseCondition : string
}.

Section datadog_build_create.
Variable getVCLLoggingAttributes :
  DefaultServiceAttributeHandler -> gmap string any -> outcome VCLLoggingAttributes.
Variable uintOrDefault : option Z -> Z.

Definition DatadogServiceAttributeHandler_buildCreate
    (h : DefaultServiceAttributeHandler)
    (df : gmap string any) (serviceID : string) (serviceVersion : Z)
  : outcome CreateDatadogInput :=
  (vla <~ getVCLLoggingAttributes h df ;
   name <~ assert_string (df !! "name") ;
   token <~ assert_string (df !! "token") ;
   region <~ assert_string (df !! "region") ;
   Returns
     {| CreateDatadogInput_ServiceID := serviceID;
        CreateDatadogInput_ServiceVersion := serviceVersion;
        CreateDatadogInput_Name := name;
        CreateDatadogInput_Token := token;
        CreateDatadogInput_Region := region;
        CreateDatadogInput_Format := vla_format vla;
        CreateDatadogInput_FormatVersion := uintOrDefault (vla_formatVersion vla);
        CreateDatadogInput_Placement := vla_placement vla;
        CreateDatadogInput_ResponseCondition := vla_responseCondition vla |})%outcome.
End datadog_build_create.

(* ================================================================== *)
(** * Dynamic types of the attribute values *)
(* ================================================================== *)

(** The attributes [buildCreate] of the S3 handler asserts to be
    strings, and to be ints. *)
Definition S3_create_string_attributes : list string :=
  ["name"; "bucket_name"; "s3_access_key"; "s3_secret_key"; "s3_iam_role"; "domain";
   "path"; "timestamp_format"; "message_type"; "public_key";
   "server_side_encryption_kms_key_id"; "compression_codec"; "redundancy"; "acl";
   "server_side_encryption"].

Definition S3_create_number_attributes : list string := ["period"; "gzip_level"].

(** The attributes the Datadog handler asserts to be strings in
    [buildCreate], and in [Update]. *)
Definition Datadog_create_string_attributes : list string := ["name"; "token"; "region"].

Definition Datadog_update_string_attributes : list string :=
  ["token"; "region"; "format"; "response_condition"; "placement"].

(** Every listed attribute of the block holds a value of the dynamic
    type [string], respectively [int]. *)
Definition block_typed (strings numbers : list string) (m : gmap string any) : Prop :=
  Forall (fun k => ∃ s, m !! k = Some (AString s)) strings ∧
  Forall (fun k => ∃ n, m !! k = Some (AInt n)) numbers.

(** Every listed attribute that the changed set holds has a value of the
    dynamic type [string], respectively [int]. *)
Definition changes_typed (strings numbers : list string) (m : gmap string any) : Prop :=
  Forall (fun k => ∀ v, m !! k = Some v -> ∃ s, v = AString s) strings ∧
  Forall (fun k => ∀ v, m !! k = Some v -> ∃ n, v = AInt n) numbers.

(** The form body an operation sends: the encoded input of a Create or
    of an Update, and none for the other operations. *)
Definition Operation_form (op : Operation) : Form :=
  match op with
  | OpCreateS3 i => CreateS3Input_form i
  | OpUpdateS3 i => UpdateS3Input_form i
  | OpCreateHeader i => CreateHeaderInput_form i
  | OpUpdateHeader i => UpdateHeaderInput_form i
  | OpCreateGzip i => CreateGzipInput_form i
  | OpUpdateGzip i => UpdateGzipInput_form i
  | OpCreateServer i => CreateServerInput_form i
  | OpUpdateServer i => UpdateServerInput_form i
  | _ => []
  end.

(** A value has the dynamic type that the plugin SDK gives to an
    attribute of the schema type: [string] for [TypeString] and [int] for
    [TypeInt]. *)
Definition has_type (v : any) (t : ValueType) : Prop :=
  match t, v with
  | TypeString, AString _ => True
  | TypeInt, AInt _ => True
  | _, _ => False
  end.

(** The block holds every attribute of the schema, with its type. *)
Definition follows_schema (attributes : gmap string Schema) (m : gmap string any) : Prop :=
  ∀ k sch, attributes !! k = Some sch -> ∃ v, m !! k = Some v ∧ has_type v (Schema_Type sch).

(** Every attribute of the changed set is one of the schema, with its
    type. *)
Definition changes_follow_schema (attributes : gmap string Schema) (m : gmap string any)
  : Prop :=
  ∀ k v, m !! k = Some v -> ∃ sch, attributes !! k = Some sch ∧ has_type v (Schema_Type sch).

(** A Datadog block as configured for a compute service. *)
Definition sample_Datadog_block : gmap string any :=
  <["name" := AString "dd"]>
  (<["token" := AString "secret"]>
  (<["region" := AString "EU"]> ∅)).

(** The Datadog record whose fields equal the fields of a create input. *)
Definition Datadog_created (i : CreateDatadogInput) : Datadog :=
  {| Datadog_Name := CreateDatadogInput_Name i;
     Datadog_Token := CreateDatadogInput_Token i;
     Datadog_Region := CreateDatadogInput_Region i;
     Datadog_Format := CreateDatadogInput_Format i;
     Datadog_FormatVersion := CreateDatadogInput_FormatVersion i;
     Datadog_Placement := CreateDatadogInput_Placement i;
     Datadog_ResponseCondition := CreateDatadogInput_ResponseCondition i |}.

(* ================================================================== *)
(** * Properties *)
(* ================================================================== *)

(** ** Order on strings *)

Lemma ltb_true_le (a b : string) : String.ltb a b = true -> (a ≤ b)%string.
Proof.
  unfold String.ltb, String.le, String.leb.
  destruct (String.compare a b); simpl; done.
Qed.

Lemma ltb_false_ge (a b : string) : String.ltb a b = false -> (b ≤ a)%string.
Proof.
  unfold String.ltb, String.le, String.leb.
  rewrite (String.compare_antisym b a).
  destruct (String.compare a b); simpl; done.
Qed.

Lemma ltb_irrefl (a : string) : String.ltb a a = false.
Proof.
  unfold String.ltb. pose proof (String.compare_antisym a a) as H.
  destruct (String.compare a a); simpl in H; done.
Qed.

(** ** sort.Stable returns a sorted permutation *)

(** A list is sorted by [key] when the keys of any two elements are in
    ascending order of position. *)
Definition sorted_by {A} (key : A -> string) (l : list A) : Prop :=
  StronglySorted (fun a b => (key a ≤ key b)%string) l.

Global Instance sorted_by_dec {A} (key : A -> string) (l : list A) :
  Decision (sorted_by key l).
Proof. unfold sorted_by. apply _. Defined.

Section sort_Stable_facts.
Context {A : Type} (key : A -> string).

Let Less (a b : A) : bool := String.ltb (key a) (key b).
Let ge (a b : A) : Prop := (key b ≤ key a)%string.

Lemma insert_back_Permutation x racc : insert_back Less x racc ≡ₚ x :: racc.
Proof.
  induction racc as [|y r IH]; simpl; [done|].
  destruct (Less x y); [|done].
  rewrite IH. apply Permutation_swap.
Qed.

Lemma insert_back_Forall (P : A -> Prop) x racc :
  P x -> Forall P racc -> Forall P (insert_back Less x racc).
Proof. intros Hx Hr. rewrite insert_back_Permutation. by constructor. Qed.

Lemma insert_back_sorted x racc :
  StronglySorted ge racc -> StronglySorted ge (insert_back Less x racc).
Proof.
  induction 1 as [|y r Hr IH Hy]; simpl.
  - repeat constructor.
  - destruct (Less x y) eqn:Hxy.
    + constructor; [exact IH|].
      apply insert_back_Forall; [|exact Hy].
      unfold ge. by apply ltb_true_le.
    + apply ltb_false_ge in Hxy.
      constructor; [by constructor|].
      constructor; [exact Hxy|].
      eapply Forall_impl; [exact Hy|].
      intros z Hz. unfold ge in *. by etrans.
Qed.

Lemma fold_insert_back_sorted data racc :
  StronglySorted ge racc ->
  StronglySorted ge (fold_left (fun racc x => insert_back Less x racc) data racc).
Proof.
  revert racc. induction data as [|x data IH]; intros racc Hr; simpl; [done|].
  apply IH. by apply insert_back_sorted.
Qed.

Lemma fold_insert_back_Permutation data racc :
  fold_left (fun racc x => insert_back Less x racc) data racc ≡ₚ data ++ racc.
Proof.
  revert racc. induction data as [|x data IH]; intros racc; simpl; [done|].
  rewrite IH, insert_back_Permutation. by rewrite Permutation_middle.
Qed.

Lemma StronglySorted_reverse (R : relation A) (l : list A) :
  StronglySorted R l -> StronglySorted (flip R) (reverse l).
Proof.
  induction 1 as [|x l Hl IH Hx]; [constructor|].
  rewrite reverse_cons. apply StronglySorted_app_2.
  - intros y z Hy ->%list_elem_of_singleton.
    rewrite elem_of_reverse in Hy. rewrite Forall_forall in Hx.
    unfold flip. by apply Hx.
  - exact IH.
  - repeat constructor.
Qed.

Lemma sort_Stable_sorted data : sorted_by key (sort_Stable Less data).
Proof.
  unfold sort_Stable, sorted_by.
  apply (StronglySorted_reverse ge).
  apply fold_insert_back_sorted. constructor.
Qed.

Lemma sort_Stable_Permutation data : sort_Stable Less data ≡ₚ data.
Proof.
  unfold sort_Stable.
  rewrite reverse_Permutation, fold_insert_back_Permutation.
  by rewrite app_nil_r.
Qed.

(** Stability: the elements that share a key keep their relative order. *)
Lemma insert_back_filter (k : string) x racc :
  filter (fun a => key a = k) (insert_back Less x racc)
  = filter (fun a => key a = k) (x :: racc).
Proof.
  induction racc as [|y r IH]; simpl; [done|].
  destruct (Less x y) eqn:Hxy; [|done].
  rewrite !filter_cons, IH, filter_cons.
  destruct (decide (key x = k)) as [Hx|]; [|done].
  destruct (decide (key y = k)) as [Hy|]; [|done].
  unfold Less in Hxy. rewrite Hx, Hy, ltb_irrefl in Hxy. discriminate.
Qed.

Lemma fold_insert_back_filter (k : string) data racc :
  filter (fun a => key a = k) (fold_left (fun racc x => insert_back Less x racc) data racc)
  = reverse (filter (fun a => key a = k) data) ++ filter (fun a => key a = k) racc.
Proof.
  revert racc. induction data as [|x data IH]; intros racc; simpl; [done|].
  rewrite IH, insert_back_filter, !filter_cons.
  destruct (decide (key x = k)); [|done].
  by rewrite reverse_cons, <-app_assoc.
Qed.

Lemma sort_Stable_stable (k : string) data :
  filter (fun a => key a = k) (sort_Stable Less data)
  = filter (fun a => key a = k) data.
Proof.
  unfold sort_Stable.
  rewrite filter_reverse, fold_insert_back_filter, app_nil_r.
  apply reverse_involutive.
Qed.
End sort_Stable_facts.

Lemma sorted_by_pair {A} (key : A -> string) (x y : A) :
  sorted_by key [x; y] -> String.leb (key x) (key y) = true.
Proof.
  intros H. apply StronglySorted_inv in H as [_ H].
  apply Forall_inv in H. by apply Is_true_true.
Qed.

(** ** The List operations *)

Ltac net_unfold :=
  unfold net_bind, net_ret, Client_Get, Client_PostForm, Client_PutForm,
    Client_Delete, roundtrip in *.

Lemma ListS3s_Ok c i log l log' :
  ListS3s c i log = (Ok l, log') ->
  ∃ req l0, remote c log req = Ok (BodyS3s l0) ∧
            l = sort_Stable s3sByName_Less l0 ∧ log' = log ++ [req].
Proof.
  unfold ListS3s. repeat case_decide; net_unfold; try congruence.
  destruct (remote c log _) as [body|] eqn:Hr; [|congruence].
  destruct body; simpl; intros; simplify_eq. eauto.
Qed.

Lemma ListHeaders_Ok c i log l log' :
  ListHeaders c i log = (Ok l, log') ->
  ∃ req l0, remote c log req = Ok (BodyHeaders l0) ∧
            l = sort_Stable headersByName_Less l0 ∧ log' = log ++ [req].
Proof.
  unfold ListHeaders. repeat case_decide; net_unfold; try congruence.
  destruct (remote c log _) as [body|] eqn:Hr; [|congruence].
  destruct body; simpl; intros; simplify_eq. eauto.
Qed.

Lemma ListGzips_Ok c i log l log' :
  ListGzips c i log = (Ok l, log') ->
  ∃ req l0, remote c log req = Ok (BodyGzips l0) ∧
            l = sort_Stable gzipsByName_Less l0 ∧ log' = log ++ [req].
Proof.
  unfold ListGzips. repeat case_decide; net_unfold; try congruence.
  destruct (remote c log _) as [body|] eqn:Hr; [|congruence].
  destruct body; simpl; intros; simplify_eq. eauto.
Qed.

Lemma ListServers_Ok c i log l log' :
  ListServers c i log = (Ok l, log') ->
  ∃ req l0, remote c log req = Ok (BodyServers l0) ∧
            l = sort_Stable serversByAddress_Less l0 ∧ log' = log ++ [req].
Proof.
  unfold ListServers. repeat case_decide; net_unfold; try congruence.
  destruct (remote c log _) as [body|] eqn:Hr; [|congruence].
  destruct body; simpl; intros; simplify_eq. eauto.
Qed.

(** C1 (as amended): whenever a List operation returns a list, that list
    is a permutation of the list decoded from the remote response and is
    in ascending order of its sort key, whatever the order the remote
    used.  The sort key is the name for S3 loggers, headers and gzips,
    and the address for servers. *)
Theorem C1_list_results_sorted :
  (∀ c i log l log', ListS3s c i log = (Ok l, log') ->
     sorted_by S3_Name l ∧
     ∃ req l0, remote c log req = Ok (BodyS3s l0) ∧ l ≡ₚ l0) ∧
  (∀ c i log l log', ListHeaders c i log = (Ok l, log') ->
     sorted_by Header_Name l ∧
     ∃ req l0, remote c log req = Ok (BodyHeaders l0) ∧ l ≡ₚ l0) ∧
  (∀ c i log l log', ListGzips c i log = (Ok l, log') ->
     sorted_by Gzip_Name l ∧
     ∃ req l0, remote c log req = Ok (BodyGzips l0) ∧ l ≡ₚ l0) ∧
  (∀ c i log l log', ListServers c i log = (Ok l, log') ->
     sorted_by Server_Address l ∧
     ∃ req l0, remote c log req = Ok (BodyServers l0) ∧ l ≡ₚ l0).
Proof.
  split_and!; intros c i log l log' H.
  - apply ListS3s_Ok in H as (req & l0 & Hr & -> & _). split.
    + apply (sort_Stable_sorted S3_Name).
    + exists req, l0. split; [done|]. apply (sort_Stable_Permutation S3_Name).
  - apply ListHeaders_Ok in H as (req & l0 & Hr & -> & _). split.
    + apply (sort_Stable_sorted Header_Name).
    + exists req, l0. split; [done|]. apply (sort_Stable_Permutation Header_Name).
  - apply ListGzips_Ok in H as (req & l0 & Hr & -> & _). split.
    + apply (sort_Stable_sorted Gzip_Name).
    + exists req, l0. split; [done|]. apply (sort_Stable_Permutation Gzip_Name).
  - apply ListServers_Ok in H as (req & l0 & Hr & -> & _). split.
    + apply (sort_Stable_sorted Server_Address).
    + exists req, l0. split; [done|]. apply (sort_Stable_Permutation Server_Address).
Qed.

(** The remote lists two S3 loggers in descending order of name; the
    client returns them in ascending order. *)
Lemma C1_list_results_sorted_witness :
  ListS3s (constant_remote (BodyS3s [S3_named "zeta"; S3_named "alpha"]))
    {| ListS3sInput_ServiceID := "svc"; ListS3sInput_ServiceVersion := 3 |} []
  = (Ok [S3_named "alpha"; S3_named "zeta"],
     [ {| req_method := GET; req_path := "/service/svc/version/3/logging/s3";
          req_form := [] |} ]) ∧
  sorted_by S3_Name [S3_named "alpha"; S3_named "zeta"].
Proof.
  split; [reflexivity|].
  destruct C1_list_results_sorted as (HS3 & _).
  refine (proj1 (HS3 (constant_remote (BodyS3s [S3_named "zeta"; S3_named "alpha"]))
    {| ListS3sInput_ServiceID := "svc"; ListS3sInput_ServiceVersion := 3 |} [] _ _ _)).
  vm_compute. reflexivity.
Defined.

(** C1 (as stated) fails for servers: a server record has no name, and
    the list ListServers returns is ordered by address only.  Here the
    remote lists two servers in ascending order of identifier, comment
    and override host; the client returns them in the opposite order,
    which is ordered by none of these fields. *)
Lemma C1_servers_not_sorted_by_name :
  ∃ l, (ListServers (constant_remote (BodyServers [Server_at "a" "10.0.0.2"; Server_at "b" "10.0.0.1"]))
          {| ListServersInput_ServiceID := "svc"; ListServersInput_PoolID := "p1" |} []).1
       = Ok l ∧
       l = [Server_at "b" "10.0.0.1"; Server_at "a" "10.0.0.2"] ∧
       ¬ sorted_by Server_ID l ∧
       ¬ sorted_by Server_Comment l ∧
       ¬ sorted_by Server_OverrideHost l.
Proof.
  eexists. split; [reflexivity|]. split; [reflexivity|].
  split_and!; intros H%sorted_by_pair; by vm_compute in H.
Qed.

(** ** Validation of the identifying fields *)

Lemma first_missing_Some fields :
  (∃ e, (true, e) ∈ fields) ->
  ∃ e, first_missing fields = Some e ∧ (true, e) ∈ fields.
Proof.
  induction fields as [|[missing e0] rest IH]; intros [e He].
  - by apply elem_of_nil in He.
  - simpl. destruct missing.
    + exists e0. split; [done|]. by left.
    + apply elem_of_cons in He as [?|He]; [done|].
      destruct IH as (e' & ? & ?); [by exists e|].
      exists e'. split; [done|]. by right.
Qed.

Ltac validate :=
  repeat (case_bool_decide || case_decide); simplify_eq/=; try done.

Lemma Operation_error_first_missing c op log e :
  first_missing (identifying_fields op) = Some e ->
  Operation_error c op log = (Returns (Some e), log).
Proof.
  destruct op; simpl;
    unfold versioned, named, pooled_server, pooled; simpl; intros H;
    unfold returned_error, ListS3s, CreateS3, GetS3, UpdateS3, DeleteS3,
      ListHeaders, CreateHeader, GetHeader, UpdateHeader, DeleteHeader,
      ListGzips, CreateGzip, GetGzip, UpdateGzip, DeleteGzip,
      ListServers, CreateServer, GetServer, UpdateServer, DeleteServer;
    net_unfold; validate.
Qed.

(** C5: if an identifying field of an operation's input is missing (an
    empty service ID, a zero service version, an empty name, an empty
    pool ID or server ID, an empty address of a server to create), the
    operation returns the validation error of such a field, namely of the
    first one missing, and puts nothing on the wire: the request log is
    unchanged. *)
Theorem C5_validation_before_network (c : Client) (op : Operation) (log : list Request) :
  (∃ e, (true, e) ∈ identifying_fields op) ->
  ∃ e, (true, e) ∈ identifying_fields op ∧
       first_missing (identifying_fields op) = Some e ∧
       Operation_error c op log = (Returns (Some e), log).
Proof.
  intros H. apply first_missing_Some in H as (e & Hfirst & Hin).
  exists e. split_and!; [done..|]. by apply Operation_error_first_missing.
Qed.

(** Deleting a header without a name, on a remote that would answer. *)
Lemma C5_validation_before_network_witness :
  Operation_error (constant_remote (BodyStatus {| statusResp_ok := true |}))
    (OpDeleteHeader {| DeleteHeaderInput_ServiceID := "svc";
                       DeleteHeaderInput_ServiceVersion := 2;
                       DeleteHeaderInput_Name := "" |}) []
  = (Returns (Some ErrMissingName), []).
Proof.
  destruct (C5_validation_before_network
              (constant_remote (BodyStatus {| statusResp_ok := true |}))
              (OpDeleteHeader {| DeleteHeaderInput_ServiceID := "svc";
                                 DeleteHeaderInput_ServiceVersion := 2;
                                 DeleteHeaderInput_Name := "" |}) [])
    as (e & _ & Hfirst & Hrun).
  - exists ErrMissingName. vm_compute. do 2 right. left.
  - vm_compute in Hfirst. injection Hfirst as <-. exact Hrun.
Defined.

(** ** The status object of a Delete *)

Lemma log_grows (log : list Request) (req : Request) : log ≠ log ++ [req].
Proof.
  intros H. apply (f_equal length) in H. rewrite length_app in H. simpl in H. lia.
Qed.

(** C6: when a Delete operation of any resource kind puts its request on
    the wire and the remote answers with a decodable status object, the
    operation returns success exactly when the object's ok field is true,
    and returns the not-OK error otherwise. *)
Theorem C6_delete_status (c : Client) (op : Operation) (log : list Request)
    (req : Request) (r : statusResp) (res : option error) :
  is_Delete op = true ->
  Operation_error c op log = (Returns res, log ++ [req]) ->
  remote c log req = Ok (BodyStatus r) ->
  (res = None ↔ statusResp_ok r = true) ∧
  (statusResp_ok r ≠ true -> res = Some ErrNotOK).
Proof.
  intros Hdel Hrun Hr.
  assert (res = if statusResp_ok r then None else Some ErrNotOK) as ->.
  { destruct op; try discriminate; simpl in Hrun;
      unfold DeleteS3, DeleteHeader, DeleteGzip, DeleteServer in Hrun;
      repeat case_decide; net_unfold;
      try (injection Hrun as _ Hlog; by apply log_grows in Hlog).
    all: destruct (remote c log _) as [body|err] eqn:Hremote.
    all: try (injection Hrun as _ Hlog; apply app_inv_head in Hlog;
              injection Hlog as <-; congruence).
    all: destruct (decodeStatus body) as [r'|err] eqn:Hdec;
      [unfold statusResp_Ok in Hrun; destruct (statusResp_ok r') eqn:Hok|];
      simpl in Hrun; injection Hrun as Hres Hlog;
      apply app_inv_head in Hlog; injection Hlog as <-;
      rewrite Hr in Hremote; injection Hremote as <-;
      simpl in Hdec; simplify_eq; by rewrite Hok. }
  destruct (statusResp_ok r); split; (split || intros); done.
Qed.

(** Deleting a gzip rule on a remote that answers with a status object
    whose ok field is false. *)
Lemma C6_delete_status_witness :
  Operation_error (constant_remote (BodyStatus {| statusResp_ok := false |}))
    (OpDeleteGzip {| DeleteGzipInput_ServiceID := "svc";
                     DeleteGzipInput_ServiceVersion := 2;
                     DeleteGzipInput_Name := "my gzip" |}) []
  = (Returns (Some ErrNotOK),
     [ {| req_method := DELETE; req_path := "/service/svc/version/2/gzip/my%20gzip";
          req_form := [] |} ]) ∧
  (Some ErrNotOK = None ↔ false = true) ∧
  (false ≠ true -> Some ErrNotOK = Some ErrNotOK).
Proof.
  split; [vm_compute; reflexivity|].
  apply (C6_delete_status
           (constant_remote (BodyStatus {| statusResp_ok := false |}))
           (OpDeleteGzip {| DeleteGzipInput_ServiceID := "svc";
                            DeleteGzipInput_ServiceVersion := 2;
                            DeleteGzipInput_Name := "my gzip" |}) []
           {| req_method := DELETE; req_path := "/service/svc/version/2/gzip/my%20gzip";
              req_form := [] |}
           {| statusResp_ok := false |} (Some ErrNotOK));
    vm_compute; reflexivity.
Defined.

(** ** Delete through a handler: a 404 is not an error *)

Lemma swallow_404_other (err : option error) (log : list Request) :
  (∀ detail, err ≠ Some (HTTPError 404 detail)) ->
  (match err with
   | Some (HTTPError StatusCode _) =>
       if negb (HTTPError_IsNotFound StatusCode) then net_ret err else net_ret None
   | _ => net_ret err
   end) log = (err, log).
Proof.
  intros Hne. destruct err as [[]|]; try done.
  unfold HTTPError_IsNotFound.
  destruct (Z.eqb_spec StatusCode 404) as [->|]; [by destruct (Hne detail)|done].
Qed.

Lemma deleteS3_not_found conn i log detail :
  (DeleteS3 conn i log).1 = Some (HTTPError 404 detail) ->
  deleteS3 conn i log = (None, (DeleteS3 conn i log).2).
Proof.
  unfold deleteS3, net_bind. destruct (DeleteS3 conn i log) as [err log'].
  simpl. by intros ->.
Qed.

Lemma deleteS3_other conn i log :
  (∀ detail, (DeleteS3 conn i log).1 ≠ Some (HTTPError 404 detail)) ->
  deleteS3 conn i log = DeleteS3 conn i log.
Proof.
  unfold deleteS3, net_bind. destruct (DeleteS3 conn i log) as [err log'].
  apply swallow_404_other.
Qed.

Lemma deleteDatadog_not_found DeleteDatadog conn i log detail :
  (DeleteDatadog conn i log).1 = Some (HTTPError 404 detail) ->
  deleteDatadog DeleteDatadog conn i log = (None, (DeleteDatadog conn i log).2).
Proof.
  unfold deleteDatadog, net_bind. destruct (DeleteDatadog conn i log) as [err log'].
  simpl. by intros ->.
Qed.

Lemma deleteDatadog_other DeleteDatadog conn i log :
  (∀ detail, (DeleteDatadog conn i log).1 ≠ Some (HTTPError 404 detail)) ->
  deleteDatadog DeleteDatadog conn i log = DeleteDatadog conn i log.
Proof.
  unfold deleteDatadog, net_bind. destruct (DeleteDatadog conn i log) as [err log'].
  apply swallow_404_other.
Qed.

(** C3: a Delete through the S3 or the Datadog logging handler, for a
    resource that has a name, calls the client's delete operation; if
    that call ends in an HTTP error with status 404 the handler returns
    success (nil), and any other outcome of the call, be it another HTTP
    error, an error that is not an HTTP error, or success, is returned
    unchanged. *)
Theorem C3_delete_swallows_404
    (DeleteDatadog : Client -> DeleteDatadogInput -> net (option error))
    (conn : Client) (serviceID : string) (resource : gmap string any)
    (serviceVersion : Z) (name : string) (log : list Request) :
  resource !! "name" = Some (AString name) ->
  let s3 := DeleteS3 conn {| DeleteS3Input_ServiceID := serviceID;
                             DeleteS3Input_ServiceVersion := serviceVersion;
                             DeleteS3Input_Name := name |} log in
  let dd := DeleteDatadog conn {| DeleteDatadogInput_ServiceID := serviceID;
                                  DeleteDatadogInput_ServiceVersion := serviceVersion;
                                  DeleteDatadogInput_Name := name |} log in
  ((∀ detail, s3.1 = Some (HTTPError 404 detail) ->
      S3LoggingServiceAttributeHandler_Delete conn serviceID resource serviceVersion log
      = (Returns None, s3.2)) ∧
   ((∀ detail, s3.1 ≠ Some (HTTPError 404 detail)) ->
      S3LoggingServiceAttributeHandler_Delete conn serviceID resource serviceVersion log
      = (Returns s3.1, s3.2))) ∧
  ((∀ detail, dd.1 = Some (HTTPError 404 detail) ->
      DatadogServiceAttributeHandler_Delete DeleteDatadog conn serviceID resource
        serviceVersion log
      = (Returns None, dd.2)) ∧
   ((∀ detail, dd.1 ≠ Some (HTTPError 404 detail)) ->
      DatadogServiceAttributeHandler_Delete DeleteDatadog conn serviceID resource
        serviceVersion log
      = (Returns dd.1, dd.2))).
Proof.
  intros Hname s3 dd.
  unfold S3LoggingServiceAttributeHandler_Delete, S3LoggingServiceAttributeHandler_buildDelete,
    DatadogServiceAttributeHandler_Delete, DatadogServiceAttributeHandler_buildDelete.
  rewrite Hname. simpl. unfold net_bind, net_ret.
  split; split.
  - intros detail H. by rewrite (deleteS3_not_found _ _ _ detail).
  - intros H. rewrite deleteS3_other by done. fold s3. by destruct s3.
  - intros detail H. by rewrite (deleteDatadog_not_found _ _ _ _ detail).
  - intros H. rewrite deleteDatadog_other by done. fold dd. by destruct dd.
Qed.

(** Deleting the S3 logger [access-logs] on a remote that answers 404:
    the handler reports success after one request. *)
Lemma C3_delete_swallows_404_witness :
  S3LoggingServiceAttributeHandler_Delete (failing_remote (HTTPError 404 "Not Found"))
    "svc" {["name" := AString "access-logs"]} 7 []
  = (Returns None,
     [ {| req_method := DELETE; req_path := "/service/svc/version/7/logging/s3/access-logs";
          req_form := [] |} ]).
Proof.
  refine (proj1 (proj1 (C3_delete_swallows_404
            (fun _ _ => net_ret None) (failing_remote (HTTPError 404 "Not Found"))
            "svc" {["name" := AString "access-logs"]} 7 "access-logs" [] _)) "Not Found" _).
  - reflexivity.
  - vm_compute. reflexivity.
Defined.

(** ** The block schemas and the service type *)

Lemma Datadog_GetSchema_dom h :
  dom (BlockSchema_Elem (DatadogServiceAttributeHandler_GetSchema h)) =
  list_to_set
    ((if decide (serviceType (GetServiceMetadata h) = ServiceTypeVCL)
      then vcl_only_attributes else []) ++ Datadog_common_attributes).
Proof.
  unfold DatadogServiceAttributeHandler_GetSchema. cbn [BlockSchema_Elem].
  case_decide; unfold Datadog_blockAttributes_base;
    rewrite !dom_insert_L, dom_empty_L; reflexivity.
Qed.

Lemma S3_GetSchema_dom h :
  dom (BlockSchema_Elem (S3LoggingServiceAttributeHandler_GetSchema h)) =
  list_to_set
    ((if decide (serviceType (GetServiceMetadata h) = ServiceTypeVCL)
      then vcl_only_attributes else []) ++ S3_common_attributes).
Proof.
  unfold S3LoggingServiceAttributeHandler_GetSchema. cbn [BlockSchema_Elem].
  case_decide; unfold S3_blockAttributes_base;
    rewrite !dom_insert_L, dom_empty_L; reflexivity.
Qed.

Lemma vcl_only_not_common :
  Forall (fun k => (k ∉ Datadog_common_attributes) ∧ (k ∉ S3_common_attributes))
    vcl_only_attributes.
Proof.
  unfold vcl_only_attributes.
  repeat (apply Forall_cons_2;
          [split; apply (bool_decide_unpack _); by vm_compute|]).
  apply Forall_nil_2.
Qed.

Lemma schema_attributes (m : gmap string Schema) (vcl : Prop) `{!Decision vcl}
    (common : list string) :
  dom m = list_to_set ((if decide vcl then vcl_only_attributes else []) ++ common) ->
  Forall (fun k => k ∉ common) vcl_only_attributes ->
  Forall (fun k => k ∈ dom m ↔ vcl) vcl_only_attributes ∧
  Forall (fun k => k ∈ dom m) common.
Proof.
  intros -> Hdisj. split.
  - rewrite Forall_forall in *. intros k Hk.
    rewrite elem_of_list_to_set, elem_of_app. case_decide.
    + naive_solver.
    + split; [|done]. intros [H'|H']; [by apply elem_of_nil in H'|]. by destruct (Hdisj k).
  - rewrite Forall_forall. intros k Hk. rewrite elem_of_list_to_set, elem_of_app. by right.
Qed.

(** C7: the attributes format, format_version, response_condition and
    placement are in the schema of the Datadog and of the S3 logging
    handler exactly when the handler's service type is VCL (so they are
    absent for a compute service), and every other attribute is in the
    schema for both service types: the schema's attribute set is the
    common set, extended by these four for VCL. *)
Theorem C7_schema_by_service_type (h : DefaultServiceAttributeHandler) :
  let vcl := serviceType (GetServiceMetadata h) = ServiceTypeVCL in
  let datadog := BlockSchema_Elem (DatadogServiceAttributeHandler_GetSchema h) in
  let s3 := BlockSchema_Elem (S3LoggingServiceAttributeHandler_GetSchema h) in
  (Forall (fun k => k ∈ dom datadog ↔ vcl) vcl_only_attributes ∧
   Forall (fun k => k ∈ dom datadog) Datadog_common_attributes ∧
   dom datadog =
     list_to_set ((if decide vcl then vcl_only_attributes else []) ++ Datadog_common_attributes)) ∧
  (Forall (fun k => k ∈ dom s3 ↔ vcl) vcl_only_attributes ∧
   Forall (fun k => k ∈ dom s3) S3_common_attributes ∧
   dom s3 =
     list_to_set ((if decide vcl then vcl_only_attributes else []) ++ S3_common_attributes)).
Proof.
  intros vcl datadog s3.
  pose proof vcl_only_not_common as Hdisj.
  split.
  - pose proof (Datadog_GetSchema_dom h) as Hdom.
    destruct (schema_attributes datadog vcl Datadog_common_attributes Hdom) as [? ?].
    { eapply Forall_impl; [exact Hdisj|]. by intros k [? _]. }
    done.
  - pose proof (S3_GetSchema_dom h) as Hdom.
    destruct (schema_attributes s3 vcl S3_common_attributes Hdom) as [? ?].
    { eapply Forall_impl; [exact Hdisj|]. by intros k [_ ?]. }
    done.
Qed.

(** ** Partial updates *)

Lemma changed_string_None modified k v :
  changed_string modified k = Returns v -> (modified !! k = None ↔ v = None).
Proof.
  unfold changed_string. destruct (modified !! k) as [[]|]; simpl; intros; by simplify_eq.
Qed.

Lemma changed_uint_None modified k v :
  changed_uint modified k = Returns v -> (modified !! k = None ↔ v = None).
Proof.
  unfold changed_uint. destruct (modified !! k) as [[]|]; simpl; intros; by simplify_eq.
Qed.

Lemma changed_uint8_None modified k v :
  changed_uint8 modified k = Returns v -> (modified !! k = None ↔ v = None).
Proof.
  unfold changed_uint8. destruct (modified !! k) as [[]|]; simpl; intros; by simplify_eq.
Qed.

Lemma not_elem_of_field_ptr {T} (show : T -> string) k (v : option T) x :
  x ≠ k ∨ v = None -> x ∉ (field_ptr show k v).*1.
Proof.
  intros [Hne| ->]; [|apply not_elem_of_nil].
  destruct v; simpl; [|apply not_elem_of_nil].
  by intros ?%list_elem_of_singleton.
Qed.

Lemma elem_of_field_ptr_Some {T} (show : T -> string) k (v : T) :
  k ∈ (field_ptr show k (Some v)).*1.
Proof. simpl. apply list_elem_of_here. Qed.

(** Proves that a key is not among the keys of a form written as a
    concatenation of fields, each of another key or of a nil pointer. *)
Ltac key_absent :=
  rewrite ?fmap_app;
  repeat (apply not_elem_of_app; split);
  first [ apply not_elem_of_field_ptr; first [left; discriminate | by right]
        | cbn [fmap list_fmap fst]; rewrite ?not_elem_of_cons;
          split_and?; first [discriminate | apply not_elem_of_nil] ].

(** Finds the field that writes a key. *)
Ltac key_present :=
  rewrite ?fmap_app;
  repeat first [ apply elem_of_field_ptr_Some
               | apply elem_of_app; left; apply elem_of_field_ptr_Some
               | apply elem_of_app; right ].

(** Splits [H : obind m k = Returns _] into the result of [m] and the rest. *)
Ltac obind_inv H :=
  repeat match type of H with
         | obind ?m _ = Returns _ =>
             let Hm := fresh "Hm" in
             destruct m eqn:Hm; simpl in H; [|discriminate H]
         end.

Lemma S3_Update_opts_form serviceID resource modified serviceVersion opts :
  S3LoggingServiceAttributeHandler_Update_opts serviceID resource modified serviceVersion
  = Returns opts ->
  Forall (fun f => modified !! f.1 = None ↔ f.2 ∉ (UpdateS3Input_form opts).*1)
    S3_update_fields ∧
  "name" ∉ (UpdateS3Input_form opts).*1.
Proof.
  unfold S3LoggingServiceAttributeHandler_Update_opts. intros H.
  obind_inv H. injection H as <-.
  repeat match goal with
         | H : changed_string _ _ = Returns _ |- _ => apply changed_string_None in H
         | H : changed_uint _ _ = Returns _ |- _ => apply changed_uint_None in H
         | H : changed_uint8 _ _ = Returns _ |- _ => apply changed_uint8_None in H
         end.
  unfold UpdateS3Input_form, S3_update_fields. cbn [UpdateS3Input_ServiceID
    UpdateS3Input_ServiceVersion UpdateS3Input_Name UpdateS3Input_NewName
    UpdateS3Input_BucketName UpdateS3Input_Domain UpdateS3Input_AccessKey
    UpdateS3Input_SecretKey UpdateS3Input_IAMRole UpdateS3Input_Path
    UpdateS3Input_Period UpdateS3Input_CompressionCodec UpdateS3Input_GzipLevel
    UpdateS3Input_Format UpdateS3Input_FormatVersion UpdateS3Input_ResponseCondition
    UpdateS3Input_MessageType UpdateS3Input_TimestampFormat UpdateS3Input_Redundancy
    UpdateS3Input_Placement UpdateS3Input_PublicKey
    UpdateS3Input_ServerSideEncryptionKMSKeyID UpdateS3Input_ServerSideEncryption
    UpdateS3Input_ACL].
  split.
  - repeat apply Forall_cons_2; [..|apply Forall_nil_2]; cbn [fst snd];
      match goal with H : ?P ↔ _ |- ?P ↔ _ => rewrite H end; clear;
      (split; [intros ->; key_absent|]);
      match goal with |- _ -> ?v = None => destruct v; [|done] end;
      intros []; key_present.
  - clear. key_absent.
Qed.

Lemma S3_Update_sends conn serviceID resource modified serviceVersion log res log' :
  S3LoggingServiceAttributeHandler_Update conn serviceID resource modified serviceVersion log
  = (res, log') ->
  log' = log ∨
  ∃ opts path,
    S3LoggingServiceAttributeHandler_Update_opts serviceID resource modified serviceVersion
    = Returns opts ∧
    log' = log ++ [ {| req_method := PUT; req_path := path;
                       req_form := UpdateS3Input_form opts |} ].
Proof.
  unfold S3LoggingServiceAttributeHandler_Update.
  destruct (S3LoggingServiceAttributeHandler_Update_opts _ _ _ _) as [opts|msg];
    [|unfold net_ret; intros; simplify_eq; by left].
  unfold UpdateS3, net_bind.
  repeat case_decide; try (unfold net_ret; intros; simplify_eq; by left).
  destruct (UpdateS3_kms_check opts) as [[]|];
    try (unfold net_ret; intros; simplify_eq; by left).
  unfold Client_PutForm, roundtrip.
  intros Hrun. right. eexists opts, _. split; [done|].
  destruct (remote conn log _) as [body|]; [destruct (decodeS3 body)|];
    unfold net_ret in Hrun; by simplify_eq.
Qed.

(** C2: every request that an [Update] of an S3 logger puts on the wire
    is a PUT whose form body has the key of an updatable attribute
    exactly when the attribute is in the changed set, and never has the
    key [name]: the fields absent from the changed set are nil pointers
    and are left out of the body, so the remote is given no value for
    them.  The Datadog handler likewise leaves the pointer of every
    attribute absent from the changed set nil. *)
Theorem C2_update_omits_unchanged
    (serviceID : string) (resource modified : gmap string any) (serviceVersion : Z) :
  (∀ conn log res log',
     S3LoggingServiceAttributeHandler_Update conn serviceID resource modified
       serviceVersion log = (res, log') ->
     log' = log ∨
     ∃ req, log' = log ++ [req] ∧ req_method req = PUT ∧
       Forall (fun f => modified !! f.1 = None ↔ f.2 ∉ (req_form req).*1)
         S3_update_fields ∧
       "name" ∉ (req_form req).*1) ∧
  (∀ opts,
     DatadogServiceAttributeHandler_Update_opts serviceID resource modified serviceVersion
     = Returns opts ->
     (modified !! "token" = None ↔ UpdateDatadogInput_Token opts = None) ∧
     (modified !! "region" = None ↔ UpdateDatadogInput_Region opts = None) ∧
     (modified !! "format" = None ↔ UpdateDatadogInput_Format opts = None) ∧
     (modified !! "format_version" = None ↔ UpdateDatadogInput_FormatVersion opts = None) ∧
     (modified !! "response_condition" = None
      ↔ UpdateDatadogInput_ResponseCondition opts = None) ∧
     (modified !! "placement" = None ↔ UpdateDatadogInput_Placement opts = None)).
Proof.
  split.
  - intros conn log res log' H.
    apply S3_Update_sends in H as [->|(opts & path & Hopts & ->)]; [by left|right].
    apply S3_Update_opts_form in Hopts as [Hfields Hname].
    eexists. split; [done|]. by split_and!.
  - unfold DatadogServiceAttributeHandler_Update_opts. intros opts H.
    obind_inv H. injection H as <-. simpl.
    split_and!;
      first [by apply changed_string_None | by apply changed_uint_None].
Qed.

(** Updating only the period of the S3 logger [logs]: the one request
    carries the period and no bucket name. *)
Lemma C2_update_omits_unchanged_witness :
  S3LoggingServiceAttributeHandler_Update (constant_remote (BodyS3 (S3_named "logs")))
    "svc" {["name" := AString "logs"]} {["period" := AInt 7200]} 3 []
  = (Returns None,
     [ {| req_method := PUT; req_path := "/service/svc/version/3/logging/s3/logs";
          req_form := [("ServiceID", "svc"); ("ServiceVersion", "3"); ("Name", "logs");
                       ("period", "7200")] |} ]) ∧
  "bucket_name" ∉ ["ServiceID"; "ServiceVersion"; "Name"; "period"].
Proof.
  split; [vm_compute; reflexivity|].
  destruct (proj1 (C2_update_omits_unchanged "svc" {["name" := AString "logs"]}
                     {["period" := AInt 7200]} 3)
              (constant_remote (BodyS3 (S3_named "logs"))) []
              (Returns None)
              [ {| req_method := PUT; req_path := "/service/svc/version/3/logging/s3/logs";
                   req_form := [("ServiceID", "svc"); ("ServiceVersion", "3");
                                ("Name", "logs"); ("period", "7200")] |} ])
    as [Hlog|(req & Hlog & _ & Hfields & _)].
  - vm_compute. reflexivity.
  - discriminate Hlog.
  - injection Hlog as <-. apply Forall_inv in Hfields. simpl in Hfields.
    apply Hfields. reflexivity.
Defined.

(** ** The encryption check of UpdateS3 *)

(** C9 (the code at the failing input): with [ServerSideEncryption]
    pointing to [aws:kms] and [ServerSideEncryptionKMSKeyID] nil, the
    validation of [UpdateS3] dereferences the nil pointer and panics,
    before any request; the handler's [Update] reaches this with a changed
    set that holds only [server_side_encryption].  [CreateS3], on the
    corresponding input, returns the error for the missing key. *)
Theorem C9_UpdateS3_nil_kms_key_panics (c : Client) (log : list Request) :
  UpdateS3 c (UpdateS3Input_encrypting "svc" 3 "logs" S3ServerSideEncryptionKMS) log
  = (Panics "invalid memory address or nil pointer dereference", log) ∧
  S3LoggingServiceAttributeHandler_Update c "svc" {["name" := AString "logs"]}
    {["server_side_encryption" := AString "aws:kms"]} 3 log
  = (Panics "invalid memory address or nil pointer dereference", log) ∧
  CreateS3 c (CreateS3Input_encrypting "svc" 3 "logs" S3ServerSideEncryptionKMS) log
  = (Err ErrMissingServerSideEncryptionKMSKeyID, log).
Proof. split_and!; reflexivity. Qed.

(** Whenever the validation of [UpdateS3] does not panic it agrees with
    the check of [CreateS3]: the error is returned exactly for KMS
    encryption with an empty key. *)
Lemma UpdateS3_kms_check_Returns i b :
  UpdateS3_kms_check i = Returns b ->
  b = true ↔
  UpdateS3Input_ServerSideEncryption i = Some S3ServerSideEncryptionKMS ∧
  UpdateS3Input_ServerSideEncryptionKMSKeyID i = Some "".
Proof.
  unfold UpdateS3_kms_check.
  destruct (UpdateS3Input_ServerSideEncryption i) as [sse|];
    [|intros [= <-]; split; [done|by intros [? _]]].
  case_decide as Hsse;
    [subst sse|intros [= <-]; split; [done|intros [[= ?] _]; done]].
  destruct (UpdateS3Input_ServerSideEncryptionKMSKeyID i) as [kid|]; simpl; [|done].
  intros [= <-]. rewrite bool_decide_eq_true.
  split; [by intros ->|by intros [_ [= ->]]].
Qed.

(** ** Pruning in the flatten functions *)

Lemma lookup_prune_empty (m : gmap string any) (k : string) :
  prune_empty m !! k =
  match m !! k with
  | Some v => if decide (v = AString "") then None else Some v
  | None => None
  end.
Proof.
  unfold prune_empty. rewrite map_lookup_filter.
  destruct (m !! k) as [v|]; simpl; [|done].
  case_guard; case_decide; simpl in *; done.
Qed.

Lemma prune_empty_no_empty_string (m : gmap string any) (k : string) :
  prune_empty m !! k ≠ Some (AString "").
Proof.
  rewrite lookup_prune_empty. destruct (m !! k) as [v|]; [|done].
  case_decide; congruence.
Qed.

(** Looks a concrete key up in a map literal written with inserts. *)
Ltac lookup_literal :=
  repeat (rewrite lookup_insert_ne by discriminate);
  first [rewrite lookup_insert_eq | rewrite lookup_empty].

(** Every value that [flattenDatadog] keeps under a key is a non-empty
    string or a number: for Datadog the maps hold no empty string. *)
Lemma flattenDatadog_no_empty_string datadogList m k v :
  m ∈ flattenDatadog datadogList -> m !! k = Some v -> content_of v ≠ CString "".
Proof.
  unfold flattenDatadog. intros (dl & -> & _)%list_elem_of_fmap.
  unfold flattenDatadog_entry. rewrite lookup_prune_empty.
  destruct (decide (k = "name")) as [->|]; [lookup_literal|];
  [|destruct (decide (k = "token")) as [->|]; [lookup_literal|];
  [|destruct (decide (k = "region")) as [->|]; [lookup_literal|];
  [|destruct (decide (k = "format")) as [->|]; [lookup_literal|];
  [|destruct (decide (k = "format_version")) as [->|]; [lookup_literal|];
  [|destruct (decide (k = "placement")) as [->|]; [lookup_literal|];
  [|destruct (decide (k = "response_condition")) as [->|]; [lookup_literal|];
  [|rewrite !lookup_insert_ne by done; by rewrite lookup_empty]]]]]]];
  case_decide; intros; simplify_eq/=; congruence.
Qed.

(** [flattenS3s] keeps no value that is an empty Go [string] ... *)
Lemma flattenS3s_no_empty_string s3List m k :
  m ∈ flattenS3s s3List -> m !! k ≠ Some (AString "").
Proof.
  unfold flattenS3s. intros (s & -> & _)%list_elem_of_fmap.
  apply prune_empty_no_empty_string.
Qed.

(** C10 (the code at the failing input): ... but for an S3 logger whose
    redundancy, server_side_encryption and acl are empty, [flattenS3s]
    keeps these three keys, each with an empty value of its named string
    type, while the empty bucket_name is pruned. *)
Theorem C10_flattenS3s_keeps_empty_typed_strings :
  ∃ m, flattenS3s [S3_named "logs"] = [m] ∧
       m !! "redundancy" = Some (AS3Redundancy "") ∧
       m !! "server_side_encryption" = Some (AS3ServerSideEncryption "") ∧
       m !! "acl" = Some (AS3AccessControlList "") ∧
       m !! "bucket_name" = None ∧
       content_of (AS3Redundancy "") = CString "".
Proof.
  eexists. split; [reflexivity|]. unfold flattenS3s_entry.
  split_and!; try reflexivity; rewrite lookup_prune_empty; lookup_literal; done.
Qed.

(** ** Waiting for a WAF deployment *)

Section waitForDeployment_facts.
Context (c : WAFDeploymentChecker) (wafID : string) (latestVersion : WAFVersion).

Let conf : StateChangeConf := createStateConf c wafID latestVersion.

Lemma in_flight_not_failed status :
  in_flight status -> status ≠ WAFVersionDeploymentStatusFailed.
Proof. by intros [-> | ->]. Qed.

(** One refresh that observes a status in flight restarts the count of
    target observations. *)
Lemma loop_in_flight budget n occ last res :
  observes c wafID latestVersion n res ->
  in_flight (WAFVersion_LastDeploymentStatus res) ->
  WaitForState_loop conf (S budget) n occ last
  = WaitForState_loop conf budget (S n) 0%nat (WAFVersion_LastDeploymentStatus res).
Proof.
  unfold observes. intros Hobs Hfl. simpl.
  unfold waitForDeployment_Refresh. rewrite Hobs.
  destruct (decide (_ = WAFVersionDeploymentStatusFailed)) as [Hf|_];
    [by apply in_flight_not_failed in Hf|].
  by destruct Hfl as [-> | ->].
Qed.

(** One refresh that observes the target status counts one more
    consecutive observation, and ends the wait at the fifth. *)
Lemma loop_completed budget n occ last res :
  observes c wafID latestVersion n res ->
  WAFVersion_LastDeploymentStatus res = WAFVersionDeploymentStatusCompleted ->
  WaitForState_loop conf (S budget) n occ last
  = if decide (S occ = 5%nat) then (Some res, None)
    else WaitForState_loop conf budget (S n) (S occ) WAFVersionDeploymentStatusCompleted.
Proof.
  unfold observes. intros Hobs Hst. simpl.
  unfold waitForDeployment_Refresh. rewrite Hobs, Hst. reflexivity.
Qed.

(** One refresh that observes the failed status ends the wait with the
    error that carries the remote message. *)
Lemma loop_failed budget n occ last res :
  observes c wafID latestVersion n res ->
  WAFVersion_LastDeploymentStatus res = WAFVersionDeploymentStatusFailed ->
  WaitForState_loop conf (S budget) n occ last
  = (Some res,
     Some (Errorf ("waf deployment failed. Error message: " +:+ WAFVersion_Error res))).
Proof.
  unfold observes. intros Hobs Hst. simpl.
  unfold waitForDeployment_Refresh. rewrite Hobs, Hst. reflexivity.
Qed.

(** [k] refreshes in a row that observe statuses in flight. *)
Lemma loop_skip_in_flight k budget n occ last :
  (∀ m, (n ≤ m < n + k)%nat ->
        ∃ res, observes c wafID latestVersion m res ∧
               in_flight (WAFVersion_LastDeploymentStatus res)) ->
  ∃ occ' last',
    (k = 0%nat -> occ' = occ) ∧ (k ≠ 0%nat -> occ' = 0%nat) ∧
    WaitForState_loop conf (k + budget) n occ last
    = WaitForState_loop conf budget (n + k) occ' last'.
Proof.
  revert n occ last. induction k as [|k IH]; intros n occ last Hobs.
  - exists occ, last. rewrite Nat.add_0_r. done.
  - destruct (Hobs n) as (res & Hres & Hfl); [lia|].
    destruct (IH (S n) 0%nat (WAFVersion_LastDeploymentStatus res))
      as (occ' & last' & H0 & Hne & Heq).
    { intros m Hm. apply Hobs. lia. }
    exists 0%nat, last'. split_and!; [done..|].
    change (S k + budget)%nat with (S (k + budget)).
    rewrite (loop_in_flight _ _ _ _ res) by done.
    rewrite Heq. replace (n + S k)%nat with (S n + k)%nat by lia.
    destruct k; [by rewrite H0|by rewrite Hne].
Qed.

(** [j] more observations of the target status, after [occ]. *)
Lemma loop_count_completed j budget n occ last :
  (occ + j = 5)%nat -> (0 < j)%nat ->
  (∀ m, (n ≤ m < n + j)%nat ->
        ∃ res, observes c wafID latestVersion m res ∧
               WAFVersion_LastDeploymentStatus res = WAFVersionDeploymentStatusCompleted) ->
  (WaitForState_loop conf (j + budget) n occ last).2 = None.
Proof.
  revert n occ last. induction j as [|j IH]; intros n occ last Hsum Hj Hobs; [lia|].
  destruct (Hobs n) as (res & Hres & Hst); [lia|].
  change (S j + budget)%nat with (S (j + budget)).
  rewrite (loop_completed _ _ _ _ res) by done.
  case_decide as Hocc; [done|].
  apply IH; [lia..|]. intros m Hm. apply Hobs. lia.
Qed.

Lemma loop_timeout budget n occ last :
  (∀ m, (n ≤ m < n + budget)%nat ->
        ∃ res, observes c wafID latestVersion m res ∧
               in_flight (WAFVersion_LastDeploymentStatus res)) ->
  ∃ last', WaitForState_loop conf budget n occ last
           = (None, Some (TimeoutError last' (WAFDeploymentChecker_Timeout c)
                            [WAFVersionDeploymentStatusCompleted])).
Proof.
  intros Hobs.
  destruct (loop_skip_in_flight budget 0 n occ last Hobs) as (occ' & last' & _ & _ & Heq).
  rewrite Nat.add_0_r in Heq. rewrite Heq. by exists last'.
Qed.

(** The wait succeeds after [k] observations in flight followed by five
    observations of the completed status. *)
Lemma waitForDeployment_completed budget k :
  (k + 5 ≤ budget)%nat ->
  (∀ m, (m < k)%nat ->
        ∃ res, observes c wafID latestVersion m res ∧
               in_flight (WAFVersion_LastDeploymentStatus res)) ->
  (∀ m, (k ≤ m < k + 5)%nat ->
        ∃ res, observes c wafID latestVersion m res ∧
               WAFVersion_LastDeploymentStatus res = WAFVersionDeploymentStatusCompleted) ->
  waitForDeployment c budget wafID latestVersion = None.
Proof.
  intros Hbudget Hfl Hdone. unfold waitForDeployment, WaitForStateContext. fold conf.
  replace budget with (k + (5 + (budget - k - 5)))%nat by lia.
  destruct (loop_skip_in_flight k (5 + (budget - k - 5)) 0 0 "")
    as (occ' & last' & H0 & Hne & ->).
  { intros m Hm. apply Hfl. lia. }
  assert (occ' = 0%nat) as -> by (destruct k; auto).
  pose proof (loop_count_completed 5 (budget - k - 5) (0 + k) 0 last') as Hc.
  destruct (WaitForState_loop conf _ _ _ _) as [res err]. simpl in Hc.
  rewrite Hc; [done|lia..|]. intros m Hm. apply Hdone. lia.
Qed.

(** The wait fails with the remote message when the failed status is
    observed after [k] observations in flight. *)
Lemma waitForDeployment_failed budget k res :
  (k < budget)%nat ->
  (∀ m, (m < k)%nat ->
        ∃ res, observes c wafID latestVersion m res ∧
               in_flight (WAFVersion_LastDeploymentStatus res)) ->
  observes c wafID latestVersion k res ->
  WAFVersion_LastDeploymentStatus res = WAFVersionDeploymentStatusFailed ->
  waitForDeployment c budget wafID latestVersion
  = Some (ErrorWaiting wafID
            (Errorf ("waf deployment failed. Error message: " +:+ WAFVersion_Error res))).
Proof.
  intros Hbudget Hfl Hobs Hst. unfold waitForDeployment, WaitForStateContext. fold conf.
  replace budget with (k + S (budget - k - 1))%nat by lia.
  destruct (loop_skip_in_flight k (S (budget - k - 1)) 0 0 "")
    as (occ' & last' & _ & _ & ->).
  { intros m Hm. apply Hfl. lia. }
  by rewrite (loop_failed _ _ _ _ res).
Qed.

(** The wait times out when every observation the timeout allows is in
    flight. *)
Lemma waitForDeployment_timeout budget :
  (∀ m, (m < budget)%nat ->
        ∃ res, observes c wafID latestVersion m res ∧
               in_flight (WAFVersion_LastDeploymentStatus res)) ->
  ∃ last, waitForDeployment c budget wafID latestVersion
          = Some (ErrorWaiting wafID
                    (TimeoutError last (WAFDeploymentChecker_Timeout c)
                       [WAFVersionDeploymentStatusCompleted])).
Proof.
  intros Hfl. unfold waitForDeployment, WaitForStateContext. fold conf.
  destruct (loop_timeout budget 0 0 "") as [last ->].
  { intros m Hm. apply Hfl. lia. }
  by exists last.
Qed.

End waitForDeployment_facts.

(** C4: with [budget] the number of status checks that complete before
    the configured timeout expires,
    - if the checks observe statuses in flight (pending, in progress) and
      then the completed status five times in a row, all within the
      budget, the wait succeeds;
    - if a check within the budget observes the failed status after
      statuses in flight, the wait returns an error whose message ends
      with the error message the remote provided;
    - if every check within the budget observes a status in flight, the
      wait returns the timeout error. *)
Theorem C4_waitForDeployment (c : WAFDeploymentChecker) (wafID : string)
    (latestVersion : WAFVersion) (budget : nat) :
  (∀ k, (k + 5 ≤ budget)%nat ->
     (∀ m, (m < k)%nat ->
        ∃ res, observes c wafID latestVersion m res ∧
               in_flight (WAFVersion_LastDeploymentStatus res)) ->
     (∀ m, (k ≤ m < k + 5)%nat ->
        ∃ res, observes c wafID latestVersion m res ∧
               WAFVersion_LastDeploymentStatus res = WAFVersionDeploymentStatusCompleted) ->
     waitForDeployment c budget wafID latestVersion = None) ∧
  (∀ k res, (k < budget)%nat ->
     (∀ m, (m < k)%nat ->
        ∃ res, observes c wafID latestVersion m res ∧
               in_flight (WAFVersion_LastDeploymentStatus res)) ->
     observes c wafID latestVersion k res ->
     WAFVersion_LastDeploymentStatus res = WAFVersionDeploymentStatusFailed ->
     waitForDeployment c budget wafID latestVersion
     = Some (ErrorWaiting wafID
               (Errorf ("waf deployment failed. Error message: " +:+ WAFVersion_Error res)))) ∧
  ((∀ m, (m < budget)%nat ->
      ∃ res, observes c wafID latestVersion m res ∧
             in_flight (WAFVersion_LastDeploymentStatus res)) ->
   ∃ last, waitForDeployment c budget wafID latestVersion
           = Some (ErrorWaiting wafID
                     (TimeoutError last (WAFDeploymentChecker_Timeout c)
                        [WAFVersionDeploymentStatusCompleted]))).
Proof.
  split_and!.
  - intros k. apply waitForDeployment_completed.
  - intros k res. apply waitForDeployment_failed.
  - apply waitForDeployment_timeout.
Qed.

(** Three deployments of WAF [waf1]: pending, in progress, then
    completed; pending, then failed with a message; pending for as long
    as the timeout allows. *)
Lemma C4_waitForDeployment_witness :
  waitForDeployment (sample_checker ["pending"; "in_progress"; "completed"] "")
    7 "waf1" sample_WAFVersion = None ∧
  waitForDeployment (sample_checker ["pending"; "failed"] "rule 42 is invalid")
    7 "waf1" sample_WAFVersion
  = Some (ErrorWaiting "waf1"
            (Errorf "waf deployment failed. Error message: rule 42 is invalid")) ∧
  ∃ last, waitForDeployment (sample_checker ["pending"] "") 3 "waf1" sample_WAFVersion
          = Some (ErrorWaiting "waf1" (TimeoutError last (3600 * Second) ["completed"])).
Proof.
  split_and!.
  - apply (proj1 (C4_waitForDeployment
                    (sample_checker ["pending"; "in_progress"; "completed"] "")
                    "waf1" sample_WAFVersion 7) 2%nat).
    + lia.
    + intros m Hm. destruct m as [|[|m]]; [| |lia].
      * eexists. split; [reflexivity|]. by left.
      * eexists. split; [reflexivity|]. by right.
    + intros m Hm. do 7 (destruct m as [|m]; [try lia; by eexists|]). lia.
  - apply (proj1 (proj2 (C4_waitForDeployment
                    (sample_checker ["pending"; "failed"] "rule 42 is invalid")
                    "waf1" sample_WAFVersion 7)) 1%nat
             {| WAFVersion_Number := 2; WAFVersion_LastDeploymentStatus := "failed";
                WAFVersion_Error := "rule 42 is invalid" |}).
    + lia.
    + intros m Hm. destruct m as [|m]; [|lia].
      eexists. split; [reflexivity|]. by left.
    + reflexivity.
    + reflexivity.
  - apply (proj2 (proj2 (C4_waitForDeployment (sample_checker ["pending"] "")
                           "waf1" sample_WAFVersion 3))).
    intros m Hm. do 3 (destruct m as [|m]; [eexists; split; [reflexivity|by left]|]). lia.
Defined.

(** ** Create, read back, flatten *)

Lemma assert_string_Returns (v : option any) (s : string) :
  assert_string v = Returns s -> v = Some (AString s).
Proof. destruct v as [[]|]; simpl; intros; by simplify_eq. Qed.

Lemma assert_int_Returns (v : option any) (n : Z) :
  assert_int v = Returns n -> v = Some (AInt n).
Proof. destruct v as [[]|]; simpl; intros; by simplify_eq. Qed.

Lemma recovers_string (s : string) (m : gmap string any) :
  recovers (Some (AString s))
    (if decide (AString s = AString "") then None else Some (AString s)).
Proof. case_decide; simplify_eq/=; done. Qed.

(** C8 (as stated) fails: an S3 block configured with gzip_level 256
    yields a create input with gzip level 0, so the record whose fields
    equal those of the create input flattens to gzip_level 0, not 256. *)
Lemma C8_gzip_level_not_recovered :
  ∃ opts,
    S3LoggingServiceAttributeHandler_buildCreate sample_getVCLLoggingAttributes
      sample_uintOrDefault sample_handler (sample_S3_block 256) "svc" 3
    = Returns (Ok opts) ∧
    CreateS3Input_GzipLevel opts = 0 ∧
    ∀ s m, S3_matches opts s -> flattenS3s [s] = [m] ->
           m !! "gzip_level" = Some (AUint8 0) ∧
           ¬ recovers (sample_S3_block 256 !! "gzip_level") (m !! "gzip_level").
Proof.
  eexists. split; [vm_compute; reflexivity|]. split; [reflexivity|].
  intros s m (t1 & t2 & t3 & ->) Heq.
  change (flattenS3s [?s]) with [flattenS3s_entry s] in Heq.
  apply (f_equal head) in Heq. cbn [head] in Heq. apply (inj Some) in Heq. subst m.
  unfold flattenS3s_entry.
  assert (∀ v, v = Some (AUint8 0) ->
               v = Some (AUint8 0) ∧
               ¬ recovers (sample_S3_block 256 !! "gzip_level") v) as Hv.
  { intros v ->. split; [done|]. by vm_compute. }
  apply Hv. rewrite lookup_prune_empty. lookup_literal. reflexivity.
Qed.

Lemma Returns_Ok_inj {T} (a b : T) : Returns (Ok a) = Returns (Ok b) -> a = b.
Proof. by intros [=]. Qed.

Lemma recovers_typed (s : string) (v : any) :
  content_of v = CString s ->
  recovers (Some (AString s)) (if decide (v = AString "") then None else Some v).
Proof. case_decide; simplify_eq/=; done. Qed.

Lemma recovers_number (n : Z) (v : any) :
  content_of v = CNumber n ->
  recovers (Some (AInt n)) (if decide (v = AString "") then None else Some v).
Proof. case_decide; simplify_eq/=; done. Qed.

(** C8 (as amended): let an S3 logging block be turned into a create
    input by [buildCreate], and let the record read back have the fields
    of that input, the timestamps apart.  If the configured period is
    within the range of [uint], the configured gzip level within the
    range of [uint8], and the configured server-side encryption is empty,
    AES256 or aws:kms, then flattening the record recovers the configured
    value of every attribute that [buildCreate] reads from the block
    itself: the flattened attribute has the same underlying value, where
    an empty string may come back as an absent key. *)
Theorem C8_flatten_recovers_configuration
    (getVCLLoggingAttributes :
       DefaultServiceAttributeHandler -> gmap string any -> outcome VCLLoggingAttributes)
    (uintOrDefault : option Z -> Z)
    (h : DefaultServiceAttributeHandler) (df : gmap string any)
    (serviceID : string) (serviceVersion : Z)
    (opts : CreateS3Input) (s : S3) (m : gmap string any) :
  S3LoggingServiceAttributeHandler_buildCreate getVCLLoggingAttributes uintOrDefault
    h df serviceID serviceVersion = Returns (Ok opts) ->
  S3_matches opts s ->
  flattenS3s [s] = [m] ->
  (∀ n, df !! "period" = Some (AInt n) -> 0 ≤ n < 2 ^ 64) ->
  (∀ n, df !! "gzip_level" = Some (AInt n) -> 0 ≤ n < 2 ^ 8) ->
  (∀ e, df !! "server_side_encryption" = Some (AString e) ->
        e ∈ [""; S3ServerSideEncryptionAES; S3ServerSideEncryptionKMS]) ->
  Forall (fun k => recovers (df !! k) (m !! k)) S3_common_attributes.
Proof.
  intros Hbuild (t1 & t2 & t3 & ->) Heq Hperiod Hgzip Hsse.
  change (flattenS3s [?s]) with [flattenS3s_entry s] in Heq.
  apply (f_equal head) in Heq. cbn [head] in Heq. apply (inj Some) in Heq. subst m.
  unfold S3LoggingServiceAttributeHandler_buildCreate in Hbuild.
  obind_inv Hbuild. apply Returns_Ok_inj in Hbuild. subst opts.
  repeat match goal with
         | H : assert_string _ = Returns _ |- _ => apply assert_string_Returns in H
         | H : assert_int _ = Returns _ |- _ => apply assert_int_Returns in H
         end.
  match goal with H : df !! "period" = _ |- _ => specialize (Hperiod _ H) end.
  match goal with H : df !! "gzip_level" = _ |- _ => specialize (Hgzip _ H) end.
  match goal with H : df !! "server_side_encryption" = _ |- _ => specialize (Hsse _ H) end.
  unfold flattenS3s_entry, S3_created, S3_common_attributes.
  cbn [S3_Name S3_BucketName S3_AccessKey S3_SecretKey S3_IAMRole S3_Path S3_Period
       S3_Domain S3_GzipLevel S3_Format S3_FormatVersion S3_TimestampFormat S3_Redundancy
       S3_ResponseCondition S3_MessageType S3_PublicKey S3_Placement
       S3_ServerSideEncryption S3_ServerSideEncryptionKMSKeyID S3_CompressionCodec S3_ACL
       CreateS3Input_Name CreateS3Input_BucketName CreateS3Input_AccessKey
       CreateS3Input_SecretKey CreateS3Input_IAMRole CreateS3Input_Path
       CreateS3Input_Period CreateS3Input_Domain CreateS3Input_GzipLevel
       CreateS3Input_Format CreateS3Input_FormatVersion CreateS3Input_TimestampFormat
       CreateS3Input_Redundancy CreateS3Input_ResponseCondition CreateS3Input_MessageType
       CreateS3Input_PublicKey CreateS3Input_Placement CreateS3Input_ServerSideEncryption
       CreateS3Input_ServerSideEncryptionKMSKeyID CreateS3Input_CompressionCodec
       CreateS3Input_ACL].
  repeat apply Forall_cons_2; [..|apply Forall_nil_2];
    match goal with H : df !! ?k = _ |- recovers (df !! ?k) _ => rewrite H end;
    rewrite lookup_prune_empty; lookup_literal;
    first [ apply recovers_typed; reflexivity | idtac ].
  - (* gzip_level *)
    apply recovers_number. simpl. unfold uint8_of_int. by rewrite Z.mod_small.
  - (* period *)
    apply recovers_number. simpl. unfold uint_of_int. by rewrite Z.mod_small.
  - (* server_side_encryption *)
    apply recovers_typed. simpl. f_equal.
    repeat (apply elem_of_cons in Hsse as [->|Hsse]; [by repeat case_decide|]).
    by apply elem_of_nil in Hsse.
Qed.

(** The sample block with gzip level 5: every attribute read from the
    block is recovered from the record that echoes the create input. *)
Lemma C8_flatten_recovers_configuration_witness :
  ∃ opts,
    S3LoggingServiceAttributeHandler_buildCreate sample_getVCLLoggingAttributes
      sample_uintOrDefault sample_handler (sample_S3_block 5) "svc" 3
    = Returns (Ok opts) ∧
    Forall (fun k => recovers (sample_S3_block 5 !! k)
                       (flattenS3s_entry (S3_created opts None None None) !! k))
      S3_common_attributes.
Proof.
  eexists. split; [vm_compute; reflexivity|].
  match goal with
  | |- Forall (fun k => recovers _ (flattenS3s_entry (S3_created ?opts _ _ _) !! k)) _ =>
      apply (C8_flatten_recovers_configuration sample_getVCLLoggingAttributes
               sample_uintOrDefault sample_handler (sample_S3_block 5) "svc" 3
               opts (S3_created opts None None None))
  end.
  - vm_compute. reflexivity.
  - by exists None, None, None.
  - reflexivity.
  - intros n H. vm_compute in H. injection H as <-. lia.
  - intros n H. vm_compute in H. injection H as <-. lia.
  - intros e H. vm_compute in H. injection H as <-. left.
Defined.

(* ================================================================== *)
(** * Further properties *)
(* ================================================================== *)

(** ** Order of the List results *)

Lemma le_ltb_false (a b : string) : (b ≤ a)%string -> String.ltb a b = false.
Proof.
  unfold String.ltb, String.le, String.leb.
  rewrite (String.compare_antisym b a).
  destruct (String.compare a b); simpl; done.
Qed.

Section sort_Stable_order.
Context {A : Type} (key : A -> string).

Let Less (a b : A) : bool := String.ltb (key a) (key b).

Lemma fold_insert_back_sorted_input data racc :
  sorted_by key (reverse racc ++ data) ->
  fold_left (fun racc x => insert_back Less x racc) data racc = reverse data ++ racc.
Proof.
  revert racc. induction data as [|x data IH]; intros racc Hs; simpl; [done|].
  assert (insert_back Less x racc = x :: racc) as ->.
  { destruct racc as [|y r]; simpl; [done|].
    assert (Less x y = false) as ->; [|done].
    apply le_ltb_false.
    rewrite reverse_cons, <-app_assoc in Hs.
    apply StronglySorted_app_1_r, StronglySorted_inv in Hs as [_ Hs].
    by apply Forall_inv in Hs. }
  rewrite IH.
  - by rewrite reverse_cons, <-app_assoc.
  - by rewrite reverse_cons, <-app_assoc.
Qed.

(** A list already in order is left as it is. *)
Lemma sort_Stable_sorted_input data :
  sorted_by key data -> sort_Stable Less data = data.
Proof.
  intros Hs. unfold sort_Stable.
  rewrite fold_insert_back_sorted_input by done.
  by rewrite app_nil_r, reverse_involutive.
Qed.

Lemma key_inj_NoDup (l : list A) x y :
  NoDup (key <$> l) -> x ∈ l -> y ∈ l -> key x = key y -> x = y.
Proof.
  induction l as [|z l IH]; intros Hnd Hx Hy Hk; [by apply elem_of_nil in Hx|].
  rewrite fmap_cons in Hnd. apply NoDup_cons in Hnd as [Hz Hnd].
  apply elem_of_cons in Hx as [->|Hx]; apply elem_of_cons in Hy as [->|Hy].
  - done.
  - destruct Hz. rewrite Hk. by apply list_elem_of_fmap_2.
  - destruct Hz. rewrite <-Hk. by apply list_elem_of_fmap_2.
  - by apply IH.
Qed.

(** With distinct keys the sorted list does not depend on the order of
    the input. *)
Lemma sort_Stable_order_independent l1 l2 :
  l1 ≡ₚ l2 -> NoDup (key <$> l1) -> sort_Stable Less l1 = sort_Stable Less l2.
Proof.
  intros Hp Hnd. unfold Less.
  apply (StronglySorted_unique_strong (fun a b => (key a ≤ key b)%string)).
  - intros x y Hx Hy Hxy Hyx.
    rewrite (sort_Stable_Permutation key) in Hx, Hy. rewrite <-Hp in Hy.
    by apply (key_inj_NoDup l1); [..|apply (anti_symm String.le)].
  - apply (sort_Stable_sorted key).
  - apply (sort_Stable_sorted key).
  - by rewrite !(sort_Stable_Permutation key).
Qed.
End sort_Stable_order.

(** X1: the records of a List result that share a sort key are in the
    order the remote listed them, for each of the four List operations. *)
Theorem List_results_stable :
  (∀ c i log l log', ListS3s c i log = (Ok l, log') ->
     ∃ req l0, remote c log req = Ok (BodyS3s l0) ∧
       ∀ k, filter (fun s => S3_Name s = k) l = filter (fun s => S3_Name s = k) l0) ∧
  (∀ c i log l log', ListHeaders c i log = (Ok l, log') ->
     ∃ req l0, remote c log req = Ok (BodyHeaders l0) ∧
       ∀ k, filter (fun s => Header_Name s = k) l
            = filter (fun s => Header_Name s = k) l0) ∧
  (∀ c i log l log', ListGzips c i log = (Ok l, log') ->
     ∃ req l0, remote c log req = Ok (BodyGzips l0) ∧
       ∀ k, filter (fun s => Gzip_Name s = k) l = filter (fun s => Gzip_Name s = k) l0) ∧
  (∀ c i log l log', ListServers c i log = (Ok l, log') ->
     ∃ req l0, remote c log req = Ok (BodyServers l0) ∧
       ∀ k, filter (fun s => Server_Address s = k) l
            = filter (fun s => Server_Address s = k) l0).
Proof.
  split_and!; intros c i log l log' H.
  - apply ListS3s_Ok in H as (req & l0 & Hr & -> & _). exists req, l0.
    split; [done|]. intros k. apply (sort_Stable_stable S3_Name).
  - apply ListHeaders_Ok in H as (req & l0 & Hr & -> & _). exists req, l0.
    split; [done|]. intros k. apply (sort_Stable_stable Header_Name).
  - apply ListGzips_Ok in H as (req & l0 & Hr & -> & _). exists req, l0.
    split; [done|]. intros k. apply (sort_Stable_stable Gzip_Name).
  - apply ListServers_Ok in H as (req & l0 & Hr & -> & _). exists req, l0.
    split; [done|]. intros k. apply (sort_Stable_stable Server_Address).
Qed.

(** Two loggers named [b] listed around a logger named [a]: [a] moves to
    the front and the two keep their order. *)
Lemma List_results_stable_witness :
  ListS3s (constant_remote (BodyS3s [S3_in_bucket "b" "first"; S3_named "a";
                                     S3_in_bucket "b" "second"]))
    sample_ListS3sInput []
  = (Ok [S3_named "a"; S3_in_bucket "b" "first"; S3_in_bucket "b" "second"],
     [ {| req_method := GET; req_path := "/service/svc/version/3/logging/s3";
          req_form := [] |} ]) ∧
  filter (fun s => S3_Name s = "b")
    [S3_named "a"; S3_in_bucket "b" "first"; S3_in_bucket "b" "second"]
  = filter (fun s => S3_Name s = "b")
      [S3_in_bucket "b" "first"; S3_named "a"; S3_in_bucket "b" "second"].
Proof.
  split; [vm_compute; reflexivity|].
  destruct (proj1 List_results_stable
              (constant_remote (BodyS3s [S3_in_bucket "b" "first"; S3_named "a";
                                         S3_in_bucket "b" "second"]))
              sample_ListS3sInput []
              [S3_named "a"; S3_in_bucket "b" "first"; S3_in_bucket "b" "second"]
              [ {| req_method := GET; req_path := "/service/svc/version/3/logging/s3";
                   req_form := [] |} ])
    as (req & l0 & Hr & Hk).
  - vm_compute. reflexivity.
  - injection Hr as <-. apply Hk.
Defined.

(** X2: when the list the remote returns is already in ascending order of
    the sort key, the List operation returns it as it is. *)
Theorem List_results_sorted_input_unchanged :
  (∀ c i log l log', ListS3s c i log = (Ok l, log') ->
     ∃ req l0, remote c log req = Ok (BodyS3s l0) ∧ (sorted_by S3_Name l0 -> l = l0)) ∧
  (∀ c i log l log', ListHeaders c i log = (Ok l, log') ->
     ∃ req l0, remote c log req = Ok (BodyHeaders l0) ∧
               (sorted_by Header_Name l0 -> l = l0)) ∧
  (∀ c i log l log', ListGzips c i log = (Ok l, log') ->
     ∃ req l0, remote c log req = Ok (BodyGzips l0) ∧ (sorted_by Gzip_Name l0 -> l = l0)) ∧
  (∀ c i log l log', ListServers c i log = (Ok l, log') ->
     ∃ req l0, remote c log req = Ok (BodyServers l0) ∧
               (sorted_by Server_Address l0 -> l = l0)).
Proof.
  split_and!; intros c i log l log' H.
  - apply ListS3s_Ok in H as (req & l0 & Hr & -> & _). exists req, l0.
    split; [done|]. apply (sort_Stable_sorted_input S3_Name).
  - apply ListHeaders_Ok in H as (req & l0 & Hr & -> & _). exists req, l0.
    split; [done|]. apply (sort_Stable_sorted_input Header_Name).
  - apply ListGzips_Ok in H as (req & l0 & Hr & -> & _). exists req, l0.
    split; [done|]. apply (sort_Stable_sorted_input Gzip_Name).
  - apply ListServers_Ok in H as (req & l0 & Hr & -> & _). exists req, l0.
    split; [done|]. apply (sort_Stable_sorted_input Server_Address).
Qed.

(** Two servers listed in ascending order of address come back as
    listed. *)
Lemma List_results_sorted_input_unchanged_witness :
  sorted_by Server_Address [Server_at "b" "10.0.0.1"; Server_at "a" "10.0.0.2"] ∧
  (ListServers
     (constant_remote (BodyServers [Server_at "b" "10.0.0.1"; Server_at "a" "10.0.0.2"]))
     {| ListServersInput_ServiceID := "svc"; ListServersInput_PoolID := "p1" |} []).1
  = Ok [Server_at "b" "10.0.0.1"; Server_at "a" "10.0.0.2"].
Proof.
  assert (sorted_by Server_Address
            [Server_at "b" "10.0.0.1"; Server_at "a" "10.0.0.2"]) as Hsorted.
  { unfold sorted_by. repeat constructor. }
  split; [exact Hsorted|].
  destruct (proj2 (proj2 (proj2 List_results_sorted_input_unchanged))
              (constant_remote (BodyServers [Server_at "b" "10.0.0.1";
                                             Server_at "a" "10.0.0.2"]))
              {| ListServersInput_ServiceID := "svc"; ListServersInput_PoolID := "p1" |} []
              (sort_Stable serversByAddress_Less
                 [Server_at "b" "10.0.0.1"; Server_at "a" "10.0.0.2"])
              [ {| req_method := GET; req_path := "/service/svc/pool/p1/servers";
                   req_form := [] |} ])
    as (req & l0 & Hr & Hsame).
  - reflexivity.
  - injection Hr as <-. rewrite <-(Hsame Hsorted) at 2. reflexivity.
Defined.

(** X3: two successful listings of S3 loggers, headers, gzips or servers
    that hold the same records, in whatever order each remote listed
    them, return the same list when the sort keys are distinct. *)
Theorem List_results_order_independent :
  (∀ c1 c2 i1 i2 log1 log2 l1 l2 log1' log2',
     ListS3s c1 i1 log1 = (Ok l1, log1') -> ListS3s c2 i2 log2 = (Ok l2, log2') ->
     l1 ≡ₚ l2 -> NoDup (S3_Name <$> l1) -> l1 = l2) ∧
  (∀ c1 c2 i1 i2 log1 log2 l1 l2 log1' log2',
     ListHeaders c1 i1 log1 = (Ok l1, log1') -> ListHeaders c2 i2 log2 = (Ok l2, log2') ->
     l1 ≡ₚ l2 -> NoDup (Header_Name <$> l1) -> l1 = l2) ∧
  (∀ c1 c2 i1 i2 log1 log2 l1 l2 log1' log2',
     ListGzips c1 i1 log1 = (Ok l1, log1') -> ListGzips c2 i2 log2 = (Ok l2, log2') ->
     l1 ≡ₚ l2 -> NoDup (Gzip_Name <$> l1) -> l1 = l2) ∧
  (∀ c1 c2 i1 i2 log1 log2 l1 l2 log1' log2',
     ListServers c1 i1 log1 = (Ok l1, log1') -> ListServers c2 i2 log2 = (Ok l2, log2') ->
     l1 ≡ₚ l2 -> NoDup (Server_Address <$> l1) -> l1 = l2).
Proof.
  split_and!; intros c1 c2 i1 i2 log1 log2 l1 l2 log1' log2' H1 H2 Hp Hnd.
  - apply ListS3s_Ok in H1 as (? & l01 & _ & -> & _).
    apply ListS3s_Ok in H2 as (? & l02 & _ & -> & _).
    rewrite !(sort_Stable_Permutation S3_Name) in Hp.
    rewrite (sort_Stable_Permutation S3_Name) in Hnd.
    by apply (sort_Stable_order_independent S3_Name).
  - apply ListHeaders_Ok in H1 as (? & l01 & _ & -> & _).
    apply ListHeaders_Ok in H2 as (? & l02 & _ & -> & _).
    rewrite !(sort_Stable_Permutation Header_Name) in Hp.
    rewrite (sort_Stable_Permutation Header_Name) in Hnd.
    by apply (sort_Stable_order_independent Header_Name).
  - apply ListGzips_Ok in H1 as (? & l01 & _ & -> & _).
    apply ListGzips_Ok in H2 as (? & l02 & _ & -> & _).
    rewrite !(sort_Stable_Permutation Gzip_Name) in Hp.
    rewrite (sort_Stable_Permutation Gzip_Name) in Hnd.
    by apply (sort_Stable_order_independent Gzip_Name).
  - apply ListServers_Ok in H1 as (? & l01 & _ & -> & _).
    apply ListServers_Ok in H2 as (? & l02 & _ & -> & _).
    rewrite !(sort_Stable_Permutation Server_Address) in Hp.
    rewrite (sort_Stable_Permutation Server_Address) in Hnd.
    by apply (sort_Stable_order_independent Server_Address).
Qed.

(** The same two loggers listed in the two possible orders. *)
Lemma List_results_order_independent_witness :
  (ListS3s (constant_remote (BodyS3s [S3_named "zeta"; S3_named "alpha"]))
     sample_ListS3sInput []).1
  = (ListS3s (constant_remote (BodyS3s [S3_named "alpha"; S3_named "zeta"]))
       sample_ListS3sInput []).1.
Proof.
  change (Ok (sort_Stable s3sByName_Less [S3_named "zeta"; S3_named "alpha"])
          = Ok (sort_Stable s3sByName_Less [S3_named "alpha"; S3_named "zeta"])).
  apply (f_equal Ok).
  apply (proj1 List_results_order_independent
           (constant_remote (BodyS3s [S3_named "zeta"; S3_named "alpha"]))
           (constant_remote (BodyS3s [S3_named "alpha"; S3_named "zeta"]))
           sample_ListS3sInput sample_ListS3sInput [] []
           _ _
           [ {| req_method := GET; req_path := "/service/svc/version/3/logging/s3";
                req_form := [] |} ]
           [ {| req_method := GET; req_path := "/service/svc/version/3/logging/s3";
                req_form := [] |} ]).
  - reflexivity.
  - reflexivity.
  - vm_compute. reflexivity.
  - apply (bool_decide_unpack _). by vm_compute.
Defined.

(** ** Requests on the wire *)

Ltac unfold_operations :=
  unfold returned_error, ListS3s, CreateS3, GetS3, UpdateS3, DeleteS3,
    ListHeaders, CreateHeader, GetHeader, UpdateHeader, DeleteHeader,
    ListGzips, CreateGzip, GetGzip, UpdateGzip, DeleteGzip,
    ListServers, CreateServer, GetServer, UpdateServer, DeleteServer in *.

Ltac unfold_fields :=
  unfold versioned, named, pooled_server, pooled in *; simpl in *.

(** Case analysis on the answer of the remote and on its decoding. *)
Ltac remote_cases :=
  repeat match goal with
         | |- context [match remote ?c ?log ?req with _ => _ end] =>
             destruct (remote c log req) as [[]|]; simpl
         | |- context [if negb (statusResp_Ok ?r) then _ else _] =>
             destruct (negb (statusResp_Ok r)); simpl
         end.

(** X4: an operation whose identifying fields are all present and whose
    encryption check passes puts exactly one request on the wire, with
    the method of its kind (GET for List and Get, POST for Create, PUT for
    Update, DELETE for Delete) and, for Create and Update, the encoded
    input as its form body; any other operation puts none. *)
Theorem Operation_requests (c : Client) (op : Operation) (log : list Request) :
  (first_missing (identifying_fields op) = None -> encryption_check_passes op ->
   ∃ path,
     (Operation_error c op log).2
     = log ++ [ {| req_method := Operation_method op; req_path := path;
                   req_form := Operation_form op |} ]) ∧
  (first_missing (identifying_fields op) ≠ None ∨ ¬ encryption_check_passes op ->
   (Operation_error c op log).2 = log).
Proof.
  split.
  - intros Hfields Hcheck.
    destruct op; simpl in *; unfold_fields; unfold_operations;
      repeat case_bool_decide; try discriminate Hfields;
      repeat case_decide; try done;
      try rewrite Hcheck;
      net_unfold; remote_cases; by eexists _.
  - intros Hfail.
    destruct op; simpl in *; unfold_fields; unfold_operations;
      repeat case_bool_decide; repeat case_decide; try done;
      try (destruct Hfail as [Hfail|Hfail]; done);
      try (destruct (UpdateS3_kms_check i) as [[]|]; try done;
           destruct Hfail as [Hfail|Hfail]; done).
Qed.

(** Updating a gzip rule with its identifying fields present. *)
Lemma Operation_requests_witness :
  ∃ path,
    (Operation_error (constant_remote (BodyUndecodable "no body"))
       (OpUpdateGzip {| UpdateGzipInput_ServiceID := "svc";
                        UpdateGzipInput_ServiceVersion := 2;
                        UpdateGzipInput_Name := "text";
                        UpdateGzipInput_NewName := None;
                        UpdateGzipInput_ContentTypes := Some "text/html";
                        UpdateGzipInput_Extensions := None;
                        UpdateGzipInput_CacheCondition := None |}) []).2
    = [] ++ [ {| req_method := PUT; req_path := path;
                 req_form := [("ServiceID", "svc"); ("ServiceVersion", "2");
                              ("Name", "text"); ("content_types", "text/html")] |} ].
Proof.
  apply (proj1 (Operation_requests (constant_remote (BodyUndecodable "no body"))
                  (OpUpdateGzip {| UpdateGzipInput_ServiceID := "svc";
                                   UpdateGzipInput_ServiceVersion := 2;
                                   UpdateGzipInput_Name := "text";
                                   UpdateGzipInput_NewName := None;
                                   UpdateGzipInput_ContentTypes := Some "text/html";
                                   UpdateGzipInput_Extensions := None;
                                   UpdateGzipInput_CacheCondition := None |}) [])).
  - vm_compute. reflexivity.
  - exact I.
Defined.

(** X5: when the remote answers the request of an operation with an
    error, the operation returns that error unchanged. *)
Theorem Operation_remote_error (c : Client) (op : Operation) (log : list Request)
    (req : Request) (e : error) (r : outcome (option error)) :
  Operation_error c op log = (r, log ++ [req]) ->
  remote c log req = Err e ->
  r = Returns (Some e).
Proof.
  intros Hrun Hr.
  destruct op; simpl in Hrun; unfold_operations;
    repeat case_decide; net_unfold;
    try (injection Hrun as _ Hlog; by apply log_grows in Hlog);
    try (destruct (UpdateS3_kms_check i) as [[]|];
         try (injection Hrun as _ Hlog; by apply log_grows in Hlog)).
  all: match type of Hrun with
       | context [remote ?c0 ?log0 ?req0] =>
           assert (req0 = req) as Hreq;
           [ destruct (remote c0 log0 req0) as [[]|]; simpl in Hrun;
             repeat match type of Hrun with
                    | context [if negb (statusResp_Ok ?s) then _ else _] =>
                        destruct (negb (statusResp_Ok s)); simpl in Hrun
                    end;
             injection Hrun as _ Hlog; apply app_inv_head in Hlog; by injection Hlog
           | rewrite Hreq, Hr in Hrun; simpl in Hrun; by injection Hrun as <- ]
       end.
Qed.

(** Fetching an S3 logger from a remote that answers 503. *)
Lemma Operation_remote_error_witness :
  (Operation_error (failing_remote (HTTPError 503 "Service Unavailable"))
     (OpGetS3 {| GetS3Input_ServiceID := "svc"; GetS3Input_ServiceVersion := 3;
                 GetS3Input_Name := "logs" |}) []).1
  = Returns (Some (HTTPError 503 "Service Unavailable")).
Proof.
  apply (Operation_remote_error (failing_remote (HTTPError 503 "Service Unavailable"))
           (OpGetS3 {| GetS3Input_ServiceID := "svc"; GetS3Input_ServiceVersion := 3;
                       GetS3Input_Name := "logs" |}) []
           {| req_method := GET; req_path := "/service/svc/version/3/logging/s3/logs";
              req_form := [] |}).
  - vm_compute. reflexivity.
  - reflexivity.
Defined.

(** ** The paths of the S3 operations *)

Lemma append_assoc (a b c : string) : (a +:+ b) +:+ c = a +:+ (b +:+ c).
Proof.
  induction a as [|x a IH]; [done|].
  change (String x ((a +:+ b) +:+ c) = String x (a +:+ (b +:+ c))). by rewrite IH.
Qed.

(** X6: for a service ID, a version and a name that are present, the S3
    operations address two paths: List and Create the collection, and
    Get, Update and Delete the member, which is the collection path
    followed by a slash and the escaped name.  Create and Update send the
    form of their input as the body. *)
Theorem S3_operations_share_paths (c : Client) (serviceID : string) (serviceVersion : Z)
    (name : string) (log : list Request) :
  serviceID ≠ "" -> serviceVersion ≠ 0 -> name ≠ "" ->
  ∃ collection,
    let member := collection +:+ "/" +:+ PathEscape name in
    (ListS3s c {| ListS3sInput_ServiceID := serviceID;
                  ListS3sInput_ServiceVersion := serviceVersion |} log).2
    = log ++ [ {| req_method := GET; req_path := collection; req_form := [] |} ] ∧
    (∀ i, CreateS3Input_ServiceID i = serviceID ->
          CreateS3Input_ServiceVersion i = serviceVersion ->
          encryption_check_passes (OpCreateS3 i) ->
          (CreateS3 c i log).2
          = log ++ [ {| req_method := POST; req_path := collection;
                        req_form := CreateS3Input_form i |} ]) ∧
    (GetS3 c {| GetS3Input_ServiceID := serviceID;
                GetS3Input_ServiceVersion := serviceVersion;
                GetS3Input_Name := name |} log).2
    = log ++ [ {| req_method := GET; req_path := member; req_form := [] |} ] ∧
    (∀ i, UpdateS3Input_ServiceID i = serviceID ->
          UpdateS3Input_ServiceVersion i = serviceVersion ->
          UpdateS3Input_Name i = name ->
          encryption_check_passes (OpUpdateS3 i) ->
          (UpdateS3 c i log).2
          = log ++ [ {| req_method := PUT; req_path := member;
                        req_form := UpdateS3Input_form i |} ]) ∧
    (DeleteS3 c {| DeleteS3Input_ServiceID := serviceID;
                   DeleteS3Input_ServiceVersion := serviceVersion;
                   DeleteS3Input_Name := name |} log).2
    = log ++ [ {| req_method := DELETE; req_path := member; req_form := [] |} ].
Proof.
  intros Hid Hver Hname.
  exists ("/service/" +:+ serviceID +:+ "/version/" +:+ itoa serviceVersion +:+ "/logging/s3").
  assert (("/service/" +:+ serviceID +:+ "/version/" +:+ itoa serviceVersion
           +:+ "/logging/s3") +:+ "/" +:+ PathEscape name
          = "/service/" +:+ serviceID +:+ "/version/" +:+ itoa serviceVersion
            +:+ "/logging/s3/" +:+ PathEscape name) as Hmember.
  { by rewrite !append_assoc. }
  cbv zeta. rewrite Hmember. split_and!.
  - unfold ListS3s. simpl. repeat case_decide; try done. net_unfold. by remote_cases.
  - intros i <- <- Hcheck. simpl in Hcheck. unfold CreateS3.
    repeat case_decide; try done. net_unfold. by remote_cases.
  - unfold GetS3. simpl. repeat case_decide; try done. net_unfold. by remote_cases.
  - intros i <- <- <- Hcheck. simpl in Hcheck. unfold UpdateS3.
    repeat case_decide; try done. rewrite Hcheck. net_unfold. by remote_cases.
  - unfold DeleteS3. simpl. repeat case_decide; try done. net_unfold. by remote_cases.
Qed.

(** The logger [access logs] of version 3 of service [svc]. *)
Lemma S3_operations_share_paths_witness :
  (GetS3 (failing_remote ErrNotOK)
     {| GetS3Input_ServiceID := "svc"; GetS3Input_ServiceVersion := 3;
        GetS3Input_Name := "access logs" |} []).2
  = [ {| req_method := GET; req_path := "/service/svc/version/3/logging/s3/access%20logs";
         req_form := [] |} ] ∧
  (DeleteS3 (failing_remote ErrNotOK)
     {| DeleteS3Input_ServiceID := "svc"; DeleteS3Input_ServiceVersion := 3;
        DeleteS3Input_Name := "access logs" |} []).2
  = [ {| req_method := DELETE;
         req_path := "/service/svc/version/3/logging/s3/access%20logs";
         req_form := [] |} ].
Proof.
  destruct (S3_operations_share_paths (failing_remote ErrNotOK) "svc" 3 "access logs" [])
    as (collection & Hlist & _ & Hget & _ & Hdelete); [done..|].
  cbv zeta in Hget, Hdelete.
  assert (collection = "/service/svc/version/3/logging/s3") as ->.
  { vm_compute in Hlist. by injection Hlist as <-. }
  split; [rewrite Hget|rewrite Hdelete]; reflexivity.
Defined.

(** ** The encryption check *)

(** X7: with the service ID and version present, [CreateS3] returns the
    error for the missing KMS key ID without a request exactly when the
    encryption is aws:kms and the key ID is empty; [UpdateS3], with the
    name present too, returns it without a request when the encryption
    points to aws:kms and the key ID points to the empty string. *)
Theorem encryption_check_without_request (c : Client) (log : list Request) :
  (∀ i, CreateS3Input_ServiceID i ≠ "" -> CreateS3Input_ServiceVersion i ≠ 0 ->
     (CreateS3 c i log = (Err ErrMissingServerSideEncryptionKMSKeyID, log)
      ↔ CreateS3Input_ServerSideEncryption i = S3ServerSideEncryptionKMS ∧
        CreateS3Input_ServerSideEncryptionKMSKeyID i = "")) ∧
  (∀ i, UpdateS3Input_ServiceID i ≠ "" -> UpdateS3Input_ServiceVersion i ≠ 0 ->
     UpdateS3Input_Name i ≠ "" ->
     UpdateS3Input_ServerSideEncryption i = Some S3ServerSideEncryptionKMS ->
     UpdateS3Input_ServerSideEncryptionKMSKeyID i = Some "" ->
     UpdateS3 c i log = (Returns (Err ErrMissingServerSideEncryptionKMSKeyID), log)).
Proof.
  split.
  - intros i Hid Hver. unfold CreateS3. repeat case_decide; try done.
    split; [intros Hrun|by intros ?].
    exfalso. net_unfold. revert Hrun. remote_cases; intros [= _ Hlog];
      symmetry in Hlog; by apply log_grows in Hlog.
  - intros i Hid Hver Hname Hsse Hkey. unfold UpdateS3, UpdateS3_kms_check.
    repeat case_decide; try done. rewrite Hsse, Hkey. by rewrite decide_True.
Qed.

Lemma encryption_check_without_request_witness :
  CreateS3 (constant_remote (BodyS3 (S3_named "logs")))
    (CreateS3Input_encrypting "svc" 3 "logs" S3ServerSideEncryptionKMS) []
  = (Err ErrMissingServerSideEncryptionKMSKeyID, []) ∧
  UpdateS3 (constant_remote (BodyS3 (S3_named "logs")))
    {| UpdateS3Input_ServiceID := "svc"; UpdateS3Input_ServiceVersion := 3;
       UpdateS3Input_Name := "logs"; UpdateS3Input_NewName := None;
       UpdateS3Input_BucketName := None; UpdateS3Input_Domain := None;
       UpdateS3Input_AccessKey := None; UpdateS3Input_SecretKey := None;
       UpdateS3Input_IAMRole := None; UpdateS3Input_Path := None;
       UpdateS3Input_Period := None; UpdateS3Input_CompressionCodec := None;
       UpdateS3Input_GzipLevel := None; UpdateS3Input_Format := None;
       UpdateS3Input_FormatVersion := None; UpdateS3Input_ResponseCondition := None;
       UpdateS3Input_MessageType := None; UpdateS3Input_TimestampFormat := None;
       UpdateS3Input_Redundancy := None; UpdateS3Input_Placement := None;
       UpdateS3Input_PublicKey := None;
       UpdateS3Input_ServerSideEncryptionKMSKeyID := Some "";
       UpdateS3Input_ServerSideEncryption := Some "aws:kms";
       UpdateS3Input_ACL := None |} []
  = (Returns (Err ErrMissingServerSideEncryptionKMSKeyID), []).
Proof.
  split.
  - by apply (proj1 (encryption_check_without_request
                       (constant_remote (BodyS3 (S3_named "logs"))) [])).
  - by apply (proj2 (encryption_check_without_request
                       (constant_remote (BodyS3 (S3_named "logs"))) [])).
Defined.

(** ** The Create handler and the encryption check *)

(** X8: when the block of an S3 logger has aws:kms as its
    server_side_encryption and the empty string as its
    server_side_encryption_kms_key_id, and the service ID and version are
    present, [Create] returns the error for the missing KMS key ID and
    sends no request, whatever the other attributes are (as long as
    [buildCreate] returns). *)
Theorem S3_Create_kms_without_key
    (getVCLLoggingAttributes :
       DefaultServiceAttributeHandler -> gmap string any -> outcome VCLLoggingAttributes)
    (uintOrDefault : option Z -> Z)
    (h : DefaultServiceAttributeHandler) (conn : Client) (serviceID : string)
    (resource : gmap string any) (serviceVersion : Z) (opts : CreateS3Input)
    (log : list Request) :
  S3LoggingServiceAttributeHandler_buildCreate getVCLLoggingAttributes uintOrDefault
    h resource serviceID serviceVersion = Returns (Ok opts) ->
  serviceID ≠ "" -> serviceVersion ≠ 0 ->
  resource !! "server_side_encryption" = Some (AString "aws:kms") ->
  resource !! "server_side_encryption_kms_key_id" = Some (AString "") ->
  S3LoggingServiceAttributeHandler_Create getVCLLoggingAttributes uintOrDefault
    h conn serviceID resource serviceVersion log
  = (Returns (Some ErrMissingServerSideEncryptionKMSKeyID), log).
Proof.
  intros Hbuild Hid Hver Hsse Hkey.
  unfold S3LoggingServiceAttributeHandler_Create. rewrite Hbuild.
  unfold S3LoggingServiceAttributeHandler_buildCreate in Hbuild.
  rewrite Hsse, Hkey in Hbuild. obind_inv Hbuild.
  apply Returns_Ok_inj in Hbuild as <-.
  repeat match goal with H : assert_string (Some (AString _)) = Returns _ |- _ =>
           injection H as <- end.
  unfold createS3, CreateS3, net_bind.
  cbn [CreateS3Input_ServiceID CreateS3Input_ServiceVersion
       CreateS3Input_ServerSideEncryption CreateS3Input_ServerSideEncryptionKMSKeyID].
  rewrite (decide_False (P := serviceID = "")) by done.
  rewrite (decide_False (P := serviceVersion = 0)) by done.
  reflexivity.
Qed.

(** The sample block, encrypted with aws:kms and without a key ID. *)
Lemma S3_Create_kms_without_key_witness :
  S3LoggingServiceAttributeHandler_Create sample_getVCLLoggingAttributes sample_uintOrDefault
    sample_handler (constant_remote (BodyS3 (S3_named "logs"))) "svc"
    (<["server_side_encryption" := AString "aws:kms"]> (sample_S3_block 9)) 3 []
  = (Returns (Some ErrMissingServerSideEncryptionKMSKeyID), []).
Proof.
  destruct (S3LoggingServiceAttributeHandler_buildCreate sample_getVCLLoggingAttributes
              sample_uintOrDefault sample_handler
              (<["server_side_encryption" := AString "aws:kms"]> (sample_S3_block 9))
              "svc" 3) as [[opts|]|] eqn:Hbuild; [|vm_compute in Hbuild; discriminate..].
  apply (S3_Create_kms_without_key _ _ _ _ _ _ _ opts); [exact Hbuild|done|done|..];
    vm_compute; reflexivity.
Defined.

(** ** The keys and the order of the flattened blocks *)

Lemma dom_prune_empty (m : gmap string any) : dom (prune_empty m) ⊆ dom m.
Proof. apply dom_filter_subseteq. Qed.

Lemma flattenS3s_entry_dom (s : S3) :
  dom (flattenS3s_entry s) ⊆ list_to_set flattenS3s_keys.
Proof.
  unfold flattenS3s_entry. cbv zeta. etrans; [apply dom_prune_empty|].
  rewrite !dom_insert_L, dom_empty_L. reflexivity.
Qed.

Lemma flattenDatadog_entry_dom (dl : Datadog) :
  dom (flattenDatadog_entry dl) ⊆ list_to_set flattenDatadog_keys.
Proof.
  unfold flattenDatadog_entry. cbv zeta. etrans; [apply dom_prune_empty|].
  rewrite !dom_insert_L, dom_empty_L. reflexivity.
Qed.

Lemma flattened_keys_vcl :
  Forall (fun k => k ∈ vcl_only_attributes ++ S3_common_attributes) flattenS3s_keys ∧
  Forall (fun k => k ∈ vcl_only_attributes ++ Datadog_common_attributes) flattenDatadog_keys.
Proof.
  split.
  - unfold flattenS3s_keys.
    repeat (apply Forall_cons_2; [apply (bool_decide_unpack _); by vm_compute|]).
    apply Forall_nil_2.
  - unfold flattenDatadog_keys.
    repeat (apply Forall_cons_2; [apply (bool_decide_unpack _); by vm_compute|]).
    apply Forall_nil_2.
Qed.

Lemma flattenS3s_entry_format_version (s : S3) :
  flattenS3s_entry s !! "format_version" = Some (AUint (S3_FormatVersion s)).
Proof.
  unfold flattenS3s_entry. cbv zeta. rewrite lookup_prune_empty. lookup_literal.
  by rewrite decide_False.
Qed.

Lemma flattenDatadog_entry_format_version (dl : Datadog) :
  flattenDatadog_entry dl !! "format_version" = Some (AUint (Datadog_FormatVersion dl)).
Proof.
  unfold flattenDatadog_entry. cbv zeta. rewrite lookup_prune_empty. lookup_literal.
  by rewrite decide_False.
Qed.

(** X9: for a VCL service every key of a flattened S3 logger and of a
    flattened Datadog logger is an attribute of the handler's schema; for
    a compute service the flattened map still holds format_version (a
    number, which the pruning of empty strings keeps), which the schema
    does not have. *)
Theorem flattened_keys_and_schema (h : DefaultServiceAttributeHandler) (s : S3) (dl : Datadog) :
  let vcl := serviceType (GetServiceMetadata h) = ServiceTypeVCL in
  let s3 := dom (BlockSchema_Elem (S3LoggingServiceAttributeHandler_GetSchema h)) in
  let datadog := dom (BlockSchema_Elem (DatadogServiceAttributeHandler_GetSchema h)) in
  (vcl -> dom (flattenS3s_entry s) ⊆ s3 ∧ dom (flattenDatadog_entry dl) ⊆ datadog) ∧
  (¬ vcl ->
   ("format_version" ∈ dom (flattenS3s_entry s) ∧ "format_version" ∉ s3) ∧
   ("format_version" ∈ dom (flattenDatadog_entry dl) ∧ "format_version" ∉ datadog)).
Proof.
  intros vcl s3 datadog. subst s3 datadog.
  rewrite S3_GetSchema_dom, Datadog_GetSchema_dom. fold vcl.
  destruct flattened_keys_vcl as [Hs3 Hdatadog]. split; intros Hvcl.
  - rewrite !(decide_True (P := vcl)) by done. split.
    + etrans; [apply flattenS3s_entry_dom|]. intros k.
      rewrite !elem_of_list_to_set. revert k. by apply Forall_forall.
    + etrans; [apply flattenDatadog_entry_dom|]. intros k.
      rewrite !elem_of_list_to_set. revert k. by apply Forall_forall.
  - rewrite !(decide_False (P := vcl)) by done. split_and!.
    + apply elem_of_dom. rewrite flattenS3s_entry_format_version. by eexists.
    + rewrite elem_of_list_to_set. apply (bool_decide_unpack _). by vm_compute.
    + apply elem_of_dom. rewrite flattenDatadog_entry_format_version. by eexists.
    + rewrite elem_of_list_to_set. apply (bool_decide_unpack _). by vm_compute.
Qed.

(** The sample handler is one of a compute service. *)
Lemma flattened_keys_and_schema_witness :
  "format_version" ∈ dom (flattenS3s_entry (S3_named "logs")) ∧
  "format_version" ∉ dom (BlockSchema_Elem
                            (S3LoggingServiceAttributeHandler_GetSchema sample_handler)).
Proof.
  apply (proj2 (flattened_keys_and_schema sample_handler (S3_named "logs")
                  {| Datadog_Name := "dd"; Datadog_Token := ""; Datadog_Region := "";
                     Datadog_Format := ""; Datadog_FormatVersion := 0;
                     Datadog_Placement := ""; Datadog_ResponseCondition := "" |})).
  discriminate.
Defined.

Lemma flattened_name_entry (s : S3) : flattened_name (flattenS3s_entry s) = S3_Name s.
Proof.
  unfold flattened_name, flattenS3s_entry. cbv zeta. rewrite lookup_prune_empty.
  lookup_literal. case_decide; by simplify_eq.
Qed.

Lemma sorted_by_fmap {A B} (key : A -> string) (key' : B -> string) (f : A -> B)
    (l : list A) :
  (∀ a, key' (f a) = key a) -> sorted_by key l -> sorted_by key' (f <$> l).
Proof.
  intros Hkey. unfold sorted_by. induction 1 as [|a l Hl IH Ha]; [constructor|].
  rewrite fmap_cons. constructor; [done|].
  rewrite Forall_fmap. eapply Forall_impl; [exact Ha|].
  intros b Hb. simpl. by rewrite !Hkey.
Qed.

(** X10: flattening keeps one block per logger, in the order of the
    list, each under the logger's name (an empty name is pruned and reads
    as the empty name); so the blocks flattened from a list that [ListS3s]
    returned are in ascending order of name. *)
Theorem flattenS3s_names (c : Client) (i : ListS3sInput) (log : list Request) :
  (∀ s3List, flattened_name <$> flattenS3s s3List = S3_Name <$> s3List) ∧
  (∀ s3List log', ListS3s c i log = (Ok s3List, log') ->
     sorted_by flattened_name (flattenS3s s3List)).
Proof.
  split.
  - intros s3List. unfold flattenS3s. rewrite <-list_fmap_compose.
    apply list_fmap_ext. intros _ s _. apply flattened_name_entry.
  - intros s3List log' Hlist. unfold flattenS3s.
    apply (sorted_by_fmap S3_Name); [apply flattened_name_entry|].
    apply ListS3s_Ok in Hlist as (req & l & _ & -> & _). apply sort_Stable_sorted.
Qed.

(** The remote lists [zeta] before [alpha]; the flattened blocks have
    [alpha] first. *)
Lemma flattenS3s_names_witness :
  sorted_by flattened_name
    (flattenS3s [S3_in_bucket "alpha" "b2"; S3_in_bucket "zeta" "b1"]).
Proof.
  apply (proj2 (flattenS3s_names
                  (constant_remote (BodyS3s [S3_in_bucket "zeta" "b1";
                                             S3_in_bucket "alpha" "b2"]))
                  sample_ListS3sInput [])
           _ [ {| req_method := GET; req_path := "/service/svc/version/3/logging/s3";
                  req_form := [] |} ]).
  vm_compute. reflexivity.
Defined.

(** ** Dynamic types and panics in the handlers *)

Lemma assert_string_typed (v : option any) :
  (∃ s, assert_string v = Returns s) ↔ ∃ s, v = Some (AString s).
Proof.
  split.
  - intros [s H]. destruct v as [[]|]; simplify_eq/=. by eexists.
  - intros [s ->]. by eexists.
Qed.

Lemma assert_int_typed (v : option any) :
  (∃ n, assert_int v = Returns n) ↔ ∃ n, v = Some (AInt n).
Proof.
  split.
  - intros [n H]. destruct v as [[]|]; simplify_eq/=. by eexists.
  - intros [n ->]. by eexists.
Qed.

Lemma changed_string_typed (m : gmap string any) (k : string) :
  (∃ x, changed_string m k = Returns x) ↔ (∀ v, m !! k = Some v -> ∃ s, v = AString s).
Proof.
  unfold changed_string. split.
  - intros [x H] v Hv. rewrite Hv in H. destruct v; simplify_eq/=. by eexists.
  - intros H. destruct (m !! k) as [v|]; [|by eexists].
    destruct (H v eq_refl) as [s ->]. by eexists.
Qed.

Lemma changed_uint_typed (m : gmap string any) (k : string) :
  (∃ x, changed_uint m k = Returns x) ↔ (∀ v, m !! k = Some v -> ∃ n, v = AInt n).
Proof.
  unfold changed_uint. split.
  - intros [x H] v Hv. rewrite Hv in H. destruct v; simplify_eq/=. by eexists.
  - intros H. destruct (m !! k) as [v|]; [|by eexists].
    destruct (H v eq_refl) as [s ->]. by eexists.
Qed.

Lemma changed_uint8_typed (m : gmap string any) (k : string) :
  (∃ x, changed_uint8 m k = Returns x) ↔ (∀ v, m !! k = Some v -> ∃ n, v = AInt n).
Proof.
  unfold changed_uint8. split.
  - intros [x H] v Hv. rewrite Hv in H. destruct v; simplify_eq/=. by eexists.
  - intros H. destruct (m !! k) as [v|]; [|by eexists].
    destruct (H v eq_refl) as [s ->]. by eexists.
Qed.

(** From the results of the single assertions to the typing of a key. *)
Ltac typed_key :=
  first [ apply assert_string_typed; eexists; eassumption
        | apply assert_int_typed; eexists; eassumption
        | apply changed_string_typed; eexists; eassumption
        | apply changed_uint_typed; eexists; eassumption
        | apply changed_uint8_typed; eexists; eassumption ].

(** From the typing of the keys to the results of the assertions. *)
Ltac typed_results :=
  repeat match goal with
         | H : Forall _ (_ :: _) |- _ => apply Forall_cons_1 in H as [? H]
         | H : Forall _ [] |- _ => clear H
         end;
  repeat match goal with
         | H : ∃ s, _ !! ?k = Some (AString s) |- _ =>
             apply (proj2 (assert_string_typed _)) in H as [? H]
         | H : ∃ n, _ !! ?k = Some (AInt n) |- _ =>
             apply (proj2 (assert_int_typed _)) in H as [? H]
         end.

Ltac run_assertions :=
  repeat match goal with
         | H : assert_string _ = Returns _ |- _ => rewrite H; clear H
         | H : assert_int _ = Returns _ |- _ => rewrite H; clear H
         | H : changed_string _ _ = Returns _ |- _ => rewrite H; clear H
         | H : changed_uint _ _ = Returns _ |- _ => rewrite H; clear H
         | H : changed_uint8 _ _ = Returns _ |- _ => rewrite H; clear H
         end;
  cbn [obind]; eexists; reflexivity.

(** X11: the handlers panic exactly on an ill-typed block.  [Update] of
    the S3 and of the Datadog handler builds its options if and only if
    the name of the resource is a string and every attribute of the
    changed set has the dynamic type its assertion names (int for period,
    gzip_level and format_version, string for the others); [buildCreate]
    of both handlers, when [getVCLLoggingAttributes] returns, builds its
    input if and only if every attribute it reads is present with that
    type, and [buildDelete] if and only if the name is a string. *)
Theorem handlers_build_iff_typed
    (getVCLLoggingAttributes :
       DefaultServiceAttributeHandler -> gmap string any -> outcome VCLLoggingAttributes)
    (uintOrDefault : option Z -> Z) (h : DefaultServiceAttributeHandler)
    (serviceID : string) (serviceVersion : Z) (resource modified : gmap string any) :
  ((∃ opts, S3LoggingServiceAttributeHandler_Update_opts serviceID resource modified
              serviceVersion = Returns opts)
   ↔ block_typed ["name"] [] resource ∧
     changes_typed S3_update_string_attributes S3_update_number_attributes modified) ∧
  ((∃ opts, DatadogServiceAttributeHandler_Update_opts serviceID resource modified
              serviceVersion = Returns opts)
   ↔ block_typed ["name"] [] resource ∧
     changes_typed Datadog_update_string_attributes ["format_version"] modified) ∧
  ((∃ vla, getVCLLoggingAttributes h resource = Returns vla) ->
   ((∃ opts, S3LoggingServiceAttributeHandler_buildCreate getVCLLoggingAttributes
               uintOrDefault h resource serviceID serviceVersion = Returns (Ok opts))
    ↔ block_typed S3_create_string_attributes S3_create_number_attributes resource) ∧
   ((∃ opts, DatadogServiceAttributeHandler_buildCreate getVCLLoggingAttributes
               uintOrDefault h resource serviceID serviceVersion = Returns opts)
    ↔ block_typed Datadog_create_string_attributes [] resource)) ∧
  ((∃ opts, S3LoggingServiceAttributeHandler_buildDelete resource serviceID serviceVersion
            = Returns opts)
   ↔ block_typed ["name"] [] resource) ∧
  ((∃ opts, DatadogServiceAttributeHandler_buildDelete resource serviceID serviceVersion
            = Returns opts)
   ↔ block_typed ["name"] [] resource).
Proof.
  unfold block_typed, changes_typed. split_and!.
  - unfold S3LoggingServiceAttributeHandler_Update_opts. split.
    + intros [opts H]. obind_inv H.
      unfold S3_update_string_attributes, S3_update_number_attributes.
      split_and!; repeat apply Forall_cons_2; try apply Forall_nil_2; typed_key.
    + intros [[Hname _] [Hs Hn]].
      unfold S3_update_string_attributes, S3_update_number_attributes in *.
      typed_results.
      repeat match goal with
             | H : ∀ v, modified !! ?k = Some v -> ∃ s, v = AString s |- _ =>
                 apply (proj2 (changed_string_typed _ _)) in H as [? H]
             end.
      repeat match goal with
             | H : ∀ v, modified !! "gzip_level" = Some v -> ∃ n, v = AInt n |- _ =>
                 apply (proj2 (changed_uint8_typed _ _)) in H as [? H]
             | H : ∀ v, modified !! ?k = Some v -> ∃ n, v = AInt n |- _ =>
                 apply (proj2 (changed_uint_typed _ _)) in H as [? H]
             end.
      run_assertions.
  - unfold DatadogServiceAttributeHandler_Update_opts. split.
    + intros [opts H]. obind_inv H. unfold Datadog_update_string_attributes.
      split_and!; repeat apply Forall_cons_2; try apply Forall_nil_2; typed_key.
    + intros [[Hname _] [Hs Hn]]. unfold Datadog_update_string_attributes in *.
      typed_results.
      repeat match goal with
             | H : ∀ v, modified !! ?k = Some v -> ∃ s, v = AString s |- _ =>
                 apply (proj2 (changed_string_typed _ _)) in H as [? H]
             | H : ∀ v, modified !! ?k = Some v -> ∃ n, v = AInt n |- _ =>
                 apply (proj2 (changed_uint_typed _ _)) in H as [? H]
             end.
      run_assertions.
  - intros [vla Hvla]. split.
    + unfold S3LoggingServiceAttributeHandler_buildCreate. rewrite Hvla. cbn [obind]. split.
      * intros [opts H]. obind_inv H.
        unfold S3_create_string_attributes, S3_create_number_attributes.
        split_and!; repeat apply Forall_cons_2; try apply Forall_nil_2; typed_key.
      * intros [Hs Hn].
        unfold S3_create_string_attributes, S3_create_number_attributes in *.
        typed_results. run_assertions.
    + unfold DatadogServiceAttributeHandler_buildCreate. rewrite Hvla. cbn [obind]. split.
      * intros [opts H]. obind_inv H. unfold Datadog_create_string_attributes.
        split_and!; repeat apply Forall_cons_2; try apply Forall_nil_2; typed_key.
      * intros [Hs Hn]. unfold Datadog_create_string_attributes in *.
        typed_results. run_assertions.
  - unfold S3LoggingServiceAttributeHandler_buildDelete. split.
    + intros [opts H]. obind_inv H.
      split_and!; repeat apply Forall_cons_2; try apply Forall_nil_2; typed_key.
    + intros [Hs Hn]. typed_results. run_assertions.
  - unfold DatadogServiceAttributeHandler_buildDelete. split.
    + intros [opts H]. obind_inv H.
      split_and!; repeat apply Forall_cons_2; try apply Forall_nil_2; typed_key.
    + intros [Hs Hn]. typed_results. run_assertions.
Qed.

(** The sample block is well typed, and a changed set whose period is a
    string is not. *)
Lemma handlers_build_iff_typed_witness :
  (∃ opts, S3LoggingServiceAttributeHandler_buildCreate sample_getVCLLoggingAttributes
             sample_uintOrDefault sample_handler (sample_S3_block 9) "svc" 3
           = Returns (Ok opts)) ∧
  ¬ (∃ opts, S3LoggingServiceAttributeHandler_Update_opts "svc" {["name" := AString "logs"]}
               {["period" := AString "3600"]} 3 = Returns opts).
Proof.
  pose proof (handlers_build_iff_typed sample_getVCLLoggingAttributes sample_uintOrDefault
                sample_handler "svc" 3) as Htyped.
  split.
  - destruct (Htyped (sample_S3_block 9) ∅) as (_ & _ & Hcreate & _).
    apply Hcreate; [by eexists|].
    split; repeat apply Forall_cons_2; try apply Forall_nil_2;
      eexists; vm_compute; reflexivity.
  - destruct (Htyped {["name" := AString "logs"]} {["period" := AString "3600"]})
      as (Hupdate & _).
    intros Hopts. apply Hupdate in Hopts as (_ & _ & Hnumbers).
    apply Forall_inv in Hnumbers.
    destruct (Hnumbers (AString "3600")) as [n Hn]; [vm_compute; reflexivity|].
    discriminate Hn.
Defined.

Lemma changed_string_Some (m : gmap string any) (k s : string) (x : option string) :
  changed_string m k = Returns x -> m !! k = Some (AString s) -> x = Some s.
Proof. unfold changed_string. intros H Hk. rewrite Hk in H. by simplify_eq/=. Qed.

Lemma changed_uint_Some (m : gmap string any) (k : string) (n : Z) (x : option Z) :
  changed_uint m k = Returns x -> m !! k = Some (AInt n) -> x = Some (uint_of_int n).
Proof. unfold changed_uint. intros H Hk. rewrite Hk in H. by simplify_eq/=. Qed.

Lemma changed_uint8_Some (m : gmap string any) (k : string) (n : Z) (x : option Z) :
  changed_uint8 m k = Returns x -> m !! k = Some (AInt n) -> x = Some (uint8_of_int n).
Proof. unfold changed_uint8. intros H Hk. rewrite Hk in H. by simplify_eq/=. Qed.

(** Finds a pair in a form written as a concatenation of fields. *)
Ltac pair_present :=
  repeat first [ apply list_elem_of_here
               | apply elem_of_app; left; apply list_elem_of_here
               | apply elem_of_app; right ].

(** X12: the request of an [Update] of an S3 logger carries the changed
    values: a changed string attribute is sent as it is, under the form
    key of its field, and a changed number after the conversion of the
    handler, period and format_version modulo 2^64 and gzip_level modulo
    2^8. *)
Theorem S3_Update_carries_changes
    (conn : Client) (serviceID : string) (resource modified : gmap string any)
    (serviceVersion : Z) (log : list Request) (res : outcome (option error))
    (req : Request) :
  S3LoggingServiceAttributeHandler_Update conn serviceID resource modified serviceVersion log
  = (res, log ++ [req]) ->
  Forall (fun f => ∀ s, modified !! f.1 = Some (AString s) -> (f.2, s) ∈ req_form req)
    S3_update_fields ∧
  (∀ n, modified !! "period" = Some (AInt n) ->
        ("period", itoa (n mod 2 ^ 64)) ∈ req_form req) ∧
  (∀ n, modified !! "gzip_level" = Some (AInt n) ->
        ("gzip_level", itoa (n mod 2 ^ 8)) ∈ req_form req) ∧
  (∀ n, modified !! "format_version" = Some (AInt n) ->
        ("format_version", itoa (n mod 2 ^ 64)) ∈ req_form req).
Proof.
  intros Hrun.
  apply S3_Update_sends in Hrun as [Hlog|(opts & path & Hopts & Hlog)].
  { symmetry in Hlog. by apply log_grows in Hlog. }
  apply (inj (app log)) in Hlog. injection Hlog as ->.
  unfold S3LoggingServiceAttributeHandler_Update_opts in Hopts.
  obind_inv Hopts. injection Hopts as <-.
  cbn [req_form]. unfold UpdateS3Input_form, S3_update_fields. cbn [UpdateS3Input_ServiceID
    UpdateS3Input_ServiceVersion UpdateS3Input_Name UpdateS3Input_NewName
    UpdateS3Input_BucketName UpdateS3Input_Domain UpdateS3Input_AccessKey
    UpdateS3Input_SecretKey UpdateS3Input_IAMRole UpdateS3Input_Path
    UpdateS3Input_Period UpdateS3Input_CompressionCodec UpdateS3Input_GzipLevel
    UpdateS3Input_Format UpdateS3Input_FormatVersion UpdateS3Input_ResponseCondition
    UpdateS3Input_MessageType UpdateS3Input_TimestampFormat UpdateS3Input_Redundancy
    UpdateS3Input_Placement UpdateS3Input_PublicKey
    UpdateS3Input_ServerSideEncryptionKMSKeyID UpdateS3Input_ServerSideEncryption
    UpdateS3Input_ACL].
  split_and!; [repeat apply Forall_cons_2; [..|apply Forall_nil_2]; cbn [fst snd]|..];
    intros val Hv;
    repeat match goal with
           | H : changed_string _ ?k = Returns _, Hv : _ !! ?k = Some (AString _) |- _ =>
               apply (changed_string_Some _ _ _ _ H) in Hv
           | H : changed_uint _ ?k = Returns _, Hv : _ !! ?k = Some (AInt _) |- _ =>
               apply (changed_uint_Some _ _ _ _ H) in Hv
           | H : changed_uint8 _ ?k = Returns _, Hv : _ !! ?k = Some (AInt _) |- _ =>
               apply (changed_uint8_Some _ _ _ _ H) in Hv
           | H : changed_uint _ ?k = Returns _, Hv : _ !! ?k = Some (AString _) |- _ =>
               exfalso; unfold changed_uint in H; rewrite Hv in H; discriminate H
           | H : changed_uint8 _ ?k = Returns _, Hv : _ !! ?k = Some (AString _) |- _ =>
               exfalso; unfold changed_uint8 in H; rewrite Hv in H; discriminate H
           end;
    try done; subst; clear; cbn [field_ptr id]; pair_present.
Qed.

(** A gzip level of 265 is sent as 9, and the bucket name as it is. *)
Lemma S3_Update_carries_changes_witness :
  ∃ req,
    (S3LoggingServiceAttributeHandler_Update (constant_remote (BodyS3 (S3_named "logs")))
       "svc" {["name" := AString "logs"]}
       (<["gzip_level" := AInt 265]> {["bucket_name" := AString "archive"]}) 3 []).2
    = [req] ∧
    ("gzip_level", "9") ∈ req_form req ∧ ("bucket_name", "archive") ∈ req_form req.
Proof.
  eexists. split; [vm_compute; reflexivity|].
  destruct (S3_Update_carries_changes (constant_remote (BodyS3 (S3_named "logs")))
              "svc" {["name" := AString "logs"]}
              (<["gzip_level" := AInt 265]> {["bucket_name" := AString "archive"]}) 3 []
              (Returns None)
              {| req_method := PUT; req_path := "/service/svc/version/3/logging/s3/logs";
                 req_form := [("ServiceID", "svc"); ("ServiceVersion", "3");
                              ("Name", "logs"); ("bucket_name", "archive");
                              ("gzip_level", "9")] |})
    as (Hstrings & _ & Hgzip & _); [vm_compute; reflexivity|].
  split.
  - apply (Hgzip 265). vm_compute. reflexivity.
  - apply Forall_inv in Hstrings. apply (Hstrings "archive"). vm_compute. reflexivity.
Defined.

(** ** Panics and validation errors of the S3 handler *)

Lemma UpdateS3_Panics (c : Client) (i : UpdateS3Input) (log log' : list Request)
    (msg : string) :
  UpdateS3 c i log = (Panics msg, log') ->
  log' = log ∧ UpdateS3_kms_check i = Panics msg.
Proof.
  unfold UpdateS3. repeat case_decide; try (unfold net_ret; congruence).
  destruct (UpdateS3_kms_check i) as [[]|msg'];
    try (unfold net_ret; intros; by simplify_eq).
  net_unfold. destruct (remote c log _) as [body|]; [destruct (decodeS3 body)|];
    congruence.
Qed.

(** X13: a panic of the S3 handler comes before any request.  [Create]
    and [Delete] panic only while they build their input from the block;
    [Update] panics while it builds its options or in the encryption
    check of [UpdateS3]; in each case the request log is as before. *)
Theorem S3_handler_panics_before_request
    (getVCLLoggingAttributes :
       DefaultServiceAttributeHandler -> gmap string any -> outcome VCLLoggingAttributes)
    (uintOrDefault : option Z -> Z) (h : DefaultServiceAttributeHandler)
    (conn : Client) (serviceID : string) (resource modified : gmap string any)
    (serviceVersion : Z) (log log' : list Request) (msg : string) :
  (S3LoggingServiceAttributeHandler_Create getVCLLoggingAttributes uintOrDefault
     h conn serviceID resource serviceVersion log = (Panics msg, log') ->
   log' = log ∧
   S3LoggingServiceAttributeHandler_buildCreate getVCLLoggingAttributes uintOrDefault
     h resource serviceID serviceVersion = Panics msg) ∧
  (S3LoggingServiceAttributeHandler_Update conn serviceID resource modified serviceVersion log
   = (Panics msg, log') ->
   log' = log ∧
   (S3LoggingServiceAttributeHandler_Update_opts serviceID resource modified serviceVersion
    = Panics msg ∨
    ∃ opts, S3LoggingServiceAttributeHandler_Update_opts serviceID resource modified
              serviceVersion = Returns opts ∧
            UpdateS3_kms_check opts = Panics msg)) ∧
  (S3LoggingServiceAttributeHandler_Delete conn serviceID resource serviceVersion log
   = (Panics msg, log') ->
   log' = log ∧
   S3LoggingServiceAttributeHandler_buildDelete resource serviceID serviceVersion
   = Panics msg).
Proof.
  split_and!.
  - unfold S3LoggingServiceAttributeHandler_Create.
    destruct (S3LoggingServiceAttributeHandler_buildCreate _ _ _ _ _ _) as [[opts|err]|msg'];
      unfold net_bind, net_ret.
    + destruct (createS3 conn opts log). congruence.
    + congruence.
    + intros [= -> ->]. done.
  - unfold S3LoggingServiceAttributeHandler_Update.
    destruct (S3LoggingServiceAttributeHandler_Update_opts _ _ _ _) as [opts|msg'].
    + unfold net_bind. destruct (UpdateS3 conn opts log) as [[[s3|err]|msg'] log0] eqn:Hrun;
        unfold net_ret; try congruence.
      intros [= -> ->]. apply UpdateS3_Panics in Hrun as [-> Hcheck].
      split; [done|]. right. by exists opts.
    + unfold net_ret. intros [= -> ->]. split; [done|]. by left.
  - unfold S3LoggingServiceAttributeHandler_Delete.
    destruct (S3LoggingServiceAttributeHandler_buildDelete _ _ _) as [opts|msg'];
      unfold net_bind, net_ret.
    + destruct (deleteS3 conn opts log). congruence.
    + intros [= -> ->]. done.
Qed.

(** The changed set that holds only aws:kms as the encryption: the
    panic of the nil pointer, and no request. *)
Lemma S3_handler_panics_before_request_witness :
  ∃ opts,
    S3LoggingServiceAttributeHandler_Update_opts "svc" {["name" := AString "logs"]}
      {["server_side_encryption" := AString "aws:kms"]} 3 = Returns opts ∧
    UpdateS3_kms_check opts = Panics "invalid memory address or nil pointer dereference".
Proof.
  destruct (S3_handler_panics_before_request sample_getVCLLoggingAttributes
              sample_uintOrDefault sample_handler
              (constant_remote (BodyS3 (S3_named "logs"))) "svc"
              {["name" := AString "logs"]}
              {["server_side_encryption" := AString "aws:kms"]} 3 [] []
              "invalid memory address or nil pointer dereference")
    as (_ & Hupdate & _).
  destruct Hupdate as [_ [Hopts|Hcheck]]; [vm_compute; reflexivity|..].
  - vm_compute in Hopts. discriminate Hopts.
  - exact Hcheck.
Defined.

(** X14: the S3 handler returns the validation error of the client, and
    sends nothing, when the service ID of the resource data is empty or
    the service version is zero, and for [Update] and [Delete] when the
    name of the block is the empty string; the error of a missing name
    is not taken for a 404 by [Delete]. *)
Theorem S3_handler_validation
    (getVCLLoggingAttributes :
       DefaultServiceAttributeHandler -> gmap string any -> outcome VCLLoggingAttributes)
    (uintOrDefault : option Z -> Z) (h : DefaultServiceAttributeHandler)
    (conn : Client) (serviceID : string) (resource modified : gmap string any)
    (serviceVersion : Z) (log : list Request) :
  (∀ opts e,
     S3LoggingServiceAttributeHandler_buildCreate getVCLLoggingAttributes uintOrDefault
       h resource serviceID serviceVersion = Returns (Ok opts) ->
     first_missing (versioned serviceID serviceVersion) = Some e ->
     S3LoggingServiceAttributeHandler_Create getVCLLoggingAttributes uintOrDefault
       h conn serviceID resource serviceVersion log = (Returns (Some e), log)) ∧
  (∀ opts name e,
     S3LoggingServiceAttributeHandler_Update_opts serviceID resource modified serviceVersion
     = Returns opts ->
     resource !! "name" = Some (AString name) ->
     first_missing (named serviceID serviceVersion name) = Some e ->
     S3LoggingServiceAttributeHandler_Update conn serviceID resource modified
       serviceVersion log = (Returns (Some e), log)) ∧
  (∀ name e,
     resource !! "name" = Some (AString name) ->
     first_missing (named serviceID serviceVersion name) = Some e ->
     S3LoggingServiceAttributeHandler_Delete conn serviceID resource serviceVersion log
     = (Returns (Some e), log)).
Proof.
  split_and!.
  - intros opts e Hbuild Hmissing.
    unfold S3LoggingServiceAttributeHandler_Create. rewrite Hbuild.
    unfold S3LoggingServiceAttributeHandler_buildCreate in Hbuild.
    obind_inv Hbuild. apply Returns_Ok_inj in Hbuild as <-.
    unfold versioned in Hmissing. simpl in Hmissing.
    unfold createS3, CreateS3, net_bind, net_ret.
    cbn [CreateS3Input_ServiceID CreateS3Input_ServiceVersion].
    clear -Hmissing. validate.
  - intros opts name e Hopts Hname Hmissing.
    unfold S3LoggingServiceAttributeHandler_Update. rewrite Hopts.
    unfold S3LoggingServiceAttributeHandler_Update_opts in Hopts.
    rewrite Hname in Hopts. obind_inv Hopts. injection Hopts as <-.
    match goal with H : assert_string _ = Returns _ |- _ => injection H as <- end.
    unfold named, versioned in Hmissing. simpl in Hmissing.
    unfold UpdateS3, net_bind, net_ret.
    cbn [UpdateS3Input_ServiceID UpdateS3Input_ServiceVersion UpdateS3Input_Name].
    clear -Hmissing. validate.
  - intros name e Hname Hmissing.
    unfold S3LoggingServiceAttributeHandler_Delete,
      S3LoggingServiceAttributeHandler_buildDelete.
    rewrite Hname. cbn [assert_string obind].
    unfold named, versioned in Hmissing. simpl in Hmissing.
    unfold deleteS3, DeleteS3, net_bind, net_ret.
    cbn [DeleteS3Input_ServiceID DeleteS3Input_ServiceVersion DeleteS3Input_Name].
    clear -Hmissing. validate.
Qed.

(** Deleting a block whose name is empty. *)
Lemma S3_handler_validation_witness :
  S3LoggingServiceAttributeHandler_Delete (constant_remote (BodyStatus {| statusResp_ok := true |}))
    "svc" {["name" := AString ""]} 3 []
  = (Returns (Some ErrMissingName), []).
Proof.
  apply (proj2 (proj2 (S3_handler_validation sample_getVCLLoggingAttributes
                         sample_uintOrDefault sample_handler
                         (constant_remote (BodyStatus {| statusResp_ok := true |}))
                         "svc" {["name" := AString ""]} ∅ 3 [])) "");
    vm_compute; reflexivity.
Defined.

(** ** The Read handler *)

(** X15: [Read] of the S3 handler.  With no block under the handler's
    key and the resource not imported it sends nothing and leaves the
    resource data as it is.  Otherwise it lists the loggers once; it
    returns an error exactly when [ListS3s] does, with that error as the
    cause and the resource data unchanged, so an error of [d.Set] is
    never returned.  In every case the log grows by at most one GET. *)
Theorem S3_Read_lists_once
    (pruneVCLLoggingAttributes :
       DefaultServiceAttributeHandler -> gmap string any -> gmap string any)
    (ResourceData_Set :
       ResourceData -> string -> list (gmap string any) -> ResourceData * option string)
    (h : DefaultServiceAttributeHandler) (d : ResourceData) (serviceVersion : Z)
    (conn : Client) (log : list Request) :
  let wanted := default [] (d_blocks d !! key h) ≠ [] ∨ d_imported d = true in
  let run := S3LoggingServiceAttributeHandler_Read pruneVCLLoggingAttributes
               ResourceData_Set h d serviceVersion conn log in
  let list := ListS3s conn {| ListS3sInput_ServiceID := d_Id d;
                              ListS3sInput_ServiceVersion := serviceVersion |} log in
  (¬ wanted -> run = ((d, None), log)) ∧
  (wanted ->
   run.2 = list.2 ∧
   match list.1 with
   | Err cause => run.1 = (d, Some (ErrorLookingUpS3Logging (d_Id d) serviceVersion cause))
   | Ok s3List =>
       run.1 = ((ResourceData_Set d (key h)
                   (pruneVCLLoggingAttributes h <$> flattenS3s s3List)).1, None)
   end) ∧
  (∀ e, run.1.2 = Some e -> run.1.1 = d) ∧
  (run.2 = log ∨
   ∃ path, run.2 = log ++ [ {| req_method := GET; req_path := path; req_form := [] |} ]).
Proof.
  intros wanted run list.
  assert (wanted ↔ (0 <? length (default [] (d_blocks d !! key h)))%nat || d_imported d = true)
    as Hwanted.
  { unfold wanted. rewrite orb_true_iff, Nat.ltb_lt.
    destruct (default [] (d_blocks d !! key h)) as [|block blocks]; simpl.
    - split; (intros [?|?]; [|by right]); [done|lia].
    - split; intros _; left; [lia|done]. }
  assert (list.2 = log ∨
          ∃ path, list.2 = log ++ [ {| req_method := GET; req_path := path;
                                       req_form := [] |} ]) as Hlist.
  { subst list. unfold ListS3s. simpl. repeat case_decide; [by left..|right].
    eexists. net_unfold. by destruct (remote conn log _) as [[]|]. }
  assert (wanted -> run = (match list.1 with
                           | Err cause =>
                               (d, Some (ErrorLookingUpS3Logging (d_Id d) serviceVersion cause))
                           | Ok s3List =>
                               ((ResourceData_Set d (key h)
                                   (pruneVCLLoggingAttributes h <$> flattenS3s s3List)).1,
                                None)
                           end, list.2)) as Hrun.
  { intros Hw. apply Hwanted in Hw. subst run.
    unfold S3LoggingServiceAttributeHandler_Read. cbv zeta. rewrite Hw.
    unfold net_bind. fold list. by destruct list as [[s3List|cause] log']. }
  split_and!.
  - intros Hw. subst run. unfold S3LoggingServiceAttributeHandler_Read. cbv zeta.
    destruct ((0 <? _)%nat || _) eqn:Hcond; [|done].
    destruct Hw. by apply Hwanted.
  - intros Hw. rewrite (Hrun Hw). split; [done|]. by destruct (list.1).
  - intros e. destruct (decide wanted) as [Hw|Hw].
    + rewrite (Hrun Hw). by destruct (list.1).
    + subst run. unfold S3LoggingServiceAttributeHandler_Read. cbv zeta.
      destruct ((0 <? _)%nat || _) eqn:Hcond; [|done].
      destruct Hw. by apply Hwanted.
  - destruct (decide wanted) as [Hw|Hw].
    + by rewrite (Hrun Hw).
    + left. subst run. unfold S3LoggingServiceAttributeHandler_Read. cbv zeta.
      destruct ((0 <? _)%nat || _) eqn:Hcond; [|done].
      destruct Hw. by apply Hwanted.
Qed.

(** A resource without S3 logging blocks that was not imported. *)
Lemma S3_Read_lists_once_witness :
  S3LoggingServiceAttributeHandler_Read (fun _ m => m)
    (fun d k v => ({| d_Id := d_Id d; d_blocks := <[k := v]> (d_blocks d);
                      d_imported := d_imported d |}, None))
    sample_handler {| d_Id := "svc"; d_blocks := ∅; d_imported := false |} 3
    (constant_remote (BodyS3s [S3_named "logs"])) []
  = (({| d_Id := "svc"; d_blocks := ∅; d_imported := false |}, None), []).
Proof.
  apply (S3_Read_lists_once (fun _ m => m)
           (fun d k v => ({| d_Id := d_Id d; d_blocks := <[k := v]> (d_blocks d);
                             d_imported := d_imported d |}, None))
           sample_handler {| d_Id := "svc"; d_blocks := ∅; d_imported := false |} 3
           (constant_remote (BodyS3s [S3_named "logs"])) []).
  intros [Hblocks|Himported]; [by apply Hblocks|discriminate Himported].
Defined.

(** ** The keys of a form body *)

Lemma field_string_keys (k v : string) : (field_string k v).*1 `sublist_of` [k].
Proof. unfold field_string. case_decide; [apply sublist_nil_l|done]. Qed.

Lemma field_uint_keys (k : string) (v : Z) : (field_uint k v).*1 `sublist_of` [k].
Proof. unfold field_uint. case_decide; [apply sublist_nil_l|done]. Qed.

Lemma field_bool_keys (k : string) (v : bool) : (field_bool k v).*1 `sublist_of` [k].
Proof. destruct v; [done|apply sublist_nil_l]. Qed.

Lemma field_ptr_keys {T} (show : T -> string) (k : string) (v : option T) :
  (field_ptr show k v).*1 `sublist_of` [k].
Proof. destruct v; [done|apply sublist_nil_l]. Qed.

(** The keys of a form are among the keys of its fields, in order. *)
Ltac form_keys :=
  rewrite ?fmap_app;
  repeat first [ apply field_string_keys | apply field_uint_keys
               | apply field_bool_keys | apply field_ptr_keys
               | apply sublist_app
               | match goal with |- (if ?b then _ else _).*1 `sublist_of` _ =>
                   instantiate (1 := ["ignore_if_set"]);
                   destruct b; [done|apply sublist_nil_l] end
               | reflexivity ].

(** X16: no form body carries a key twice, whatever the input of the
    Create or of the Update. *)
Theorem Operation_form_keys_distinct (op : Operation) : NoDup (Operation_form op).*1.
Proof.
  destruct op; cbn [Operation_form]; try apply NoDup_nil_2;
    unfold CreateS3Input_form, UpdateS3Input_form, CreateHeaderInput_form,
      UpdateHeaderInput_form, CreateGzipInput_form, UpdateGzipInput_form,
      CreateServerInput_form, UpdateServerInput_form;
    (eapply sublist_NoDup; [|form_keys]);
    cbn [fmap list_fmap fst app];
    apply (bool_decide_unpack _); vm_compute; exact I.
Qed.

(** ** The encryption sent by Create *)

Lemma field_string_pair (k k' v x : string) :
  (k, v) ∈ field_string k' x -> k = k' ∧ v = x ∧ x ≠ "".
Proof.
  unfold field_string. case_decide; [by intros ?%elem_of_nil|].
  intros [= -> ->]%list_elem_of_singleton. done.
Qed.

Lemma field_uint_pair (k k' v : string) (x : Z) :
  (k, v) ∈ field_uint k' x -> k = k'.
Proof.
  unfold field_uint. case_decide; [by intros ?%elem_of_nil|].
  intros [= -> ->]%list_elem_of_singleton. done.
Qed.

Lemma field_string_here (k v : string) : v ≠ "" -> (k, v) ∈ field_string k v.
Proof. intros Hv. unfold field_string. rewrite decide_False by done. apply list_elem_of_here. Qed.

Lemma S3_Create_sends
    (getVCLLoggingAttributes :
       DefaultServiceAttributeHandler -> gmap string any -> outcome VCLLoggingAttributes)
    (uintOrDefault : option Z -> Z) (h : DefaultServiceAttributeHandler)
    (conn : Client) (serviceID : string) (resource : gmap string any)
    (serviceVersion : Z) (log log' : list Request) (res : outcome (option error)) :
  S3LoggingServiceAttributeHandler_Create getVCLLoggingAttributes uintOrDefault
    h conn serviceID resource serviceVersion log = (res, log') ->
  log' = log ∨
  ∃ opts path,
    S3LoggingServiceAttributeHandler_buildCreate getVCLLoggingAttributes uintOrDefault
      h resource serviceID serviceVersion = Returns (Ok opts) ∧
    log' = log ++ [ {| req_method := POST; req_path := path;
                       req_form := CreateS3Input_form opts |} ].
Proof.
  unfold S3LoggingServiceAttributeHandler_Create.
  destruct (S3LoggingServiceAttributeHandler_buildCreate _ _ _ _ _ _) as [[opts|err]|msg];
    try (unfold net_ret; intros; simplify_eq; by left).
  unfold createS3, CreateS3, net_bind.
  repeat case_decide; try (unfold net_ret; intros; simplify_eq; by left).
  unfold Client_PostForm, roundtrip. intros Hrun. right. eexists opts, _. split; [done|].
  destruct (remote conn log _) as [body|]; [destruct (decodeS3 body)|];
    unfold net_ret in Hrun; by simplify_eq.
Qed.

(** X17: the request of a [Create] of an S3 logger carries the
    configured server_side_encryption only when it is AES256 or aws:kms;
    any other configured value is dropped by [buildCreate], and the
    request then has no server_side_encryption at all. *)
Theorem S3_Create_sends_known_encryption
    (getVCLLoggingAttributes :
       DefaultServiceAttributeHandler -> gmap string any -> outcome VCLLoggingAttributes)
    (uintOrDefault : option Z -> Z) (h : DefaultServiceAttributeHandler)
    (conn : Client) (serviceID : string) (resource : gmap string any)
    (serviceVersion : Z) (log : list Request) (res : outcome (option error))
    (req : Request) (encryption : string) :
  S3LoggingServiceAttributeHandler_Create getVCLLoggingAttributes uintOrDefault
    h conn serviceID resource serviceVersion log = (res, log ++ [req]) ->
  resource !! "server_side_encryption" = Some (AString encryption) ->
  ∀ v, ("server_side_encryption", v) ∈ req_form req
       ↔ v = encryption ∧
         (encryption = S3ServerSideEncryptionAES ∨ encryption = S3ServerSideEncryptionKMS).
Proof.
  intros Hrun Hsse v.
  apply S3_Create_sends in Hrun as [Hlog|(opts & path & Hbuild & Hlog)].
  { symmetry in Hlog. by apply log_grows in Hlog. }
  apply (inj (app log)) in Hlog. injection Hlog as ->.
  unfold S3LoggingServiceAttributeHandler_buildCreate in Hbuild.
  rewrite Hsse in Hbuild. obind_inv Hbuild. apply Returns_Ok_inj in Hbuild as <-.
  cbn [req_form]. unfold CreateS3Input_form. cbn [CreateS3Input_ServiceID
    CreateS3Input_ServiceVersion CreateS3Input_Name CreateS3Input_BucketName
    CreateS3Input_Domain CreateS3Input_AccessKey CreateS3Input_SecretKey
    CreateS3Input_IAMRole CreateS3Input_Path CreateS3Input_Period
    CreateS3Input_CompressionCodec CreateS3Input_GzipLevel CreateS3Input_Format
    CreateS3Input_MessageType CreateS3Input_FormatVersion
    CreateS3Input_ResponseCondition CreateS3Input_TimestampFormat
    CreateS3Input_Redundancy CreateS3Input_Placement CreateS3Input_PublicKey
    CreateS3Input_ServerSideEncryptionKMSKeyID CreateS3Input_ServerSideEncryption
    CreateS3Input_ACL].
  clear. split.
  - intros H.
    repeat match type of H with
           | _ ∈ _ ++ _ => apply elem_of_app in H as [H|H]
           end;
      try (apply field_string_pair in H as (Hk & -> & Hv); try discriminate Hk);
      try (apply field_uint_pair in H as Hk; discriminate Hk).
    + rewrite !elem_of_cons in H. destruct H as [[=]|[[=]|H]]. by apply elem_of_nil in H.
    + unfold S3ServerSideEncryptionAES, S3ServerSideEncryptionKMS in *.
      repeat case_decide; subst; try done; split; auto.
  - intros [-> Hknown].
    assert ((if decide (encryption = S3ServerSideEncryptionAES) then S3ServerSideEncryptionAES
             else if decide (encryption = S3ServerSideEncryptionKMS)
                  then S3ServerSideEncryptionKMS else "") = encryption) as ->.
    { repeat case_decide; try done. by destruct Hknown. }
    assert (encryption ≠ "") as Hne by (by destruct Hknown as [->| ->]).
    repeat first [ apply elem_of_app; left; by apply field_string_here
                 | apply elem_of_app; right ].
Qed.

(** The sample block with an encryption that go-fastly does not know:
    the request of the Create has no server_side_encryption. *)
Lemma S3_Create_sends_known_encryption_witness :
  ∃ req,
    (S3LoggingServiceAttributeHandler_Create sample_getVCLLoggingAttributes
       sample_uintOrDefault sample_handler (constant_remote (BodyS3 (S3_named "logs")))
       "svc" (<["server_side_encryption" := AString "aes256"]> (sample_S3_block 9)) 3 []).2
    = [req] ∧
    ("server_side_encryption", "aes256") ∉ req_form req.
Proof.
  destruct (S3LoggingServiceAttributeHandler_Create sample_getVCLLoggingAttributes
              sample_uintOrDefault sample_handler
              (constant_remote (BodyS3 (S3_named "logs")))
              "svc" (<["server_side_encryption" := AString "aes256"]> (sample_S3_block 9))
              3 []) as [res log'] eqn:Hrun.
  assert (∃ req, log' = [] ++ [req]) as [req ->].
  { vm_compute in Hrun. injection Hrun as _ <-. by eexists. }
  exists req. split; [done|]. intros Hin.
  apply (S3_Create_sends_known_encryption _ _ _ _ _ _ _ _ _ _ "aes256" Hrun) in Hin
    as [_ [Hknown|Hknown]]; [discriminate Hknown..|].
  vm_compute. reflexivity.
Defined.

(** ** Blocks that follow the schema *)

Lemma S3_schema_types (h : DefaultServiceAttributeHandler) :
  let s3 := BlockSchema_Elem (S3LoggingServiceAttributeHandler_GetSchema h) in
  Forall (fun k => ∃ sch, s3 !! k = Some sch ∧ Schema_Type sch = TypeString)
    S3_create_string_attributes ∧
  Forall (fun k => ∃ sch, s3 !! k = Some sch ∧ Schema_Type sch = TypeInt)
    S3_create_number_attributes ∧
  Forall (fun k => ∀ sch, s3 !! k = Some sch -> Schema_Type sch = TypeString)
    S3_update_string_attributes ∧
  Forall (fun k => ∀ sch, s3 !! k = Some sch -> Schema_Type sch = TypeInt)
    S3_update_number_attributes.
Proof.
  unfold S3LoggingServiceAttributeHandler_GetSchema. cbn [BlockSchema_Elem]. cbv zeta.
  case_decide; split_and!; repeat apply Forall_cons_2; try apply Forall_nil_2;
    first [ eexists; split; [vm_compute; reflexivity|reflexivity]
          | intros sch Hsch; vm_compute in Hsch;
            first [discriminate Hsch | by injection Hsch as <-] ].
Qed.

Lemma Datadog_schema_types (h : DefaultServiceAttributeHandler) :
  let datadog := BlockSchema_Elem (DatadogServiceAttributeHandler_GetSchema h) in
  Forall (fun k => ∃ sch, datadog !! k = Some sch ∧ Schema_Type sch = TypeString)
    Datadog_create_string_attributes ∧
  Forall (fun k => ∀ sch, datadog !! k = Some sch -> Schema_Type sch = TypeString)
    Datadog_update_string_attributes ∧
  Forall (fun k => ∀ sch, datadog !! k = Some sch -> Schema_Type sch = TypeInt)
    ["format_version"].
Proof.
  unfold DatadogServiceAttributeHandler_GetSchema. cbn [BlockSchema_Elem]. cbv zeta.
  case_decide; split_and!; repeat apply Forall_cons_2; try apply Forall_nil_2;
    first [ eexists; split; [vm_compute; reflexivity|reflexivity]
          | intros sch Hsch; vm_compute in Hsch;
            first [discriminate Hsch | by injection Hsch as <-] ].
Qed.

Lemma has_type_string (v : any) : has_type v TypeString -> ∃ s, v = AString s.
Proof. destruct v; try done. by eexists. Qed.

Lemma has_type_int (v : any) : has_type v TypeInt -> ∃ n, v = AInt n.
Proof. destruct v; try done. by eexists. Qed.

Lemma follows_schema_typed (attributes : gmap string Schema) (m : gmap string any)
    (strings numbers : list string) :
  follows_schema attributes m ->
  Forall (fun k => ∃ sch, attributes !! k = Some sch ∧ Schema_Type sch = TypeString) strings ->
  Forall (fun k => ∃ sch, attributes !! k = Some sch ∧ Schema_Type sch = TypeInt) numbers ->
  block_typed strings numbers m.
Proof.
  intros Hfollows Hs Hn. split.
  - eapply Forall_impl; [exact Hs|]. intros k (sch & Hsch & Hty).
    destruct (Hfollows k sch Hsch) as (v & Hv & Hv'). rewrite Hty in Hv'.
    apply has_type_string in Hv' as [s ->]. by exists s.
  - eapply Forall_impl; [exact Hn|]. intros k (sch & Hsch & Hty).
    destruct (Hfollows k sch Hsch) as (v & Hv & Hv'). rewrite Hty in Hv'.
    apply has_type_int in Hv' as [n ->]. by exists n.
Qed.

Lemma changes_follow_schema_typed (attributes : gmap string Schema) (m : gmap string any)
    (strings numbers : list string) :
  changes_follow_schema attributes m ->
  Forall (fun k => ∀ sch, attributes !! k = Some sch -> Schema_Type sch = TypeString)
    strings ->
  Forall (fun k => ∀ sch, attributes !! k = Some sch -> Schema_Type sch = TypeInt) numbers ->
  changes_typed strings numbers m.
Proof.
  intros Hfollows Hs Hn. split.
  - eapply Forall_impl; [exact Hs|]. intros k Hty v Hv.
    destruct (Hfollows k v Hv) as (sch & Hsch & Hv'). rewrite (Hty sch Hsch) in Hv'.
    by apply has_type_string.
  - eapply Forall_impl; [exact Hn|]. intros k Hty v Hv.
    destruct (Hfollows k v Hv) as (sch & Hsch & Hv'). rewrite (Hty sch Hsch) in Hv'.
    by apply has_type_int.
Qed.

Lemma block_typed_name (strings numbers : list string) (m : gmap string any) :
  "name" ∈ strings -> block_typed strings numbers m -> ∃ s, m !! "name" = Some (AString s).
Proof. intros Hin [Hs _]. by apply (proj1 (Forall_forall _ _) Hs). Qed.

Lemma S3_buildCreate_typed
    (getVCLLoggingAttributes :
       DefaultServiceAttributeHandler -> gmap string any -> outcome VCLLoggingAttributes)
    (uintOrDefault : option Z -> Z) (h : DefaultServiceAttributeHandler)
    (serviceID : string) (serviceVersion : Z) (resource : gmap string any) :
  (∃ vla, getVCLLoggingAttributes h resource = Returns vla) ->
  block_typed S3_create_string_attributes S3_create_number_attributes resource ->
  ∃ opts, S3LoggingServiceAttributeHandler_buildCreate getVCLLoggingAttributes
            uintOrDefault h resource serviceID serviceVersion = Returns (Ok opts).
Proof.
  intros [vla Hvla] [Hs Hn].
  unfold S3LoggingServiceAttributeHandler_buildCreate. rewrite Hvla. cbn [obind].
  unfold S3_create_string_attributes, S3_create_number_attributes in *.
  typed_results. run_assertions.
Qed.

Lemma Datadog_buildCreate_typed
    (getVCLLoggingAttributes :
       DefaultServiceAttributeHandler -> gmap string any -> outcome VCLLoggingAttributes)
    (uintOrDefault : option Z -> Z) (h : DefaultServiceAttributeHandler)
    (serviceID : string) (serviceVersion : Z) (resource : gmap string any) :
  (∃ vla, getVCLLoggingAttributes h resource = Returns vla) ->
  block_typed Datadog_create_string_attributes [] resource ->
  ∃ opts, DatadogServiceAttributeHandler_buildCreate getVCLLoggingAttributes
            uintOrDefault h resource serviceID serviceVersion = Returns opts.
Proof.
  intros [vla Hvla] [Hs Hn].
  unfold DatadogServiceAttributeHandler_buildCreate. rewrite Hvla. cbn [obind].
  unfold Datadog_create_string_attributes in *.
  typed_results. run_assertions.
Qed.

Lemma S3_Update_opts_typed (serviceID : string) (serviceVersion : Z)
    (resource modified : gmap string any) :
  (∃ s, resource !! "name" = Some (AString s)) ->
  changes_typed S3_update_string_attributes S3_update_number_attributes modified ->
  ∃ opts, S3LoggingServiceAttributeHandler_Update_opts serviceID resource modified
            serviceVersion = Returns opts.
Proof.
  intros Hname [Hs Hn]. unfold S3LoggingServiceAttributeHandler_Update_opts.
  unfold S3_update_string_attributes, S3_update_number_attributes in *.
  typed_results.
  repeat match goal with
         | H : ∀ v, modified !! ?k = Some v -> ∃ s, v = AString s |- _ =>
             apply (proj2 (changed_string_typed _ _)) in H as [? H]
         end.
  repeat match goal with
         | H : ∀ v, modified !! "gzip_level" = Some v -> ∃ n, v = AInt n |- _ =>
             apply (proj2 (changed_uint8_typed _ _)) in H as [? H]
         | H : ∀ v, modified !! ?k = Some v -> ∃ n, v = AInt n |- _ =>
             apply (proj2 (changed_uint_typed _ _)) in H as [? H]
         end.
  run_assertions.
Qed.

Lemma Datadog_Update_opts_typed (serviceID : string) (serviceVersion : Z)
    (resource modified : gmap string any) :
  (∃ s, resource !! "name" = Some (AString s)) ->
  changes_typed Datadog_update_string_attributes ["format_version"] modified ->
  ∃ opts, DatadogServiceAttributeHandler_Update_opts serviceID resource modified
            serviceVersion = Returns opts.
Proof.
  intros Hname [Hs Hn]. unfold DatadogServiceAttributeHandler_Update_opts.
  unfold Datadog_update_string_attributes in *.
  typed_results.
  repeat match goal with
         | H : ∀ v, modified !! ?k = Some v -> ∃ s, v = AString s |- _ =>
             apply (proj2 (changed_string_typed _ _)) in H as [? H]
         | H : ∀ v, modified !! ?k = Some v -> ∃ n, v = AInt n |- _ =>
             apply (proj2 (changed_uint_typed _ _)) in H as [? H]
         end.
  run_assertions.
Qed.

(** X18: the type assertions of the handlers agree with the schemas.  A
    block that holds every attribute of the handler's schema with the
    type of the schema (string for TypeString, int for TypeInt) makes
    [buildCreate] and [buildDelete] return, for the S3 and for the
    Datadog handler and for both service types, when
    [getVCLLoggingAttributes] returns; with such a block, a changed set
    whose attributes are attributes of the schema with its types makes
    [Update] build its options.  So no type assertion of the handlers
    panics on data that follows the schema. *)
Theorem schema_typed_blocks_do_not_panic
    (getVCLLoggingAttributes :
       DefaultServiceAttributeHandler -> gmap string any -> outcome VCLLoggingAttributes)
    (uintOrDefault : option Z -> Z) (h : DefaultServiceAttributeHandler)
    (serviceID : string) (serviceVersion : Z) (resource modified : gmap string any) :
  let s3 := BlockSchema_Elem (S3LoggingServiceAttributeHandler_GetSchema h) in
  let datadog := BlockSchema_Elem (DatadogServiceAttributeHandler_GetSchema h) in
  (follows_schema s3 resource ->
   ((∃ vla, getVCLLoggingAttributes h resource = Returns vla) ->
    ∃ opts, S3LoggingServiceAttributeHandler_buildCreate getVCLLoggingAttributes
              uintOrDefault h resource serviceID serviceVersion = Returns (Ok opts)) ∧
   (∃ opts, S3LoggingServiceAttributeHandler_buildDelete resource serviceID serviceVersion
            = Returns opts) ∧
   (changes_follow_schema s3 modified ->
    ∃ opts, S3LoggingServiceAttributeHandler_Update_opts serviceID resource modified
              serviceVersion = Returns opts)) ∧
  (follows_schema datadog resource ->
   ((∃ vla, getVCLLoggingAttributes h resource = Returns vla) ->
    ∃ opts, DatadogServiceAttributeHandler_buildCreate getVCLLoggingAttributes
              uintOrDefault h resource serviceID serviceVersion = Returns opts) ∧
   (∃ opts, DatadogServiceAttributeHandler_buildDelete resource serviceID serviceVersion
            = Returns opts) ∧
   (changes_follow_schema datadog modified ->
    ∃ opts, DatadogServiceAttributeHandler_Update_opts serviceID resource modified
              serviceVersion = Returns opts)).
Proof.
  intros s3 datadog.
  destruct (S3_schema_types h) as (Hcs & Hcn & Hus & Hun).
  destruct (Datadog_schema_types h) as (Hdc & Hdus & Hdun).
  split; intros Hfollows.
  - pose proof (follows_schema_typed _ _ _ _ Hfollows Hcs Hcn) as Htyped.
    assert (∃ s, resource !! "name" = Some (AString s)) as Hname.
    { eapply block_typed_name; [|exact Htyped]. apply list_elem_of_here. }
    split_and!.
    + intros Hvla. by apply S3_buildCreate_typed.
    + unfold S3LoggingServiceAttributeHandler_buildDelete.
      destruct Hname as [s ->]. by eexists.
    + intros Hchanges. apply S3_Update_opts_typed; [done|].
      by apply (changes_follow_schema_typed s3).
  - pose proof (follows_schema_typed _ _ _ [] Hfollows Hdc (Forall_nil_2 _)) as Htyped.
    assert (∃ s, resource !! "name" = Some (AString s)) as Hname.
    { eapply block_typed_name; [|exact Htyped]. apply list_elem_of_here. }
    split_and!.
    + intros Hvla. by apply Datadog_buildCreate_typed.
    + unfold DatadogServiceAttributeHandler_buildDelete.
      destruct Hname as [s ->]. by eexists.
    + intros Hchanges. apply Datadog_Update_opts_typed; [done|].
      by apply (changes_follow_schema_typed datadog).
Qed.

(** The Datadog block of a compute service, with a changed token. *)
Lemma schema_typed_blocks_do_not_panic_witness :
  ∃ opts, DatadogServiceAttributeHandler_Update_opts "svc" sample_Datadog_block
            {["token" := AString "rotated"]} 3 = Returns opts.
Proof.
  destruct (schema_typed_blocks_do_not_panic sample_getVCLLoggingAttributes
              sample_uintOrDefault sample_handler "svc" 3 sample_Datadog_block
              {["token" := AString "rotated"]}) as [_ Hdatadog].
  destruct Hdatadog as (_ & _ & Hupdate).
  - intros k sch Hk.
    assert (k ∈ dom (BlockSchema_Elem
                       (DatadogServiceAttributeHandler_GetSchema sample_handler))) as Hdom.
    { apply elem_of_dom. by eexists. }
    rewrite Datadog_GetSchema_dom in Hdom. apply elem_of_list_to_set in Hdom.
    change (k ∈ ["name"; "region"; "token"]) in Hdom. rewrite !elem_of_cons in Hdom.
    destruct Hdom as [->|[->|[->|Hnil]]]; [..|by apply elem_of_nil in Hnil];
      vm_compute in Hk; injection Hk as <-; eexists; (split; [vm_compute; reflexivity|exact I]).
  - apply Hupdate. intros k v Hk.
    destruct (decide (k = "token")) as [->|Hne].
    + vm_compute in Hk. injection Hk as <-.
      eexists. split; [vm_compute; reflexivity|exact I].
    + rewrite lookup_singleton_ne in Hk by done. discriminate Hk.
Defined.

(** ** Create and read back, for Datadog *)

(** X19: let a Datadog logging block be turned into a create input by
    [buildCreate], and let the record read back have the fields of that
    input.  Then flattening the record recovers the configured name,
    token and region (an empty string may come back as an absent key),
    and gives the format, format version, placement and response
    condition that [getVCLLoggingAttributes] read, with no condition on
    the configured values. *)
Theorem Datadog_flatten_recovers_configuration
    (getVCLLoggingAttributes :
       DefaultServiceAttributeHandler -> gmap string any -> outcome VCLLoggingAttributes)
    (uintOrDefault : option Z -> Z)
    (h : DefaultServiceAttributeHandler) (df : gmap string any)
    (serviceID : string) (serviceVersion : Z) (opts : CreateDatadogInput) :
  DatadogServiceAttributeHandler_buildCreate getVCLLoggingAttributes uintOrDefault
    h df serviceID serviceVersion = Returns opts ->
  let m := flattenDatadog_entry (Datadog_created opts) in
  Forall (fun k => recovers (df !! k) (m !! k)) Datadog_common_attributes ∧
  ∃ vla, getVCLLoggingAttributes h df = Returns vla ∧
    m !! "format_version" = Some (AUint (uintOrDefault (vla_formatVersion vla))) ∧
    recovers (Some (AString (vla_format vla))) (m !! "format") ∧
    recovers (Some (AString (vla_placement vla))) (m !! "placement") ∧
    recovers (Some (AString (vla_responseCondition vla))) (m !! "response_condition").
Proof.
  intros Hbuild m. subst m.
  unfold DatadogServiceAttributeHandler_buildCreate in Hbuild.
  obind_inv Hbuild. injection Hbuild as <-.
  repeat match goal with
         | H : assert_string _ = Returns _ |- _ => apply assert_string_Returns in H
         end.
  unfold flattenDatadog_entry, Datadog_created, Datadog_common_attributes. cbv zeta.
  cbn [Datadog_Name Datadog_Token Datadog_Region Datadog_Format Datadog_FormatVersion
       Datadog_Placement Datadog_ResponseCondition
       CreateDatadogInput_Name CreateDatadogInput_Token CreateDatadogInput_Region
       CreateDatadogInput_Format CreateDatadogInput_FormatVersion
       CreateDatadogInput_Placement CreateDatadogInput_ResponseCondition].
  split.
  - repeat apply Forall_cons_2; [..|apply Forall_nil_2];
      rewrite lookup_prune_empty; lookup_literal;
      match goal with H : df !! _ = Some _ |- recovers (df !! _) _ => rewrite H end;
      by apply recovers_string.
  - eexists. split; [reflexivity|].
    split_and!; rewrite lookup_prune_empty; lookup_literal;
      first [by rewrite decide_False | by apply recovers_string].
Qed.

(** The sample Datadog block. *)
Lemma Datadog_flatten_recovers_configuration_witness :
  Forall (fun k => recovers (sample_Datadog_block !! k)
                     (flattenDatadog_entry
                        {| Datadog_Name := "dd"; Datadog_Token := "secret";
                           Datadog_Region := "EU"; Datadog_Format := "";
                           Datadog_FormatVersion := 0; Datadog_Placement := "none";
                           Datadog_ResponseCondition := "" |} !! k))
    Datadog_common_attributes.
Proof.
  apply (Datadog_flatten_recovers_configuration sample_getVCLLoggingAttributes
           sample_uintOrDefault sample_handler sample_Datadog_block "svc" 3
           {| CreateDatadogInput_ServiceID := "svc"; CreateDatadogInput_ServiceVersion := 3;
              CreateDatadogInput_Name := "dd"; CreateDatadogInput_Token := "secret";
              CreateDatadogInput_Region := "EU"; CreateDatadogInput_Format := "";
              CreateDatadogInput_FormatVersion := 0;
              CreateDatadogInput_Placement := "none";
              CreateDatadogInput_ResponseCondition := "" |}).
  vm_compute. reflexivity.
Defined.

(** ** When an update panics *)

Lemma UpdateS3_kms_check_Panics (i : UpdateS3Input) :
  (∃ msg, UpdateS3_kms_check i = Panics msg)
  ↔ UpdateS3Input_ServerSideEncryption i = Some S3ServerSideEncryptionKMS ∧
    UpdateS3Input_ServerSideEncryptionKMSKeyID i = None.
Proof.
  unfold UpdateS3_kms_check.
  destruct (UpdateS3Input_ServerSideEncryption i) as [sse|];
    [|split; [by intros [? ?]|by intros [? _]]].
  case_decide as Hsse; [subst sse|split; [by intros [? ?]|by intros [[= ?] _]]].
  destruct (UpdateS3Input_ServerSideEncryptionKMSKeyID i) as [kid|]; simpl.
  - split; [by intros [? ?]|by intros [_ ?]].
  - split; [done|]. intros _. by eexists.
Qed.

Lemma UpdateS3_panics (c : Client) (i : UpdateS3Input) (log : list Request) :
  (∃ msg, (UpdateS3 c i log).1 = Panics msg)
  ↔ UpdateS3Input_ServiceID i ≠ "" ∧ UpdateS3Input_ServiceVersion i ≠ 0 ∧
    UpdateS3Input_Name i ≠ "" ∧
    UpdateS3Input_ServerSideEncryption i = Some S3ServerSideEncryptionKMS ∧
    UpdateS3Input_ServerSideEncryptionKMSKeyID i = None.
Proof.
  rewrite <-UpdateS3_kms_check_Panics. unfold UpdateS3.
  repeat case_decide; try (split; [by intros [? ?]|by intros (? & ? & ? & ?)]).
  destruct (UpdateS3_kms_check i) as [[]|msg] eqn:Hcheck; simpl.
  - split; [by intros [? ?]|by intros (_ & _ & _ & ? & ?)].
  - net_unfold. split; [|by intros (_ & _ & _ & ? & ?)].
    intros [msg Hrun]. revert Hrun. by remote_cases.
  - split; [|by eexists]. intros _. split_and!; try done. by eexists.
Qed.

Lemma changed_string_Some_iff (m : gmap string any) (k s : string) (x : option string) :
  changed_string m k = Returns x -> (x = Some s ↔ m !! k = Some (AString s)).
Proof.
  unfold changed_string. destruct (m !! k) as [[]|]; simpl; intros; simplify_eq;
    split; intros; by simplify_eq.
Qed.

(** X20: [UpdateS3] panics exactly when its identifying fields are
    present, the encryption points to aws:kms and the KMS key ID is nil.
    So an [Update] of the S3 handler whose options are built panics
    exactly when the service ID, the version and the name are present and
    the changed set holds aws:kms as server_side_encryption without
    holding server_side_encryption_kms_key_id. *)
Theorem S3_Update_panics_iff (conn : Client) (log : list Request) :
  (∀ i,
     (∃ msg, (UpdateS3 conn i log).1 = Panics msg)
     ↔ UpdateS3Input_ServiceID i ≠ "" ∧ UpdateS3Input_ServiceVersion i ≠ 0 ∧
       UpdateS3Input_Name i ≠ "" ∧
       UpdateS3Input_ServerSideEncryption i = Some S3ServerSideEncryptionKMS ∧
       UpdateS3Input_ServerSideEncryptionKMSKeyID i = None) ∧
  (∀ serviceID resource modified serviceVersion opts name,
     S3LoggingServiceAttributeHandler_Update_opts serviceID resource modified serviceVersion
     = Returns opts ->
     resource !! "name" = Some (AString name) ->
     (∃ msg, (S3LoggingServiceAttributeHandler_Update conn serviceID resource modified
                serviceVersion log).1 = Panics msg)
     ↔ serviceID ≠ "" ∧ serviceVersion ≠ 0 ∧ name ≠ "" ∧
       modified !! "server_side_encryption" = Some (AString S3ServerSideEncryptionKMS) ∧
       modified !! "server_side_encryption_kms_key_id" = None).
Proof.
  split; [intros i; apply UpdateS3_panics|].
  intros serviceID resource modified serviceVersion opts name Hopts Hname.
  assert ((∃ msg, (S3LoggingServiceAttributeHandler_Update conn serviceID resource modified
                     serviceVersion log).1 = Panics msg)
          ↔ ∃ msg, (UpdateS3 conn opts log).1 = Panics msg) as ->.
  { unfold S3LoggingServiceAttributeHandler_Update. rewrite Hopts. unfold net_bind.
    destruct (UpdateS3 conn opts log) as [[[s3|err]|msg] log']; simpl;
      (split; intros [msg' Hmsg]; [try done|try done]); by eexists. }
  rewrite UpdateS3_panics.
  unfold S3LoggingServiceAttributeHandler_Update_opts in Hopts.
  rewrite Hname in Hopts. obind_inv Hopts. injection Hopts as <-.
  cbn [UpdateS3Input_ServiceID UpdateS3Input_ServiceVersion UpdateS3Input_Name
       UpdateS3Input_ServerSideEncryption UpdateS3Input_ServerSideEncryptionKMSKeyID].
  repeat match goal with
         | H : changed_string modified "server_side_encryption" = Returns _ |- _ =>
             rewrite (changed_string_Some_iff _ _ S3ServerSideEncryptionKMS _ H); clear H
         | H : changed_string modified "server_side_encryption_kms_key_id" = Returns _
           |- _ => rewrite <-(changed_string_None _ _ _ H); clear H
         end.
  match goal with
  | H : assert_string (Some (AString name)) = Returns ?s |- _ => injection H as <-
  | _ => idtac
  end.
  done.
Qed.

(** Changing only the encryption of the logger [logs] to aws:kms. *)
Lemma S3_Update_panics_iff_witness :
  ∃ msg, (S3LoggingServiceAttributeHandler_Update
            (constant_remote (BodyS3 (S3_named "logs"))) "svc"
            {["name" := AString "logs"]}
            {["server_side_encryption" := AString "aws:kms"]} 3 []).1 = Panics msg.
Proof.
  destruct (S3LoggingServiceAttributeHandler_Update_opts "svc" {["name" := AString "logs"]}
              {["server_side_encryption" := AString "aws:kms"]} 3) as [opts|] eqn:Hopts;
    [|vm_compute in Hopts; discriminate Hopts].
  apply (proj2 (S3_Update_panics_iff (constant_remote (BodyS3 (S3_named "logs"))) [])
           "svc" {["name" := AString "logs"]}
           {["server_side_encryption" := AString "aws:kms"]} 3 opts "logs" Hopts).
  - vm_compute. reflexivity.
  - split_and!; try done; vm_compute; reflexivity.
Defined.
